(** * dibujapy: a shallow embedding of the map scripts

    The repository holds three Python scripts ([mapa.py], [dibuja.py] and
    [mapa_baja_california.py]) that prompt for a palette and a region, load
    JSON configuration and vector data, and draw a map.  This file embeds
    the decision logic of those scripts: palette loading and selection,
    zone loading, colour resolution, the region prompt, the visible-zone
    filter, the marker geometry, the label contrast rule and the
    bounding-box loaders.

    Conventions of the embedding:
    - Python [float] is IEEE binary64, modelled by Rocq's primitive floats;
      every arithmetic operation and comparison below is the binary64 one.
    - A number read from JSON or from a dataset is modelled by its
      binary64 value.  Python keeps an integer literal as an [int] and
      compares it exactly with a [float]: the two agree for integers up to
      2^53 in magnitude, and larger integers are outside the embedding.
    - Python [str] is modelled by [string], restricted to ASCII characters
      (a character per byte): [lower], [strip] and [int] are those of
      ASCII text.
    - A Python exception is a value of [excepcion]; code that may raise
      returns a [resultado].
    - What the code reads from the outside (a prompt line, a file, the
      network, the [math.cos] of the C library, the colours matplotlib
      knows by name, the geometry predicates of shapely) is an argument of
      the embedded function. *)

From Stdlib Require Import ZArith Floats Uint63 String Ascii List Bool Lia.
From stdpp Require Import gmap strings list fin_maps.

Set Warnings "-inexact-float,-register-all".
Local Open Scope string_scope.
Local Open Scope list_scope.

(** ** Python values, exceptions and built-ins *)

Module Py.

(** The exceptions the embedded code can raise. *)
Inductive excepcion :=
  | ValueError
  | TypeError
  | AttributeError
  | IndexError
  | ZeroDivisionError
  | OSError.

(** The outcome of running a piece of Python: a value or a raised exception. *)
Inductive resultado (A : Type) :=
  | Ok (a : A)
  | Lanza (e : excepcion).
Arguments Ok {A} a.
Arguments Lanza {A} e.

#[export] Instance resultado_ret : MRet resultado := fun A a => Ok a.
#[export] Instance resultado_bind : MBind resultado := fun A B f r =>
  match r with
  | Ok a => f a
  | Lanza e => Lanza e
  end.

(** [try: cuerpo / except Exception: manejador]. *)
Definition try_except {A} (cuerpo : resultado A) (manejador : excepcion → resultado A)
  : resultado A :=
  match cuerpo with
  | Ok a => Ok a
  | Lanza e => manejador e
  end.

(** Sequencing a function that may raise over a list, left to right. *)
Fixpoint para_cada {A B} (f : A → resultado B) (l : list A) : resultado (list B) :=
  match l with
  | [] => Ok []
  | x :: l' => y ← f x; ys ← para_cada f l'; Ok (y :: ys)
  end.

(** A list comprehension [[x for x in l if p(x)]] whose test may raise. *)
Fixpoint filtrar {A} (p : A → resultado bool) (l : list A) : resultado (list A) :=
  match l with
  | [] => Ok []
  | x :: l' =>
      b ← p x; xs ← filtrar p l';
      Ok (if b : bool then x :: xs else xs)
  end.

(** The values [json.load] produces.  A JSON number is kept as the binary64
    value it has in float arithmetic (an integer literal below 2^53 is that
    integer exactly); a JSON object is a dict with string keys. *)
Inductive valor :=
  | VNone
  | VBool (b : bool)
  | VNum (f : float)
  | VStr (s : string)
  | VList (l : list valor)
  | VDict (d : gmap string valor).

(** Truth value of an object, as [if x:] and [not x] test it. *)
Definition es_verdadero (v : valor) : bool :=
  match v with
  | VNone => false
  | VBool b => b
  | VNum f => negb (f =? 0)%float
  | VStr s => negb (String.eqb s "")
  | VList l => negb (Nat.eqb (length l) 0)
  | VDict d => negb (Nat.eqb (size d) 0)
  end.

(** [v.get(clave, defecto)]: only a dict has the method. *)
Definition get (v : valor) (clave : string) (defecto : valor) : resultado valor :=
  match v with
  | VDict d => Ok (default defecto (d !! clave))
  | _ => Lanza AttributeError
  end.

(** [v[clave] = x] for a string key: only a dict accepts it. *)
Definition setitem (v : valor) (clave : string) (x : valor) : resultado valor :=
  match v with
  | VDict d => Ok (VDict (<[clave := x]> d))
  | _ => Lanza TypeError
  end.

(** [len(v)]. *)
Definition len (v : valor) : resultado nat :=
  match v with
  | VStr s => Ok (String.length s)
  | VList l => Ok (length l)
  | VDict d => Ok (size d)
  | _ => Lanza TypeError
  end.

(** The elements [for x in v] visits: the items of a list, the keys of a
    dict, the characters of a string. *)
Definition iterar (v : valor) : resultado (list valor) :=
  match v with
  | VList l => Ok l
  | VDict d => Ok ((λ kv, VStr kv.1) <$> map_to_list d)
  | VStr s => Ok ((λ c, VStr (String c "")) <$> list_ascii_of_string s)
  | _ => Lanza TypeError
  end.

(** The number an object stands for in a comparison with a float or in
    [math.radians]: [bool] is a subclass of [int]. *)
Definition como_numero (v : valor) : resultado float :=
  match v with
  | VNum f => Ok f
  | VBool b => Ok (if b then 1 else 0)%float
  | _ => Lanza TypeError
  end.

(** [a / b] on floats. *)
Definition dividir (a b : float) : resultado float :=
  if (b =? 0)%float then Lanza ZeroDivisionError else Ok (a / b)%float.

(** Conversion of an [int] to [float] (exact for the small integers used
    here). *)
Definition float_of_Z (z : Z) : float :=
  match z with
  | Z0 => 0%float
  | Zpos p => of_uint63 (Uint63.of_Z (Zpos p))
  | Zneg p => (- of_uint63 (Uint63.of_Z (Zpos p)))%float
  end.

(** *** Strings *)

Definition codigo (c : ascii) : Z := Z.of_nat (nat_of_ascii c).

(** Whitespace for [str.strip()]: the ASCII part of [str.isspace]. *)
Definition es_espacio_str (c : ascii) : bool :=
  let n := codigo c in
  ((9 <=? n) && (n <=? 13) || (28 <=? n) && (n <=? 32))%Z.

(** Whitespace for [int()]: the C locale's [isspace]. *)
Definition es_espacio_int (c : ascii) : bool :=
  let n := codigo c in
  ((9 <=? n) && (n <=? 13) || (n =? 32))%Z.

Fixpoint quitar_izquierda (p : ascii → bool) (s : list ascii) : list ascii :=
  match s with
  | [] => []
  | c :: s' => if p c then quitar_izquierda p s' else s
  end.

Definition quitar_derecha (p : ascii → bool) (s : list ascii) : list ascii :=
  rev (quitar_izquierda p (rev s)).

(** [s.strip()]. *)
Definition strip (s : string) : string :=
  string_of_list_ascii
    (quitar_derecha es_espacio_str
       (quitar_izquierda es_espacio_str (list_ascii_of_string s))).

(** [s.lstrip(c)] for a one-character argument. *)
Definition lstrip (c : ascii) (s : string) : string :=
  string_of_list_ascii (quitar_izquierda (Ascii.eqb c) (list_ascii_of_string s)).

Definition minuscula (c : ascii) : ascii :=
  let n := codigo c in
  if ((65 <=? n) && (n <=? 90))%Z then ascii_of_nat (nat_of_ascii c + 32) else c.

(** [s.lower()]. *)
Definition lower (s : string) : string :=
  string_of_list_ascii (minuscula <$> list_ascii_of_string s).

(** [s[i:j]] for [0 <= i <= j]: the slice is cut at the end of the string. *)
Definition slice (i j : nat) (s : string) : string := substring i (j - i) s.

(** [s.startswith(p)]. *)
Definition startswith (p s : string) : bool := String.prefix p s.

(** *** [int(s, base)]

    The parser of CPython for a string argument, for base 10 and base 16:
    surrounding whitespace, one optional sign, for base 16 an optional
    [0x] prefix (which one underscore may follow), then digits with single
    underscores between them. *)

Definition valor_digito (c : ascii) : option Z :=
  let n := codigo c in
  if ((48 <=? n) && (n <=? 57))%Z then Some (n - 48)%Z
  else if ((97 <=? n) && (n <=? 122))%Z then Some (n - 87)%Z
  else if ((65 <=? n) && (n <=? 90))%Z then Some (n - 55)%Z
  else None.

Definition digito (base : Z) (c : ascii) : option Z :=
  match valor_digito c with
  | Some d => if (d <? base)%Z then Some d else None
  | None => None
  end.

(** Reads digits and underscores; stops at the first other character.  A
    doubled or trailing underscore is an error. *)
Fixpoint leer_digitos (base : Z) (tras_guion : bool) (acc : Z) (s : list ascii)
  : option (Z * list ascii) :=
  match s with
  | [] => if tras_guion then None else Some (acc, [])
  | c :: s' =>
      if Ascii.eqb c "_" then
        if tras_guion then None else leer_digitos base true acc s'
      else
        match digito base c with
        | Some d => leer_digitos base false (acc * base + d)%Z s'
        | None => if tras_guion then None else Some (acc, s)
        end
  end.

Definition quitar_signo (s : list ascii) : bool * list ascii :=
  match s with
  | c :: s' =>
      if Ascii.eqb c "+" then (false, s')
      else if Ascii.eqb c "-" then (true, s')
      else (false, s)
  | [] => (false, [])
  end.

Definition quitar_prefijo (base : Z) (s : list ascii) : list ascii :=
  if (base =? 16)%Z then
    match s with
    | c0 :: cx :: r =>
        if Ascii.eqb c0 "0" && (Ascii.eqb cx "x" || Ascii.eqb cx "X") then
          match r with
          | g :: r' => if Ascii.eqb g "_" then r' else r
          | [] => r
          end
        else s
    | _ => s
    end
  else s.

Definition py_int (s : string) (base : Z) : resultado Z :=
  let s1 := quitar_izquierda es_espacio_int (list_ascii_of_string s) in
  let '(negativo, s2) := quitar_signo s1 in
  let s3 := quitar_prefijo base s2 in
  match s3 with
  | c :: _ =>
      match digito base c with
      | Some _ =>
          match leer_digitos base false 0 s3 with
          | Some (n, resto) =>
              match quitar_izquierda es_espacio_int resto with
              | [] => Ok (if negativo then - n else n)%Z
              | _ => Lanza ValueError
              end
          | None => Lanza ValueError
          end
      | None => Lanza ValueError
      end
  | [] => Lanza ValueError
  end.

(** *** Files *)

(** What [open] followed by [json.load] finds at a path. *)
Inductive archivo_en_disco :=
  | NoExiste
  | Ilegible
  | Contiene (data : valor).

(** [with open(ruta) as f: data = json.load(f)]. *)
Definition leer_json (f : archivo_en_disco) : resultado valor :=
  match f with
  | NoExiste => Lanza OSError
  | Ilegible => Lanza ValueError
  | Contiene data => Ok data
  end.

(** *** More string methods *)

(** [s.replace(" ", "")]. *)
Definition sin_espacios (s : string) : string :=
  string_of_list_ascii
    (List.filter (λ c, negb (Ascii.eqb c " ")) (list_ascii_of_string s)).

(** [s.split(sep)] for a one-character separator: the pieces between the
    separators, empty pieces included. *)
Fixpoint split_desde (sep : ascii) (pieza : list ascii) (s : list ascii) : list string :=
  match s with
  | [] => [string_of_list_ascii (rev pieza)]
  | c :: s' =>
      if Ascii.eqb c sep then string_of_list_ascii (rev pieza) :: split_desde sep [] s'
      else split_desde sep (c :: pieza) s'
  end.

Definition split (sep : ascii) (s : string) : list string :=
  split_desde sep [] (list_ascii_of_string s).

(** Whether [p] occurs in [s]. *)
Definition contiene (p s : string) : bool :=
  match String.index 0 p s with
  | Some _ => true
  | None => false
  end.

(** [min(a, b)] on floats: [b] only when [b < a]. *)
Definition py_min (a b : float) : float := if (b <? a)%float then b else a.

(** [os.path.exists] of the path a file reference designates. *)
Definition existe (f : archivo_en_disco) : bool :=
  match f with
  | NoExiste => false
  | _ => true
  end.

End Py.
Import Py.


(** ** mapa.py *)

Module Mapa.

(** Default region: the Baja California peninsula. *)
Definition LAT_MIN_DEFAULT : float := 22.0%float.
Definition LAT_MAX_DEFAULT : float := 33.0%float.
Definition LON_MIN_DEFAULT : float := (-120.0)%float.
Definition LON_MAX_DEFAULT : float := (-108.0)%float.

(** Spanish colour names and their hex codes. *)
Definition COLORES_ESPAÑOL : gmap string string :=
  list_to_map
    [ ("rojo", "#e63946"); ("azul", "#1d3557"); ("verde", "#2a9d8f");
      ("amarillo", "#f4a261"); ("naranja", "#e76f51"); ("morado", "#6a0dad");
      ("rosa", "#ff69b4"); ("negro", "#000000"); ("blanco", "#ffffff");
      ("gris", "#888888"); ("cafe", "#8b4513"); ("cyan", "#00bcd4");
      ("magenta", "#e91e63"); ("turquesa", "#40e0d0"); ("dorado", "#ffd700");
      ("plateado", "#c0c0c0") ].

(** *** Palettes *)

Definition campos_paleta_por_defecto : list (string * valor) :=
  [ ("nombre", VStr "Clásico (fondo blanco)");
    ("fondo_figura", VStr "#ffffff"); ("fondo_mapa", VStr "#ffffff");
    ("relleno_tierra", VStr "#f5e6ca"); ("contorno", VStr "#1a3c6e");
    ("division_estados", VStr "#cc3333"); ("texto_etiquetas", VStr "#1a1a1a");
    ("texto_stroke", VStr "#ffffff"); ("titulo", VStr "#1a3c6e");
    ("subtitulo", VStr "#666666"); ("ejes_texto", VStr "#333333");
    ("ejes_ticks", VStr "#444444"); ("ejes_bordes", VStr "#cccccc");
    ("cuadricula", VStr "#cccccc"); ("cuadricula_alpha", VNum 0.3);
    ("texto_info", VStr "#777777"); ("indicador_norte", VStr "#1a3c6e") ].

Definition paleta_por_defecto : valor :=
  VDict (list_to_map campos_paleta_por_defecto).

(** [cargar_paletas()], given what is at [ARCHIVO_PALETAS].  The value
    returned on success is whatever the file has under ["paletas"]. *)
Definition cargar_paletas (f : archivo_en_disco) : resultado valor :=
  match f with
  | NoExiste => Ok (VList [paleta_por_defecto])
  | _ =>
      try_except
        (data ← leer_json f;
         paletas ← get data "paletas" (VList []);
         if negb (es_verdadero paletas) then Ok (VList [paleta_por_defecto])
         else
           _ ← len paletas;
           Ok paletas)
        (λ _, Ok (VList [paleta_por_defecto]))
  end.

(** [paletas[sel]] for a list and an index already known not to be
    negative. *)
Definition elemento (paletas : list valor) (sel : Z) : resultado valor :=
  match paletas !! Z.to_nat sel with
  | Some p => Ok p
  | None => Lanza IndexError
  end.

(** [pedir_paleta(paletas)], given the line typed at the prompt. *)
Definition pedir_paleta (linea : string) (paletas : list valor) : resultado valor :=
  _ ← para_cada (λ p, _ ← get p "nombre" (VStr "Paleta"); Ok tt) paletas;
  let entrada := strip linea in
  let sel :=
    if negb (String.eqb entrada "") then
      match py_int entrada 10 with
      | Ok n => (n - 1)%Z
      | Lanza _ => 0%Z
      end
    else 0%Z in
  let sel :=
    if ((sel <? 0) || (Z.of_nat (length paletas) <=? sel))%Z then 0%Z else sel in
  p ← elemento paletas sel;
  _ ← get p "nombre" (VStr "?");
  Ok p.

(** *** Zones *)

(** What [cargar_zonas] prints. *)
Inductive mensaje :=
  | MsgCargadas (nombre_capa : valor) (n : nat)
  | MsgError (archivo : string)
  | MsgTotal (n : nat).

(** The two assignments of the inner loop of [cargar_zonas]. *)
Definition etiquetar (archivo : string) (nombre_capa : valor) (z : valor)
  : resultado valor :=
  z1 ← setitem z "_archivo_origen" (VStr archivo);
  setitem z1 "_nombre_capa" nombre_capa.

(** The body of the [try] of [cargar_zonas] for one file: what it printed
    and the records it would add to [todas_zonas], or the exception. *)
Definition leer_zonas (f : archivo_en_disco) (archivo : string)
  : list mensaje * resultado (list valor) :=
  match
    (data ← leer_json f;
     zonas ← get data "zonas" (VList []);
     nombre_capa ← get data "nombre" (VStr archivo);
     n ← len zonas;
     Ok (zonas, nombre_capa, n))
  with
  | Lanza e => ([], Lanza e)
  | Ok (zonas, nombre_capa, n) =>
      ([MsgCargadas nombre_capa n],
       elementos ← iterar zonas;
       para_cada (etiquetar archivo nombre_capa) elementos)
  end.

(** One turn of the loop over [capas_activas]: [todas] and [log] are
    [todas_zonas] and the console so far.  [disco] gives what is found at
    [os.path.join(DATOS_DIR, archivo)]. *)
Definition cargar_capa (disco : string → archivo_en_disco)
    (estado : list valor * list mensaje) (capa : valor)
  : resultado (list valor * list mensaje) :=
  let '(todas, log) := estado in
  archivo_v ← get capa "archivo" (VStr "");
  archivo ← match archivo_v with VStr s => Ok s | _ => Lanza TypeError end;
  let '(impreso, r) := leer_zonas (disco archivo) archivo in
  match r with
  | Ok zonas => Ok (todas ++ zonas, log ++ impreso)
  | Lanza _ => Ok (todas, log ++ impreso ++ [MsgError archivo])
  end.

Fixpoint cargar_capas (disco : string → archivo_en_disco)
    (estado : list valor * list mensaje) (capas : list valor)
  : resultado (list valor * list mensaje) :=
  match capas with
  | [] => Ok estado
  | capa :: capas' =>
      estado' ← cargar_capa disco estado capa;
      cargar_capas disco estado' capas'
  end.

(** [cargar_zonas(capas_activas)]: the zones and the console output. *)
Definition cargar_zonas (disco : string → archivo_en_disco) (capas_activas : list valor)
  : resultado (list valor * list mensaje) :=
  '(todas_zonas, log) ← cargar_capas disco ([], []) capas_activas;
  Ok (todas_zonas,
      if negb (Nat.eqb (length todas_zonas) 0)
      then log ++ [MsgTotal (length todas_zonas)] else log).

(** [resolver_color(nombre_color)]. *)
Definition resolver_color (nombre_color : valor) : resultado string :=
  match nombre_color with
  | VStr s =>
      let nombre := strip (lower s) in
      match COLORES_ESPAÑOL !! nombre with
      | Some hex => Ok hex
      | None => if startswith "#" nombre then Ok nombre else Ok nombre
      end
  | _ => Lanza AttributeError
  end.

(** *** Coordinates *)

(** [math.radians(x)]. *)
Definition radians (x : float) : float := (x * (3.141592653589793 / 180))%float.

(** What is typed at one of the four prompts of [pedir_coordenadas], after
    [strip()]: nothing, a text [float()] converts, or a text it rejects. *)
Inductive respuesta :=
  | Vacia
  | Numero (f : float)
  | NoNumero.

(** [float(entrada) if entrada else defecto]. *)
Definition leer_coordenada (r : respuesta) (defecto : float) : resultado float :=
  match r with
  | Vacia => Ok defecto
  | Numero f => Ok f
  | NoNumero => Lanza ValueError
  end.

(** [if minimo >= maximo: minimo, maximo = maximo, minimo]. *)
Definition ordenar (minimo maximo : float) : float * float :=
  if (maximo <=? minimo)%float then (maximo, minimo) else (minimo, maximo).

(** [pedir_coordenadas()], given the four answers. *)
Definition pedir_coordenadas (r1 r2 r3 r4 : respuesta)
  : resultado (float * float * float * float) :=
  lat_min ← leer_coordenada r1 LAT_MIN_DEFAULT;
  lat_max ← leer_coordenada r2 LAT_MAX_DEFAULT;
  lon_min ← leer_coordenada r3 LON_MIN_DEFAULT;
  lon_max ← leer_coordenada r4 LON_MAX_DEFAULT;
  let '(lat_min, lat_max) := ordenar lat_min lat_max in
  let '(lon_min, lon_max) := ordenar lon_min lon_max in
  Ok (lat_min, lat_max, lon_min, lon_max).

(** [lat_min <= lat <= lat_max and lon_min <= lon <= lon_max], the test of
    both [generar_mapa] and [dibujar_zonas]: the longitude is compared only
    when the latitude is in range. *)
Definition dentro_del_area (lat_min lat_max lon_min lon_max : float) (lat lon : valor)
  : resultado bool :=
  y ← como_numero lat;
  if ((lat_min <=? y) && (y <=? lat_max))%float then
    x ← como_numero lon;
    Ok ((lon_min <=? x) && (x <=? lon_max))%float
  else Ok false.

(** *** Label contrast *)

(** The three channels read from the colour: [h = hex_color.lstrip("#")]
    and the three [int(h[i:i+2], 16)]. *)
Definition canales (hex_color : string) : resultado (Z * Z * Z) :=
  let h := lstrip "#" hex_color in
  r ← py_int (slice 0 2 h) 16;
  g ← py_int (slice 2 4 h) 16;
  b ← py_int (slice 4 6 h) 16;
  Ok (r, g, b).

(** [brillo = (0.299 * r + 0.587 * g + 0.114 * b) / 255], in binary64. *)
Definition brillo (r g b : Z) : float :=
  ((0.299 * float_of_Z r + 0.587 * float_of_Z g + 0.114 * float_of_Z b) / 255)%float.

(** [_color_texto_contraste(hex_color)]. *)
Definition _color_texto_contraste (hex_color : string) : resultado string :=
  try_except
    ('(r, g, b) ← canales hex_color;
     Ok (if (brillo r g b <? 0.5)%float then "white" else "black"))
    (λ _, Ok "black").

(** *** Drawing the zones *)

(** What [dibujar_zonas] adds to the axes for one zone: the ellipse and the
    text inside it. *)
Record marcador := {
  m_lon : valor;
  m_lat : valor;
  m_width : float;
  m_height : float;
  m_facecolor : string;
  m_id : valor;
  m_color_texto : string;
  m_borde_texto : string
}.

(** A row of the legend drawn by [dibujar_tabla]. *)
Record fila_tabla := {
  f_id : valor;
  f_nombre : valor
}.

(** The zone layer [generar_mapa] produces. *)
Record capa_zonas := {
  zonas_visibles : list valor;
  marcadores : list marcador;
  tabla : list fila_tabla
}.

(** A character of [[a-fA-F0-9]]. *)
Definition es_digito_hex (c : ascii) : bool :=
  let n := codigo c in
  ((48 <=? n) && (n <=? 57) || (65 <=? n) && (n <=? 70) || (97 <=? n) && (n <=? 102))%Z.

(** A colour of the form [#rrggbb], which matplotlib converts whatever
    its tables of names hold: the pattern [\A#[a-fA-F0-9]{6}\Z] of
    [matplotlib.colors]. *)
Definition es_hex_rrggbb (s : string) : bool :=
  match list_ascii_of_string s with
  | c :: digitos =>
      Ascii.eqb c "#" && Nat.eqb (length digitos) 6 && forallb es_digito_hex digitos
  | [] => false
  end.

Section Dibujo.

(** The cosine of the C library on finite arguments. *)
Variable cos : float → float.

(** Whether matplotlib converts a colour that is not of the form
    [#rrggbb]: a name of its tables, a shorter or longer hex form, a grey
    level. *)
Variable colores : string → bool.

(** [mpatches.Ellipse(..., facecolor=color, ...)]: the patch converts its
    colour when it is built, and raises ValueError for one that matplotlib
    does not know. *)
Definition Ellipse (color : string) : resultado unit :=
  if es_hex_rrggbb color || colores color then Ok tt else Lanza ValueError.

(** [math.cos(x)]: a domain error at an infinity. *)
Definition math_cos (x : float) : resultado float :=
  if is_infinity x then Lanza ValueError else Ok (cos x).

(** [metros_a_grados(metros, latitud)]. *)
Definition metros_a_grados (metros latitud : float) : resultado (float * float) :=
  grados_lat ← dividir metros 111320.0;
  c ← math_cos (radians latitud);
  grados_lon ← dividir metros (111320.0 * c);
  Ok (grados_lat, grados_lon).

(** [radio_visual / cos_lat if cos_lat > 0 else radio_visual]. *)
Definition radio_longitud (radio_visual cos_lat : float) : resultado float :=
  if (0 <? cos_lat)%float then dividir radio_visual cos_lat else Ok radio_visual.

(** The body of the loop of [dibujar_zonas]: [None] when the zone is
    skipped by [continue]. *)
Definition dibujar_zona (lat_min lat_max lon_min lon_max radio_visual : float)
    (zona : valor) : resultado (option marcador) :=
  lat ← get zona "latitud" (VNum 0);
  lon ← get zona "longitud" (VNum 0);
  zona_id ← get zona "id" (VStr "?");
  color_nombre ← get zona "color" (VStr "rojo");
  color ← resolver_color color_nombre;
  dentro ← dentro_del_area lat_min lat_max lon_min lon_max lat lon;
  if negb dentro then Ok None
  else
    y ← como_numero lat;
    cos_lat ← math_cos (radians y);
    radio_lon ← radio_longitud radio_visual cos_lat;
    _ ← Ellipse color;
    texto_color ← _color_texto_contraste color;
    Ok (Some {| m_lon := lon; m_lat := lat;
                m_width := (radio_lon * 2)%float;
                m_height := (radio_visual * 2)%float;
                m_facecolor := color;
                m_id := zona_id;
                m_color_texto := texto_color;
                m_borde_texto :=
                  if String.eqb texto_color "white" then "black" else "white" |}).

(** [dibujar_zonas(ax, zonas, lat_min, lat_max, lon_min, lon_max, paleta)]:
    the markers added to [ax], in order. *)
Definition dibujar_zonas (zonas : list valor) (lat_min lat_max lon_min lon_max : float)
  : resultado (list marcador) :=
  let rango_lat := (lat_max - lat_min)%float in
  let radio_visual := (rango_lat * 0.008)%float in
  para_cada (dibujar_zona lat_min lat_max lon_min lon_max radio_visual) zonas
    ≫= λ ms : list (option marcador), Ok (omap id ms).

(** [dibujar_tabla(ax_tabla, zonas, paleta)]: the rows of the legend. *)
Definition dibujar_tabla (zonas : list valor) : resultado (list fila_tabla) :=
  para_cada
    (λ zona,
       zona_id ← get zona "id" (VStr "?");
       nombre ← get zona "nombre" (VStr "?");
       Ok {| f_id := zona_id; f_nombre := nombre |})
    zonas.

(** The test of the comprehension that builds [zonas_visibles]. *)
Definition zona_visible (lat_min lat_max lon_min lon_max : float) (z : valor)
  : resultado bool :=
  lat ← get z "latitud" (VNum 0);
  y ← como_numero lat;
  if ((lat_min <=? y) && (y <=? lat_max))%float then
    lon ← get z "longitud" (VNum 0);
    x ← como_numero lon;
    Ok ((lon_min <=? x) && (x <=? lon_max))%float
  else Ok false.

(** [generar_mapa(baja, lat_min, lat_max, lon_min, lon_max, paleta, zonas)]:
    the figure proportions and the zone layer.  The calls into the plotting
    library are not part of the embedding. *)
Definition generar_mapa (lat_min lat_max lon_min lon_max : float) (zonas : list valor)
  : resultado capa_zonas :=
  let ancho := (lon_max - lon_min)%float in
  let alto := (lat_max - lat_min)%float in
  _ ← dividir alto ancho;
  if negb (Nat.eqb (length zonas) 0) then
    visibles ← filtrar (zona_visible lat_min lat_max lon_min lon_max) zonas;
    if negb (Nat.eqb (length visibles) 0) then
      ms ← dibujar_zonas visibles lat_min lat_max lon_min lon_max;
      filas ← dibujar_tabla visibles;
      Ok {| zonas_visibles := visibles; marcadores := ms; tabla := filas |}
    else Ok {| zonas_visibles := []; marcadores := []; tabla := [] |}
  else Ok {| zonas_visibles := []; marcadores := []; tabla := [] |}.

End Dibujo.

(** *** The registry of zone layers *)

(** [cargar_capas_zonas()], given what is at [ARCHIVO_CAPAS_ZONAS]. *)
Definition cargar_capas_zonas (f : archivo_en_disco) : resultado valor :=
  match f with
  | NoExiste => Ok (VList [])
  | _ =>
      try_except
        (data ← leer_json f;
         archivos ← get data "archivos" (VList []);
         _ ← len archivos;
         Ok archivos)
        (λ _, Ok (VList []))
  end.

(** [os.path.exists(os.path.join(DATOS_DIR, archivo))]: the reference has
    to be a string. *)
Definition ruta_existe (disco : string → archivo_en_disco) (archivo : valor)
  : resultado bool :=
  match archivo with
  | VStr a => Ok (existe (disco a))
  | _ => Lanza TypeError
  end.

(** The body of the listing loop of [pedir_zonas_activas]. *)
Definition listar_capa (disco : string → archivo_en_disco) (capa : valor)
  : resultado unit :=
  archivo ← get capa "archivo" (VStr "?");
  _ ← get capa "descripcion" (VStr "Sin descripción");
  _ ← ruta_existe disco archivo;
  Ok tt.

(** The body of the loop over the parts of the answer: the layer to
    activate, if any.  Only ValueError is caught. *)
Definition activar (disco : string → archivo_en_disco) (capas : list valor)
    (parte : string) : resultado (option valor) :=
  match py_int parte 10 with
  | Lanza _ => Ok None
  | Ok n =>
      let idx := (n - 1)%Z in
      if ((0 <=? idx) && (idx <? Z.of_nat (length capas)))%Z then
        capa ← elemento capas idx;
        archivo ← get capa "archivo" (VStr "");
        hay ← ruta_existe disco archivo;
        Ok (if hay : bool then Some capa else None)
      else Ok None
  end.

(** [pedir_zonas_activas(capas)], given the line typed at the prompt. *)
Definition pedir_zonas_activas (disco : string → archivo_en_disco) (linea : string)
    (capas : list valor) : resultado (list valor) :=
  if Nat.eqb (length capas) 0 then Ok []
  else
    _ ← para_cada (listar_capa disco) capas;
    let entrada := strip linea in
    if String.eqb entrada "" then Ok []
    else
      para_cada (activar disco capas) (split "," (sin_espacios entrada))
        ≫= λ activas : list (option valor), Ok (omap id activas).

(** *** The rows of the legend *)

(** [alto_fila = min(0.025, espacio / max(n, 1))] of [dibujar_tabla], with
    [y_inicio = 0.94] and [espacio = y_inicio - 0.06]. *)
Definition alto_fila (n : nat) : float :=
  let y_inicio := 0.94%float in
  let espacio := (y_inicio - 0.06)%float in
  py_min 0.025 (espacio / float_of_Z (Z.of_nat (Nat.max n 1)))%float.

(** [y = y_inicio - 0.025 - (i * alto_fila)], the height of row [i] among
    [n] rows. *)
Definition altura_fila (n i : nat) : float :=
  (0.94 - 0.025 - float_of_Z (Z.of_nat i) * alto_fila n)%float.

(** *** Downloading the dataset *)

(** What [urllib.request.urlretrieve] does: it completes, or it raises,
    leaving a partial file or none. *)
Inductive intento :=
  | Completa
  | Interrumpida (parcial : bool).

(** The files present and the URLs requested so far. *)
Record almacen := {
  presentes : gset string;
  pedidos : list string
}.

(** The [try] of the download functions: [urlretrieve(url, ruta)], and on
    an exception the removal of the file if it is there.  The result is
    whether the download completed. *)
Definition descargar_a (red : string → intento) (url ruta : string) (a : almacen)
  : almacen * bool :=
  let a1 := {| presentes := presentes a; pedidos := pedidos a ++ [url] |} in
  match red url with
  | Completa =>
      ({| presentes := {[ruta]} ∪ presentes a1; pedidos := pedidos a1 |}, true)
  | Interrumpida parcial =>
      let a2 :=
        if parcial
        then {| presentes := {[ruta]} ∪ presentes a1; pedidos := pedidos a1 |}
        else a1 in
      (if bool_decide (ruta ∈ presentes a2)
       then {| presentes := presentes a2 ∖ {[ruta]}; pedidos := pedidos a2 |}
       else a2,
       false)
  end.

(** [descargar_datos()] of [mapa.py] and [mapa_baja_california.py], for the
    archive at [ruta] and its [url]: a failed download is raised again. *)
Definition descargar_datos (red : string → intento) (url ruta : string) (a : almacen)
  : almacen * resultado string :=
  if bool_decide (ruta ∈ presentes a) then (a, Ok ruta)
  else
    let '(a', completa) := descargar_a red url ruta a in
    (a', if completa : bool then Ok ruta else Lanza OSError).

End Mapa.
Import Mapa.

(** ** mapa_baja_california.py *)

Module MapaBajaCalifornia.

(** [pedir_paleta(paletas)]: the listing also shows three colours of each
    palette, and the blank answer is tested before the conversion. *)
Definition pedir_paleta (linea : string) (paletas : list valor) : resultado valor :=
  _ ← para_cada
        (λ p,
           _ ← get p "nombre" (VStr "Paleta");
           _ ← get p "fondo_figura" (VStr "?");
           _ ← get p "contorno" (VStr "?");
           _ ← get p "relleno_tierra" (VStr "?");
           Ok tt)
        paletas;
  let entrada := strip linea in
  let seleccion :=
    if String.eqb entrada "" then 0%Z
    else
      match py_int entrada 10 with
      | Ok n => (n - 1)%Z
      | Lanza _ => 0%Z
      end in
  let seleccion :=
    if ((seleccion <? 0) || (Z.of_nat (length paletas) <=? seleccion))%Z
    then 0%Z else seleccion in
  elegida ← elemento paletas seleccion;
  _ ← get elegida "nombre" (VStr "Sin nombre");
  Ok elegida.

(** [pedir_coordenadas()]: the same prompts, defaults and exchanges as in
    [mapa.py], with a warning printed at each exchange. *)
Definition pedir_coordenadas (r1 r2 r3 r4 : respuesta)
  : resultado (float * float * float * float) :=
  lat_min ← leer_coordenada r1 22.0%float;
  lat_max ← leer_coordenada r2 33.0%float;
  lon_min ← leer_coordenada r3 (-120.0)%float;
  lon_max ← leer_coordenada r4 (-108.0)%float;
  let '(lat_min, lat_max) :=
    if (lat_max <=? lat_min)%float then (lat_max, lat_min) else (lat_min, lat_max) in
  let '(lon_min, lon_max) :=
    if (lon_max <=? lon_min)%float then (lon_max, lon_min) else (lon_min, lon_max) in
  Ok (lat_min, lat_max, lon_min, lon_max).

End MapaBajaCalifornia.

(** ** dibuja.py *)

Module Dibuja.

(** The polygon [box(minx, miny, maxx, maxy)] of shapely. *)
Record caja := {
  minx : float;
  miny : float;
  maxx : float;
  maxy : float
}.

Definition box (minx miny maxx maxy : float) : caja :=
  {| minx := minx; miny := miny; maxx := maxx; maxy := maxy |}.

Section Carga.

(** The geometries of a dataset and shapely's two predicates between a
    geometry and a box. *)
Variable geometria : Type.
Variable within : geometria → caja → bool.
Variable intersects : geometria → caja → bool.

(** A row of a GeoDataFrame: its geometry and the other cells by column. *)
Record fila := {
  geometry : geometria;
  celdas : gmap string valor
}.

Record GeoDataFrame := {
  columns : list string;
  filas : list fila
}.

(** [gdf[mascara]]: the rows the mask keeps, with the same columns. *)
Definition seleccionar (mascara : fila → bool) (gdf : GeoDataFrame) : GeoDataFrame :=
  {| columns := columns gdf; filas := List.filter mascara (filas gdf) |}.

(** [gdf[columna] == texto], row by row. *)
Definition celda_es (columna texto : string) (f : fila) : bool :=
  match celdas f !! columna with
  | Some (VStr s) => String.eqb s texto
  | _ => false
  end.

(** [gdf.empty]. *)
Definition empty (gdf : GeoDataFrame) : bool := Nat.eqb (length (filas gdf)) 0.

(** [columna in gdf.columns]. *)
Definition tiene_columna (columna : string) (gdf : GeoDataFrame) : bool :=
  bool_decide (columna ∈ columns gdf).

(** The frame [ciudades] of [cargar_ciudades] before it is printed: the
    rows within the area, narrowed to Mexico when a country column has rows
    of Mexico. *)
Definition ciudades_del_area (gdf : GeoDataFrame) (lat_min lat_max lon_min lon_max : float)
  : GeoDataFrame :=
  let area := box lon_min lat_min lon_max lat_max in
  let ciudades := seleccionar (λ f, within (geometry f) area) gdf in
  if tiene_columna "SOV0NAME" ciudades then
    let ciudades_mx := seleccionar (celda_es "SOV0NAME" "Mexico") ciudades in
    if negb (empty ciudades_mx) then ciudades_mx else ciudades
  else if tiene_columna "ADM0NAME" ciudades then
    let ciudades_mx := seleccionar (celda_es "ADM0NAME" "Mexico") ciudades in
    if negb (empty ciudades_mx) then ciudades_mx else ciudades
  else ciudades.

(** Whether every cell of the column "NAME" is a text: what
    [sorted(ciudades["NAME"].tolist())] and [', '.join(nombres[:15])] need
    of a frame with rows. *)
Definition nombres_de_texto (ciudades : GeoDataFrame) : bool :=
  forallb
    (λ f, match celdas f !! "NAME" with
          | Some (VStr _) => true
          | _ => false
          end)
    (filas ciudades).

(** [cargar_ciudades(ruta, lat_min, lat_max, lon_min, lon_max)], given the
    dataset read from [ruta]: printing the names raises TypeError when a
    city found has a name that is not a text. *)
Definition cargar_ciudades (gdf : GeoDataFrame) (lat_min lat_max lon_min lon_max : float)
  : resultado GeoDataFrame :=
  let ciudades := ciudades_del_area gdf lat_min lat_max lon_min lon_max in
  if negb (empty ciudades) && tiene_columna "NAME" ciudades then
    if nombres_de_texto ciudades then Ok ciudades else Lanza TypeError
  else Ok ciudades.

(** [cargar_carreteras(ruta, lat_min, lat_max, lon_min, lon_max)], given
    the dataset read from [ruta]. *)
Definition cargar_carreteras (gdf : GeoDataFrame) (lat_min lat_max lon_min lon_max : float)
  : GeoDataFrame :=
  let area := box lon_min lat_min lon_max lat_max in
  seleccionar (λ f, intersects (geometry f) area) gdf.

(** [gdf[columna]]: the cells of a column the frame has. *)
Definition columna (nombre : string) (gdf : GeoDataFrame) : option (fila → valor) :=
  if tiene_columna nombre gdf
  then Some (λ f, default VNone (celdas f !! nombre))
  else None.

(** [serie.isin(textos)], row by row. *)
Definition celda_en (textos : list string) (v : valor) : bool :=
  match v with
  | VStr s => bool_decide (s ∈ textos)
  | _ => false
  end.

(** [serie == texto], row by row. *)
Definition celda_igual (texto : string) (v : valor) : bool :=
  match v with
  | VStr s => String.eqb s texto
  | _ => false
  end.

(** [serie.str.contains(texto, case=False, na=False)] for a text without
    special characters, row by row. *)
Definition celda_contiene (texto : string) (v : valor) : bool :=
  match v with
  | VStr s => contiene (lower texto) (lower s)
  | _ => false
  end.

(** [cargar_estados(ruta, lat_min, lat_max, lon_min, lon_max)], and
    [cargar_datos(archivo)] of the other two scripts, given the dataset
    read from the archive: [None] is the KeyError of a missing column.
    The "name" column is taken to be a text column, as [.str] asks. *)
Definition cargar_estados (gdf : GeoDataFrame) (lat_min lat_max lon_min lon_max : float)
  : option GeoDataFrame :=
  admin ← columna "admin" gdf;
  name ← columna "name" gdf;
  let estados_peninsula := ["Baja California"; "Baja California Sur"] in
  let baja :=
    seleccionar
      (λ f, celda_igual "Mexico" (admin f) && celda_en estados_peninsula (name f)) gdf in
  if empty baja then
    let mexico_states := seleccionar (λ f, celda_igual "Mexico" (admin f)) gdf in
    Some (seleccionar (λ f, celda_contiene "Baja" (name f)) mexico_states)
  else Some baja.

(** [cargar_paises(ruta, lat_min, lat_max, lon_min, lon_max)], given the
    dataset read from [ruta]. *)
Definition cargar_paises (gdf : GeoDataFrame) (lat_min lat_max lon_min lon_max : float)
  : GeoDataFrame :=
  let paises_interes := ["Mexico"; "United States of America"] in
  if tiene_columna "ADMIN" gdf then
    seleccionar (λ f, celda_en paises_interes (default VNone (celdas f !! "ADMIN"))) gdf
  else if tiene_columna "NAME" gdf then
    seleccionar (λ f, celda_en paises_interes (default VNone (celdas f !! "NAME"))) gdf
  else
    let area := box lon_min lat_min lon_max lat_max in
    seleccionar (λ f, intersects (geometry f) area) gdf.

(** The column [generar_mapa] reads the population from: the first of the
    four candidates the frame has. *)
Definition col_pop (ciudades : GeoDataFrame) : option string :=
  List.find (λ candidato, tiene_columna candidato ciudades)
    ["POP_MAX"; "POP_MIN"; "pop_max"; "pop_min"].

(** The font size of a city label, from the cell [pop] of its row (0 when
    there is no population column or the row has no such cell). *)
Definition tamano_fuente (pop : valor) : resultado Z :=
  if es_verdadero pop then
    p ← como_numero pop;
    Ok (if (500000 <? p)%float then 10
        else if (100000 <? p)%float then 9
        else if (50000 <? p)%float then 8
        else 7)%Z
  else Ok 7%Z.

(** The body of the loop of [generar_mapa] over the cities: the label and
    its font size, or [None] for a city without a name. *)
Definition etiqueta_ciudad (ciudades : GeoDataFrame) (f : fila)
  : resultado (option (valor * Z)) :=
  let col_nombre := if tiene_columna "NAME" ciudades then "NAME" else "name" in
  let nombre := default (VStr "") (celdas f !! col_nombre) in
  if negb (es_verdadero nombre) then Ok None
  else
    fontsize ←
      match col_pop ciudades with
      | Some c => tamano_fuente (default (VNum 0) (celdas f !! c))
      | None => Ok 7%Z
      end;
    Ok (Some (nombre, fontsize)).

End Carga.

(** *** Datasets *)

(** An entry of [DATASETS]. *)
Record dataset := {
  ds_nombre : string;
  ds_archivo : string;
  ds_url : string;
  ds_tipo : string
}.

(** The four datasets, in the order of the dict. *)
Definition DATASETS : list (string * dataset) :=
  [ ("estados",
     {| ds_nombre := "Estados/Provincias (contornos)";
        ds_archivo := "ne_10m_admin_1_states_provinces.zip";
        ds_url := "https://naciscdn.org/naturalearth/10m/cultural/ne_10m_admin_1_states_provinces.zip";
        ds_tipo := "poligono" |});
    ("ciudades",
     {| ds_nombre := "Ciudades/Localidades (puntos)";
        ds_archivo := "ne_10m_populated_places.zip";
        ds_url := "https://naciscdn.org/naturalearth/10m/cultural/ne_10m_populated_places.zip";
        ds_tipo := "punto" |});
    ("paises",
     {| ds_nombre := "Países (fronteras)";
        ds_archivo := "ne_10m_admin_0_countries.zip";
        ds_url := "https://naciscdn.org/naturalearth/10m/cultural/ne_10m_admin_0_countries.zip";
        ds_tipo := "poligono" |});
    ("carreteras",
     {| ds_nombre := "Carreteras principales";
        ds_archivo := "ne_10m_roads.zip";
        ds_url := "https://naciscdn.org/naturalearth/10m/cultural/ne_10m_roads.zip";
        ds_tipo := "linea" |}) ].

(** [DATASETS[clave]]: [None] is the KeyError. *)
Definition dataset_de (clave : string) : option dataset :=
  snd <$> List.find (λ kv, String.eqb (fst kv) clave) DATASETS.

(** [list(DATASETS.keys())]. *)
Definition claves : list string := fst <$> DATASETS.

(** The body of the loop of [pedir_datasets] over the parts of the answer. *)
Definition agregar_dataset (seleccion : list string) (parte : string) : list string :=
  match py_int parte 10 with
  | Lanza _ => seleccion
  | Ok n =>
      let idx := (n - 1)%Z in
      if ((0 <=? idx) && (idx <? Z.of_nat (length claves)))%Z then
        match claves !! Z.to_nat idx with
        | Some clave =>
            if bool_decide (clave ∈ seleccion) then seleccion else seleccion ++ [clave]
        | None => seleccion
        end
      else seleccion
  end.

(** [pedir_datasets()], given the line typed at the prompt. *)
Definition pedir_datasets (linea : string) : list string :=
  let entrada := strip linea in
  let seleccion := ["estados"] in
  if negb (String.eqb entrada "") then
    fold_left agregar_dataset (split "," (sin_espacios entrada)) seleccion
  else seleccion.

Section Descarga.

(** [DATOS_DIR], and what each URL gives when it is requested. *)
Variable DATOS_DIR : string.
Variable red : string → intento.

(** [os.path.join(DATOS_DIR, archivo)] for the file name of a dataset. *)
Definition ruta_de (archivo : string) : string := DATOS_DIR ++ "/" ++ archivo.

(** [descargar_dataset(clave)]: the outer [None] is the KeyError of an
    unknown key, the inner one the [None] returned after a failed
    download. *)
Definition descargar_dataset (clave : string) (a : almacen)
  : option (almacen * option string) :=
  ds ← dataset_de clave;
  let ruta := ruta_de (ds_archivo ds) in
  if bool_decide (ruta ∈ presentes a) then Some (a, Some ruta)
  else
    let '(a', completa) := descargar_a red (ds_url ds) ruta a in
    Some (a', if completa : bool then Some ruta else None).

(** The loop of [descargar_datasets_seleccionados] over the selection,
    filling the dict [rutas]. *)
Fixpoint descargar_cada (seleccion : list string) (a : almacen)
    (rutas : gmap string string) : option (almacen * gmap string string) :=
  match seleccion with
  | [] => Some (a, rutas)
  | clave :: resto =>
      '(a', ruta) ← descargar_dataset clave a;
      descargar_cada resto a'
        (match ruta with
         | Some r => <[clave := r]> rutas
         | None => rutas
         end)
  end.

(** [descargar_datasets_seleccionados(seleccion)]. *)
Definition descargar_datasets_seleccionados (seleccion : list string) (a : almacen)
  : option (almacen * gmap string string) :=
  descargar_cada seleccion a ∅.

End Descarga.

End Dibuja.

(** ** Notions used to state the properties *)

(** A JSON object. *)
Definition es_dict (v : valor) : Prop :=
  match v with
  | VDict _ => True
  | _ => False
  end.

(** The relative luminance of the specification in exact arithmetic,
    scaled by 1000: [(0.299 R + 0.587 G + 0.114 B) / 255 < 0.5] is
    [luminancia_milesimas R G B < 127500]. *)
Definition luminancia_milesimas (r g b : Z) : Z := (299 * r + 587 * g + 114 * b)%Z.

(** A zero-based index clamped to the valid range of a list of [n]
    entries, as the specification words the palette selection. *)
Definition indice_acotado (sel : Z) (n : nat) : Z :=
  Z.max 0 (Z.min sel (Z.of_nat n - 1)).

(** The zero-based index [pedir_paleta] settles on for a list of [n]
    palettes. *)
Definition seleccion (linea : string) (n : nat) : Z :=
  match py_int (strip linea) 10 with
  | Ok k => if ((k - 1 <? 0) || (Z.of_nat n <=? k - 1))%Z then 0%Z else (k - 1)%Z
  | Lanza _ => 0%Z
  end.

(** A JSON object, as a test. *)
Definition es_objeto (v : valor) : bool :=
  match v with
  | VDict _ => true
  | _ => false
  end.

(** A zone record with the two tags of its origin. *)
Definition etiquetado (archivo : string) (nombre_capa : valor) (z : valor) : valor :=
  match z with
  | VDict d => VDict (<["_nombre_capa" := nombre_capa]> (<["_archivo_origen" := VStr archivo]> d))
  | _ => z
  end.

(** The layer name of a zone file: its ["nombre"], or the file name. *)
Definition nombre_de_capa (archivo : string) (d : gmap string valor) : valor :=
  default (VStr archivo) (d !! "nombre").

(** The zone records of a readable file: the file holds a JSON object
    whose ["zonas"], the empty list when the key is absent, can be gone
    through and holds JSON objects only.  Any other file, be it missing,
    not JSON or of another shape, has none to give. *)
Definition zonas_legibles (f : archivo_en_disco)
  : option (gmap string valor * list valor) :=
  match f with
  | Contiene (VDict d) =>
      match iterar (default (VList []) (d !! "zonas")) with
      | Ok zs => if forallb es_objeto zs then Some (d, zs) else None
      | Lanza _ => None
      end
  | _ => None
  end.

(** The records a registry entry contributes, in the words of the
    specification: the tagged ["zonas"] of a readable file, nothing for a
    file that is not. *)
Definition registros (disco : string → archivo_en_disco) (capa : valor) : list valor :=
  match get capa "archivo" (VStr "") with
  | Ok (VStr a) =>
      match zonas_legibles (disco a) with
      | Some (d, zs) => etiquetado a (nombre_de_capa a d) <$> zs
      | None => []
      end
  | _ => []
  end.

(** What the tags change in a record: the two keys, and nothing else. *)
Definition etiquetas_de (a : string) (nombre_capa : valor) (z z' : valor) : Prop :=
  ∃ dz dz',
    z = VDict dz ∧ z' = VDict dz' ∧
    dz' !! "_archivo_origen" = Some (VStr a) ∧
    dz' !! "_nombre_capa" = Some nombre_capa ∧
    ∀ k, k ≠ "_archivo_origen" → k ≠ "_nombre_capa" → dz' !! k = dz !! k.

(** [minimo <= x <= maximo], on binary64 numbers. *)
Definition entre (minimo x maximo : float) : bool :=
  ((minimo <=? x) && (x <=? maximo))%float.

(** ** Sample data for the examples *)

Definition paleta_a : valor := VDict {[ "nombre" := VStr "A" ]}.
Definition paleta_b : valor := VDict {[ "nombre" := VStr "B" ]}.
Definition paleta_c : valor := VDict {[ "nombre" := VStr "C" ]}.

(** A registry of two files, the first of which is not on disk. *)
Definition capa_falta : valor := VDict {[ "archivo" := VStr "falta.json" ]}.
Definition capa_playas : valor :=
  VDict (list_to_map [("archivo", VStr "playas.json"); ("descripcion", VStr "Playas")]).

Definition zona_playa : gmap string valor :=
  list_to_map
    [("id", VNum 1); ("nombre", VStr "Playa"); ("latitud", VNum 25);
     ("longitud", VNum (-113)); ("figura", VStr "circulo"); ("color", VStr "rojo")].

Definition playas_json : gmap string valor :=
  list_to_map [("nombre", VStr "Playas"); ("zonas", VList [VDict zona_playa])].

Definition disco_ejemplo (archivo : string) : archivo_en_disco :=
  if String.eqb archivo "playas.json" then Contiene (VDict playas_json) else NoExiste.

(** A zone without latitude. *)
Definition zona_sin_latitud : gmap string valor :=
  list_to_map [("id", VNum 2); ("longitud", VNum (-113))].

(** A zone without longitude. *)
Definition zona_sin_longitud : gmap string valor :=
  list_to_map [("id", VNum 3); ("latitud", VNum 25)].


(** A cosine for the examples: the constant cos(25 degrees). *)
Definition cos_ejemplo (x : float) : float := 0.9063077870366499%float.

(** A cosine with the values of the C library at the poles and at the
    equator: cos(radians(90.0)) is 6.123233995736766e-17, not 0.0. *)
Definition cos_polos (x : float) : float :=
  if (abs x =? 1.5707963267948966)%float then 6.123233995736766e-17%float
  else if (x =? 0)%float then 1%float
  else 0.9063077870366499%float.

(** Colour names for the examples: two of the names matplotlib has. *)
Definition colores_ejemplo (s : string) : bool := String.eqb s "gold" || String.eqb s "teal".

(** A zone file one of whose records is not an object. *)
Definition capa_rotas : valor := VDict {[ "archivo" := VStr "rotas.json" ]}.

Definition rotas_json : gmap string valor :=
  list_to_map [("nombre", VStr "Rotas"); ("zonas", VList [VDict zona_playa; VNum 3])].

Definition disco_roto (archivo : string) : archivo_en_disco :=
  if String.eqb archivo "rotas.json" then Contiene (VDict rotas_json)
  else disco_ejemplo archivo.

(** A registry entry names its file when its ["archivo"], or the default
    taken for it, is a string. *)
Definition nombra_archivo (capa : valor) (a : string) : Prop :=
  get capa "archivo" (VStr "") = Ok (VStr a).

(** A record that carries the two tags of [cargar_zonas], the first one
    being [a]. *)
Definition con_etiquetas (a : string) (z : valor) : Prop :=
  ∃ d, z = VDict d ∧ d !! "_archivo_origen" = Some (VStr a) ∧
       is_Some (d !! "_nombre_capa").

(** A registry entry the listing of [pedir_zonas_activas] can show: an
    object whose ["archivo"] is a string or absent. *)
Definition es_capa (capa : valor) : Prop :=
  ∃ a, get capa "archivo" (VStr "?") = Ok (VStr a).

(** A dataset key [DATASETS] has. *)
Definition clave_conocida (clave : string) : Prop := is_Some (Dibuja.dataset_de clave).

(** An empty data directory and a network on which the cities dataset
    breaks off, leaving a partial file. *)
Definition almacen_vacio : almacen := {| presentes := ∅; pedidos := [] |}.

Definition red_ejemplo (url : string) : intento :=
  if String.eqb url
       "https://naciscdn.org/naturalearth/10m/cultural/ne_10m_populated_places.zip"
  then Interrumpida true else Completa.

(** A row of the states dataset is an exact match when it is a Mexican
    state with one of the two names of the peninsula. *)
Definition estado_exacto {geometria : Type} (f : Dibuja.fila geometria) : Prop :=
  Dibuja.celdas _ f !! "admin" = Some (VStr "Mexico") ∧
  (Dibuja.celdas _ f !! "name" = Some (VStr "Baja California") ∨
   Dibuja.celdas _ f !! "name" = Some (VStr "Baja California Sur")).

(** A small states dataset without geometry. *)
Definition fila_estado (admin name : string) : Dibuja.fila unit :=
  {| Dibuja.geometry := tt;
     Dibuja.celdas := list_to_map [("admin", VStr admin); ("name", VStr name)] |}.

Definition estados_ejemplo : Dibuja.GeoDataFrame unit :=
  {| Dibuja.columns := ["admin"; "name"; "geometry"];
     Dibuja.filas :=
       [ fila_estado "Mexico" "Sonora";
         fila_estado "Mexico" "Baja California Sur";
         fila_estado "United States of America" "California";
         fila_estado "Mexico" "Baja California" ] |}.

(** A text column, as the fields of a shapefile are read: every cell is a
    text or is missing.  [serie.str] asks for such a column. *)
Definition columna_de_texto {geometria : Type} (col : string)
    (gdf : Dibuja.GeoDataFrame geometria) : Prop :=
  Forall
    (λ f, match Dibuja.celdas _ f !! col with
          | None | Some VNone | Some (VStr _) => True
          | _ => False
          end)
    (Dibuja.filas _ gdf).

(** ** General facts about the embedding *)

Lemma bind_ok {A B} (r : resultado A) (f : A → resultado B) (b : B) :
  r ≫= f = Ok b → ∃ a, r = Ok a ∧ f a = Ok b.
Proof. destruct r as [a|e]; [eauto | discriminate]. Qed.

Lemma para_cada_ok {A B} (f : A → resultado B) (l : list A) (ys : list B) :
  para_cada f l = Ok ys → Forall2 (λ x y, f x = Ok y) l ys.
Proof.
  revert ys. induction l as [|x l IH]; intros ys H; simpl in H.
  - injection H as <-. constructor.
  - apply bind_ok in H as (y & Hy & H).
    apply bind_ok in H as (ys' & Hys & H).
    injection H as <-. constructor; auto.
Qed.

Lemma para_cada_todos {A B} (f : A → resultado B) (g : A → B) (l : list A) :
  Forall (λ x, f x = Ok (g x)) l → para_cada f l = Ok (g <$> l).
Proof.
  induction 1 as [|x l Hx _ IH]; simpl; [reflexivity|].
  rewrite Hx. simpl. rewrite IH. reflexivity.
Qed.

Lemma para_cada_ext {A B} (f g : A → resultado B) (l : list A) :
  (∀ x, f x = g x) → para_cada f l = para_cada g l.
Proof.
  intros H. induction l as [|x l IH]; simpl; [reflexivity|].
  rewrite H, IH. reflexivity.
Qed.

Lemma filtrar_ok {A} (p : A → resultado bool) (l xs : list A) :
  filtrar p l = Ok xs → ∀ x, In x xs ↔ In x l ∧ p x = Ok true.
Proof.
  revert xs. induction l as [|y l IH]; intros xs H x; simpl in H.
  - injection H as <-. simpl. tauto.
  - apply bind_ok in H as (b & Hb & H).
    apply bind_ok in H as (xs' & Hxs & H).
    injection H as <-. specialize (IH xs' Hxs x).
    destruct b; simpl; rewrite IH; split.
    + intros [<- | [? ?]]; auto.
    + intros [[<- | ?] ?]; auto.
    + intros [? ?]; auto.
    + intros [[<- | ?] Hp]; [congruence | auto].
Qed.

(** *** The order of binary64 numbers *)

Lemma SFcompare_antisym (a b : spec_float) :
  SFcompare b a = option_map CompOpp (SFcompare a b).
Proof.
  destruct a as [sa|sa| |sa ma ea], b as [sb|sb| |sb mb eb]; simpl;
    try reflexivity; try (destruct sa; reflexivity); try (destruct sb; reflexivity);
    try (destruct sa, sb; reflexivity).
  assert (H : Pos.compare_cont Eq mb ma = CompOpp (Pos.compare_cont Eq ma mb))
    by exact (Pos.compare_antisym ma mb).
  destruct sa, sb; simpl; try reflexivity;
    rewrite (Z.compare_antisym ea eb);
    destruct (ea ?= eb)%Z; simpl; try reflexivity;
    change (PosDef.Pos.compare_cont Eq mb ma) with (Pos.compare_cont Eq mb ma);
    rewrite H; reflexivity.
Qed.

Lemma SFcompare_definido (a b : spec_float) :
  SFcompare a a = Some Eq → SFcompare b b = Some Eq → ∃ c, SFcompare a b = Some c.
Proof.
  destruct a as [sa|sa| |sa ma ea], b as [sb|sb| |sb mb eb]; simpl;
    intros Ha Hb; try discriminate; eauto.
Qed.

(** Two numbers that are not NaN compare, and in the two directions the
    outcomes are opposite. *)
Lemma comparar (x y : float) :
  is_nan x = false → is_nan y = false →
  ∃ c, SFcompare (Prim2SF x) (Prim2SF y) = Some c ∧
       SFcompare (Prim2SF y) (Prim2SF x) = Some (CompOpp c).
Proof.
  unfold is_nan. intros Hx Hy.
  apply negb_false_iff in Hx, Hy.
  rewrite FloatAxioms.eqb_spec in Hx, Hy. unfold SFeqb in Hx, Hy.
  destruct (SFcompare (Prim2SF x) (Prim2SF x)) as [[]|] eqn:Ex; try discriminate.
  destruct (SFcompare (Prim2SF y) (Prim2SF y)) as [[]|] eqn:Ey; try discriminate.
  destruct (SFcompare_definido _ _ Ex Ey) as [c Hc].
  exists c. split; [exact Hc|]. rewrite SFcompare_antisym, Hc. reflexivity.
Qed.

(** What [ordenar] returns for two numbers that are not NaN. *)
Lemma ordenar_spec (a b : float) :
  is_nan a = false → is_nan b = false →
  let '(minimo, maximo) := ordenar a b in
  (minimo <=? maximo)%float = true ∧
  (minimo <? maximo)%float = negb (a =? b)%float ∧
  ((b <? a)%float = true → minimo = b ∧ maximo = a) ∧
  ((a <? b)%float = true → minimo = a ∧ maximo = b) ∧
  ((a =? b)%float = true → minimo = b ∧ maximo = a) ∧
  ((a =? b)%float = false → ordenar b a = ordenar a b).
Proof.
  intros Ha Hb. destruct (comparar a b Ha Hb) as (c & Hab & Hba).
  unfold ordenar.
  rewrite !FloatAxioms.leb_spec, !FloatAxioms.ltb_spec, !FloatAxioms.eqb_spec.
  unfold SFleb, SFltb, SFeqb. rewrite Hab, Hba.
  destruct c; simpl;
    rewrite ?FloatAxioms.leb_spec, ?FloatAxioms.ltb_spec; unfold SFleb, SFltb;
    rewrite ?Hab, ?Hba; simpl; repeat split; intros; try discriminate; auto.
Qed.

(** *** Products of binary64 numbers *)

Lemma digits2_pos_size (m : positive) : digits2_pos m = Pos.size m.
Proof. induction m as [m IH|m IH|]; simpl; rewrite ?IH; reflexivity. Qed.

(** A positive number is at least two to its number of digits less one. *)
Lemma digits2_pos_cota (m : positive) : (2 ^ (Zpos (digits2_pos m) - 1) ≤ Zpos m)%Z.
Proof.
  induction m as [m IH|m IH|]; simpl digits2_pos.
  - rewrite Pos2Z.inj_succ. replace (Z.succ (Zpos (digits2_pos m)) - 1)%Z
      with (Z.succ (Zpos (digits2_pos m) - 1))%Z by lia.
    rewrite Z.pow_succ_r by lia. lia.
  - rewrite Pos2Z.inj_succ. replace (Z.succ (Zpos (digits2_pos m)) - 1)%Z
      with (Z.succ (Zpos (digits2_pos m) - 1))%Z by lia.
    rewrite Z.pow_succ_r by lia. lia.
  - simpl. lia.
Qed.

Lemma shr_1_mitad (mrs : shr_record) :
  (0 ≤ shr_m mrs)%Z → shr_m (shr_1 mrs) = (shr_m mrs / 2)%Z.
Proof.
  destruct mrs as [m r s]. simpl. intros H.
  destruct m as [|[p|p|]|p]; simpl shr_m; try lia.
  - reflexivity.
  - apply Z.div_unique with 1%Z; lia.
  - apply Z.div_unique with 0%Z; lia.
  - reflexivity.
Qed.

Lemma shr_iter_cociente (p : positive) (mrs : shr_record) :
  (0 ≤ shr_m mrs)%Z →
  shr_m (SpecFloat.iter_pos shr_1 p mrs) = (shr_m mrs / 2 ^ Zpos p)%Z.
Proof.
  revert mrs. induction p as [p IH|p IH|]; intros mrs H; simpl SpecFloat.iter_pos.
  - assert (H1 : (0 ≤ shr_m (shr_1 mrs))%Z)
      by (rewrite shr_1_mitad by exact H; apply Z.div_pos; lia).
    assert (H2 : (0 ≤ shr_m (SpecFloat.iter_pos shr_1 p (shr_1 mrs)))%Z)
      by (rewrite IH by exact H1; apply Z.div_pos; [exact H1 | lia]).
    rewrite IH by exact H2. rewrite IH by exact H1. rewrite shr_1_mitad by exact H.
    assert (E : (2 ^ Zpos p~1 = 2 * 2 ^ Zpos p * 2 ^ Zpos p)%Z).
    { replace (Zpos p~1) with (1 + Zpos p + Zpos p)%Z by lia.
      rewrite !Z.pow_add_r by lia. reflexivity. }
    assert (Hp : (0 < 2 ^ Zpos p)%Z) by (apply Z.pow_pos_nonneg; lia).
    rewrite E, !Z.div_div by lia. f_equal. ring.
  - assert (H2 : (0 ≤ shr_m (SpecFloat.iter_pos shr_1 p mrs))%Z)
      by (rewrite IH by exact H; apply Z.div_pos; [exact H | lia]).
    rewrite IH by exact H2. rewrite IH by exact H.
    assert (E : (2 ^ Zpos p~0 = 2 ^ Zpos p * 2 ^ Zpos p)%Z).
    { replace (Zpos p~0) with (Zpos p + Zpos p)%Z by lia.
      rewrite !Z.pow_add_r by lia. reflexivity. }
    assert (Hp : (0 < 2 ^ Zpos p)%Z) by (apply Z.pow_pos_nonneg; lia).
    rewrite E, !Z.div_div by lia. reflexivity.
  - rewrite shr_1_mitad by exact H. reflexivity.
Qed.

Lemma shr_record_of_loc_m (m : Z) (l : location) : shr_m (shr_record_of_loc m l) = m.
Proof. destruct l as [|[]]; reflexivity. Qed.

(** Shifting a positive mantissa to its exponent leaves it positive as
    long as the number is not below the least subnormal. *)
Lemma shr_fexp_positivo (m : positive) (e : Z) (l : location) :
  (2 ^ (emin - e) ≤ Zpos m)%Z →
  (0 < shr_m (fst (shr_fexp prec emax (Zpos m) e l)))%Z ∧
  (emin ≤ snd (shr_fexp prec emax (Zpos m) e l))%Z.
Proof.
  intros Hm. unfold shr_fexp, shr. simpl Zdigits2.
  pose proof (digits2_pos_cota m) as Hd.
  set (d := Zpos (digits2_pos m)) in *.
  assert (Hdp : (0 < d)%Z) by (unfold d; lia).
  unfold fexp. fold emin.
  destruct (Z.max (d + e - prec) emin - e)%Z as [|n|n] eqn:En; simpl fst; simpl snd.
  - rewrite shr_record_of_loc_m. split; [lia|]. lia.
  - rewrite shr_iter_cociente by (rewrite shr_record_of_loc_m; lia).
    rewrite shr_record_of_loc_m. split; [|lia].
    apply Z.div_str_pos. split; [apply Z.pow_pos_nonneg; lia|].
    rewrite <- En.
    destruct (Z.max_spec (d + e - prec) emin) as [[_ ->] | [_ ->]].
    + exact Hm.
    + replace (d + e - prec - e)%Z with (d - prec)%Z by lia.
      eapply Z.le_trans; [|exact Hd].
      apply Z.pow_le_mono_r; [lia|]. unfold prec. lia.
  - rewrite shr_record_of_loc_m. split; [lia|]. lia.
Qed.

Lemma round_nearest_even_mayor (m : Z) (l : location) : (m ≤ round_nearest_even m l)%Z.
Proof. destruct l as [|[]]; simpl; try lia. destruct (Z.even m); lia. Qed.

(** Rounding a positive mantissa gives a number that is not zero, unless
    it is below the least subnormal. *)
Lemma binary_round_aux_no_nulo (s : bool) (m : positive) (e : Z) (l : location) :
  (2 ^ (emin - e) ≤ Zpos m)%Z →
  SFeqb (binary_round_aux prec emax s (Zpos m) e l) (S754_zero false) = false.
Proof.
  intros Hm. unfold binary_round_aux.
  destruct (shr_fexp_positivo m e l Hm) as [H1 H2].
  destruct (shr_fexp prec emax (Zpos m) e l) as [mrs' e'] eqn:E1. simpl in H1, H2.
  pose proof (round_nearest_even_mayor (shr_m mrs') (loc_of_shr_record mrs')) as Hr.
  destruct (round_nearest_even (shr_m mrs') (loc_of_shr_record mrs')) as [|m2|m2] eqn:E2;
    try lia.
  assert (Hm2 : (2 ^ (emin - e') ≤ Zpos m2)%Z).
  { destruct (Z.eq_dec e' emin) as [-> | Hne].
    - rewrite Z.sub_diag. simpl. lia.
    - rewrite Z.pow_neg_r by lia. lia. }
  destruct (shr_fexp_positivo m2 e' loc_Exact Hm2) as [H3 H4].
  destruct (shr_fexp prec emax (Zpos m2) e' loc_Exact) as [mrs'' e''] eqn:E3.
  simpl in H3, H4.
  destruct (shr_m mrs'') as [|m3|m3]; try lia.
  destruct (e'' <=? emax - prec)%Z; destruct s; reflexivity.
Qed.

(** A product by 111320 is zero only when the other factor is. *)
Lemma producto_no_nulo (c : float) :
  (c =? 0)%float = false → (111320.0 * c =? 0)%float = false.
Proof.
  rewrite !FloatAxioms.eqb_spec, FloatAxioms.mul_spec.
  pose proof (FloatAxioms.Prim2SF_valid c) as Hv.
  change (Prim2SF 0) with (S754_zero false).
  change (Prim2SF 111320.0) with (S754_finite false 7649852150251520 (-36)).
  destruct (Prim2SF c) as [sc|sc| |sc mc ec]; simpl SF64mul; unfold SF64mul, SFmul.
  - intros H. discriminate H.
  - intros _. destruct sc; reflexivity.
  - intros _. reflexivity.
  - intros _. apply binary_round_aux_no_nulo.
    simpl in Hv. apply andb_true_iff in Hv as [Hc _].
    unfold canonical_mantissa, fexp in Hc. apply Z.eqb_eq in Hc.
    fold emin in Hc.
    assert (He : (emin ≤ ec)%Z) by lia.
    apply Z.le_trans with (2 ^ 36)%Z.
    + apply Z.pow_le_mono_r; [lia|]. unfold emin, SpecFloat.emin, emax, prec in *. lia.
    + rewrite Pos2Z.inj_mul. change (2 ^ 36)%Z with 68719476736%Z. nia.
Qed.

Lemma digits2_pos_menor (m : positive) (k : Z) :
  (Zpos m < 2 ^ k)%Z → (Zpos (digits2_pos m) ≤ k)%Z.
Proof.
  intros H. pose proof (digits2_pos_cota m) as Hd.
  destruct (Z_le_gt_dec (Zpos (digits2_pos m)) k) as [Hle | Hgt]; [exact Hle|].
  exfalso. assert (2 ^ k ≤ 2 ^ (Zpos (digits2_pos m) - 1))%Z
    by (destruct (Z_lt_le_dec k 0);
        [rewrite Z.pow_neg_r by lia; apply Z.pow_nonneg; lia
        | apply Z.pow_le_mono_r; lia]).
  lia.
Qed.

(** The exponent after a shift, and the value, which does not grow. *)
Lemma shr_fexp_cota (m : positive) (e : Z) (l : location) (B : Z) :
  (e ≤ B)%Z → (Zpos m < 2 ^ (B - e))%Z →
  (B - prec ≤ emax - prec - 1)%Z → (emin ≤ B - prec)%Z →
  let '(mrs, e') := shr_fexp prec emax (Zpos m) e l in
  (e' ≤ B)%Z ∧ (0 ≤ shr_m mrs < 2 ^ (B - e'))%Z ∧ (e' ≤ Z.max e (B - prec))%Z.
Proof.
  intros He Hm HB1 HB2. unfold shr_fexp, shr. simpl Zdigits2.
  pose proof (digits2_pos_menor m (B - e) Hm) as Hd.
  set (d := Zpos (digits2_pos m)) in *.
  unfold fexp. fold emin.
  destruct (Z.max (d + e - prec) emin - e)%Z as [|n|n] eqn:En.
  - rewrite shr_record_of_loc_m. split; [exact He|]. split; [lia|]. lia.
  - rewrite shr_iter_cociente by (rewrite shr_record_of_loc_m; lia).
    rewrite shr_record_of_loc_m.
    assert (Hn : (e + Zpos n ≤ B - prec)%Z) by lia.
    split; [unfold prec in *; lia|]. split; [|lia].
    split; [apply Z.div_pos; [lia | apply Z.pow_pos_nonneg; lia]|].
    apply Z.div_lt_upper_bound; [apply Z.pow_pos_nonneg; lia|].
    rewrite <- Z.pow_add_r by (unfold prec in *; lia).
    replace (Zpos n + (B - (e + Zpos n)))%Z with (B - e)%Z by lia. exact Hm.
  - rewrite shr_record_of_loc_m. split; [exact He|]. split; [lia|]. lia.
Qed.

Lemma round_nearest_even_cota (m : Z) (l : location) : (round_nearest_even m l ≤ m + 1)%Z.
Proof. destruct l as [|[]]; simpl; try lia. destruct (Z.even m); lia. Qed.

(** Rounding a number below 2^1019 does not overflow. *)
Lemma binary_round_aux_finito (s : bool) (m : positive) (e : Z) (l : location) :
  (e ≤ 971)%Z → (Zpos m < 2 ^ (1019 - e))%Z →
  SFeqb (SFabs (binary_round_aux prec emax s (Zpos m) e l)) (S754_infinity false) = false.
Proof.
  intros He Hm. unfold binary_round_aux.
  pose proof (shr_fexp_cota m e l 1019) as H1.
  destruct (shr_fexp prec emax (Zpos m) e l) as [mrs1 e1].
  destruct H1 as (E1 & M1 & F1); [lia | exact Hm | unfold emax, prec; lia
                                 | unfold emin, SpecFloat.emin, emax, prec; lia |].
  pose proof (round_nearest_even_cota (shr_m mrs1) (loc_of_shr_record mrs1)) as Hr.
  pose proof (round_nearest_even_mayor (shr_m mrs1) (loc_of_shr_record mrs1)) as Hr'.
  destruct (round_nearest_even (shr_m mrs1) (loc_of_shr_record mrs1)) as [|m2|m2] eqn:E2.
  - unfold shr_fexp, shr. simpl Zdigits2. simpl shr_record_of_loc.
    destruct (fexp prec emax (0 + e1) - e1)%Z as [|p|p]; try (destruct s; reflexivity).
    pose proof (shr_iter_cociente p {| shr_m := 0; shr_r := false; shr_s := false |}) as Hp.
    simpl shr_m in Hp. rewrite Z.div_0_l in Hp by (apply Z.pow_nonzero; lia).
    destruct (SpecFloat.iter_pos shr_1 p _) as [m0 r0 s0]. simpl in Hp.
    rewrite Hp by lia. destruct s; reflexivity.
  - assert (Hm2 : (Zpos m2 < 2 ^ (1020 - e1))%Z).
    { replace (1020 - e1)%Z with (Z.succ (1019 - e1)) by lia.
      rewrite Z.pow_succ_r by lia. lia. }
    pose proof (shr_fexp_cota m2 e1 loc_Exact 1020) as H2.
    destruct (shr_fexp prec emax (Zpos m2) e1 loc_Exact) as [mrs2 e2].
    destruct H2 as (E2' & M2 & F2); [lia | exact Hm2 | unfold emax, prec; lia
                                    | unfold emin, SpecFloat.emin, emax, prec; lia |].
    destruct (shr_m mrs2) as [|m3|m3]; [destruct s; reflexivity | | reflexivity].
    assert (He2 : (e2 <=? emax - prec)%Z = true)
      by (apply Z.leb_le; unfold emax, prec in *; lia).
    rewrite He2. reflexivity.
  - lia.
Qed.

(** The angle of a finite number of degrees is finite. *)
Lemma radians_finito (x : float) : is_infinity x = false → is_infinity (radians x) = false.
Proof.
  unfold is_infinity, radians.
  rewrite !FloatAxioms.eqb_spec, !FloatAxioms.abs_spec, FloatAxioms.mul_spec.
  pose proof (FloatAxioms.Prim2SF_valid x) as Hv.
  change (Prim2SF infinity) with (S754_infinity false).
  change (Prim2SF (3.141592653589793 / 180))
    with (S754_finite false 5030569068109113 (-58)).
  destruct (Prim2SF x) as [sx|sx| |sx mx ex]; unfold SF64mul, SFmul.
  - intros _. reflexivity.
  - intros H. discriminate H.
  - intros _. reflexivity.
  - intros _. simpl in Hv. apply andb_true_iff in Hv as [Hc He].
    apply Z.leb_le in He.
    unfold canonical_mantissa, fexp in Hc. apply Z.eqb_eq in Hc.
    pose proof (digits2_pos_cota mx) as Hd.
    assert (Hmx : (Zpos mx < 2 ^ 53)%Z).
    { destruct (Z_lt_le_dec (Zpos mx) (2 ^ 53)) as [Hlt | Hge]; [exact Hlt|]. exfalso.
      assert (Zpos (digits2_pos mx) ≤ 53)%Z by (unfold prec in *; lia).
      assert (2 ^ (Zpos (digits2_pos mx) - 1) < 2 ^ 53)%Z
        by (apply Z.pow_lt_mono_r; lia).
      pose proof (digits2_pos_menor mx (Zpos (digits2_pos mx) - 1)) as Hk.
      assert (Hx : (Zpos mx < 2 ^ Zpos (digits2_pos mx))%Z).
      { rewrite digits2_pos_size. pose proof (Pos.size_gt mx) as Hs.
        apply Pos2Z.pos_lt_pos in Hs. rewrite Pos2Z.inj_pow in Hs. exact Hs. }
      assert (2 ^ Zpos (digits2_pos mx) ≤ 2 ^ 53)%Z by (apply Z.pow_le_mono_r; lia).
      lia. }
    apply binary_round_aux_finito; [unfold emax, prec in *; lia|].
    apply Z.lt_le_trans with (2 ^ 106)%Z.
    + rewrite Pos2Z.inj_mul.
      change (2 ^ 106)%Z with (2 ^ 53 * 2 ^ 53)%Z.
      assert (Zpos 5030569068109113 < 2 ^ 53)%Z by reflexivity.
      apply Z.mul_lt_mono_nonneg; lia.
    + apply Z.pow_le_mono_r; [lia|]. unfold emax, prec in *. lia.
Qed.

Lemma es_infinito (x : float) :
  is_infinity x = true → ∃ s, Prim2SF x = S754_infinity s.
Proof.
  unfold is_infinity. rewrite FloatAxioms.eqb_spec, FloatAxioms.abs_spec.
  change (Prim2SF infinity) with (S754_infinity false).
  destruct (Prim2SF x) as [s|s| |s m e]; simpl; try discriminate; eauto.
Qed.

(** The angle of an infinite number of degrees is infinite. *)
Lemma radians_infinito (x : float) : is_infinity x = true → is_infinity (radians x) = true.
Proof.
  intros H. destruct (es_infinito x H) as [s Hs].
  unfold is_infinity, radians.
  rewrite FloatAxioms.eqb_spec, FloatAxioms.abs_spec, FloatAxioms.mul_spec, Hs.
  reflexivity.
Qed.

Lemma radians_es_infinito (x : float) : is_infinity (radians x) = is_infinity x.
Proof.
  destruct (is_infinity x) eqn:E; [apply radians_infinito | apply radians_finito]; exact E.
Qed.

(** A product by 111320 is zero exactly when the other factor is. *)
Lemma producto_nulo (c : float) : (111320.0 * c =? 0)%float = (c =? 0)%float.
Proof.
  destruct (c =? 0)%float eqn:E; [|apply producto_no_nulo, E].
  revert E. rewrite !FloatAxioms.eqb_spec, FloatAxioms.mul_spec.
  change (Prim2SF 0) with (S754_zero false).
  change (Prim2SF 111320.0) with (S754_finite false 7649852150251520 (-36)).
  unfold SF64mul.
  destruct (Prim2SF c) as [s|s| |s m e]; intros H; try discriminate H;
    try (destruct s; discriminate H).
  destruct s; reflexivity.
Qed.

(** ** The region prompt (C8) *)

(** C8: what [pedir_coordenadas] returns, in [mapa.py] and in
    [mapa_baja_california.py] alike, for four answers that convert to
    numbers other than NaN: the two numbers given for an axis, exchanged
    when the first is greater than or equal to the second and kept
    otherwise.  The bounds satisfy min <= max, and min < max exactly when
    the two numbers given differ; giving two different numbers in either
    order yields the same bounds.  Two equal numbers are exchanged, which
    changes nothing, and come back as they are, min = max: the test [>=]
    does not enforce the order min < max it is there for. *)
Theorem pedir_coordenadas_ordenadas (r1 r2 r3 r4 : respuesta) (a b c d : float) :
  leer_coordenada r1 LAT_MIN_DEFAULT = Ok a →
  leer_coordenada r2 LAT_MAX_DEFAULT = Ok b →
  leer_coordenada r3 LON_MIN_DEFAULT = Ok c →
  leer_coordenada r4 LON_MAX_DEFAULT = Ok d →
  is_nan a = false → is_nan b = false → is_nan c = false → is_nan d = false →
  ∃ lat_min lat_max lon_min lon_max,
    Mapa.pedir_coordenadas r1 r2 r3 r4 = Ok (lat_min, lat_max, lon_min, lon_max) ∧
    MapaBajaCalifornia.pedir_coordenadas r1 r2 r3 r4
      = Ok (lat_min, lat_max, lon_min, lon_max) ∧
    (lat_min <=? lat_max)%float = true ∧
    (lon_min <=? lon_max)%float = true ∧
    (lat_min <? lat_max)%float = negb (a =? b)%float ∧
    (lon_min <? lon_max)%float = negb (c =? d)%float ∧
    ((b <? a)%float = true → lat_min = b ∧ lat_max = a) ∧
    ((a <? b)%float = true → lat_min = a ∧ lat_max = b) ∧
    ((a =? b)%float = true → lat_min = b ∧ lat_max = a) ∧
    ((d <? c)%float = true → lon_min = d ∧ lon_max = c) ∧
    ((c <? d)%float = true → lon_min = c ∧ lon_max = d) ∧
    ((c =? d)%float = true → lon_min = d ∧ lon_max = c) ∧
    ((a =? b)%float = false → ordenar b a = (lat_min, lat_max)) ∧
    ((c =? d)%float = false → ordenar d c = (lon_min, lon_max)).
Proof.
  intros H1 H2 H3 H4 Ha Hb Hc Hd.
  pose proof (ordenar_spec a b Ha Hb) as Hlat.
  pose proof (ordenar_spec c d Hc Hd) as Hlon.
  unfold Mapa.pedir_coordenadas, MapaBajaCalifornia.pedir_coordenadas.
  change 22.0%float with LAT_MIN_DEFAULT. change 33.0%float with LAT_MAX_DEFAULT.
  change (-120.0)%float with LON_MIN_DEFAULT. change (-108.0)%float with LON_MAX_DEFAULT.
  rewrite H1, H2, H3, H4. simpl.
  change (if (b <=? a)%float then (b, a) else (a, b)) with (ordenar a b).
  change (if (d <=? c)%float then (d, c) else (c, d)) with (ordenar c d).
  destruct (ordenar a b) as [lat_min lat_max].
  destruct (ordenar c d) as [lon_min lon_max].
  exists lat_min, lat_max, lon_min, lon_max.
  destruct Hlat as (L1 & L2 & L3 & L4 & L5 & L6).
  destruct Hlon as (M1 & M2 & M3 & M4 & M5 & M6).
  split; [reflexivity|]. split; [reflexivity|].
  split; [exact L1|]. split; [exact M1|].
  split; [exact L2|]. split; [exact M2|].
  split; [exact L3|]. split; [exact L4|]. split; [exact L5|].
  split; [exact M3|]. split; [exact M4|]. split; [exact M5|].
  split; [exact L6 | exact M6].
Qed.

Lemma pedir_coordenadas_ordenadas_witness :
  ∃ lat_min lat_max lon_min lon_max,
    Mapa.pedir_coordenadas (Numero 33) (Numero 22) (Numero 7) (Numero 7)
      = Ok (lat_min, lat_max, lon_min, lon_max) ∧
    MapaBajaCalifornia.pedir_coordenadas (Numero 33) (Numero 22) (Numero 7) (Numero 7)
      = Ok (lat_min, lat_max, lon_min, lon_max) ∧
    (lat_min <=? lat_max)%float = true ∧
    (lon_min <=? lon_max)%float = true ∧
    (lat_min <? lat_max)%float = negb (33 =? 22)%float ∧
    (lon_min <? lon_max)%float = negb (7 =? 7)%float ∧
    ((22 <? 33)%float = true → lat_min = 22%float ∧ lat_max = 33%float) ∧
    ((33 <? 22)%float = true → lat_min = 33%float ∧ lat_max = 22%float) ∧
    ((33 =? 22)%float = true → lat_min = 22%float ∧ lat_max = 33%float) ∧
    ((7 <? 7)%float = true → lon_min = 7%float ∧ lon_max = 7%float) ∧
    ((7 <? 7)%float = true → lon_min = 7%float ∧ lon_max = 7%float) ∧
    ((7 =? 7)%float = true → lon_min = 7%float ∧ lon_max = 7%float) ∧
    ((33 =? 22)%float = false → ordenar 22 33 = (lat_min, lat_max)) ∧
    ((7 =? 7)%float = false → ordenar 7 7 = (lon_min, lon_max)).
Proof.
  apply (pedir_coordenadas_ordenadas (Numero 33) (Numero 22) (Numero 7) (Numero 7));
    reflexivity.
Defined.

(** The bounds are not in strict order when the two numbers given for an
    axis are equal: with 5 and 5 for the latitudes both scripts return
    lat_min = lat_max = 5. *)
Lemma pedir_coordenadas_iguales :
  Mapa.pedir_coordenadas (Numero 5) (Numero 5) Vacia Vacia
    = Ok (5, 5, -120, -108)%float ∧
  MapaBajaCalifornia.pedir_coordenadas (Numero 5) (Numero 5) Vacia Vacia
    = Ok (5, 5, -120, -108)%float ∧
  (5 <? 5)%float = false.
Proof. repeat split; reflexivity. Qed.

(** ** Metres to degrees and the longitude radius *)

Section Longitud.

Variable cos : float → float.

(** The guard of [dibujar_zonas] never divides by zero. *)
Lemma radio_longitud_total (radio_visual cos_lat : float) :
  radio_longitud radio_visual cos_lat
    = Ok (if (0 <? cos_lat)%float then radio_visual / cos_lat else radio_visual)%float.
Proof.
  unfold radio_longitud, dividir.
  destruct (0 <? cos_lat)%float eqn:Hpos; [|reflexivity].
  destruct (cos_lat =? 0)%float eqn:Hz; [|reflexivity].
  exfalso. revert Hpos Hz.
  rewrite FloatAxioms.ltb_spec, FloatAxioms.eqb_spec. unfold SFltb, SFeqb.
  rewrite (SFcompare_antisym (Prim2SF 0) (Prim2SF cos_lat)).
  destruct (SFcompare (Prim2SF 0) (Prim2SF cos_lat)) as [[]|]; simpl; discriminate.
Qed.

(** [metros_a_grados] has no guard: it raises exactly at an infinite angle
    (from [math.cos]) and where the denominator is zero. *)
Lemma metros_a_grados_spec (metros latitud : float) :
  metros_a_grados cos metros latitud =
    if is_infinity (radians latitud) then Lanza ValueError
    else if (111320.0 * cos (radians latitud) =? 0)%float then Lanza ZeroDivisionError
    else Ok (metros / 111320.0, metros / (111320.0 * cos (radians latitud)))%float.
Proof.
  unfold metros_a_grados, math_cos, dividir.
  change (111320.0 =? 0)%float with false. simpl.
  destruct (is_infinity (radians latitud)); simpl; [reflexivity|].
  destruct (111320.0 * cos (radians latitud) =? 0)%float; reflexivity.
Qed.

End Longitud.

(** ** Label contrast (C2) *)

(** A hexadecimal digit is neither whitespace, nor a sign, nor an
    underscore, nor the [x] of a prefix. *)
Lemma digito_hex_simple (c : ascii) (d : Z) :
  digito 16 c = Some d →
  es_espacio_int c = false ∧ Ascii.eqb c "+" = false ∧ Ascii.eqb c "-" = false ∧
  Ascii.eqb c "_" = false ∧ Ascii.eqb c "x" = false ∧ Ascii.eqb c "X" = false ∧
  Ascii.eqb "#" c = false.
Proof.
  destruct c as [[] [] [] [] [] [] [] []]; vm_compute; intros H;
    first [discriminate H | repeat split].
Qed.

(** [int(s, 16)] of two hexadecimal digits. *)
Lemma py_int_dos_digitos (c1 c2 : ascii) (d1 d2 : Z) :
  digito 16 c1 = Some d1 → digito 16 c2 = Some d2 →
  py_int (String c1 (String c2 "")) 16 = Ok (16 * d1 + d2)%Z.
Proof.
  intros H1 H2.
  destruct (digito_hex_simple c1 d1 H1) as (S1 & P1 & M1 & G1 & _).
  destruct (digito_hex_simple c2 d2 H2) as (S2 & P2 & M2 & G2 & X2 & X2' & _).
  unfold py_int. simpl list_ascii_of_string.
  simpl quitar_izquierda. rewrite S1.
  unfold quitar_signo. rewrite P1, M1.
  unfold quitar_prefijo. simpl (16 =? 16)%Z. cbv iota.
  rewrite X2, X2'. rewrite andb_false_r.
  rewrite H1. simpl leer_digitos. rewrite G1, H1, G2, H2. simpl.
  f_equal. lia.
Qed.

Lemma canales_bien_formado (c1 c2 c3 c4 c5 c6 : ascii) (d1 d2 d3 d4 d5 d6 : Z) :
  digito 16 c1 = Some d1 → digito 16 c2 = Some d2 → digito 16 c3 = Some d3 →
  digito 16 c4 = Some d4 → digito 16 c5 = Some d5 → digito 16 c6 = Some d6 →
  canales (String "#" (String c1 (String c2 (String c3 (String c4 (String c5
             (String c6 ""))))))) =
    Ok (16 * d1 + d2, 16 * d3 + d4, 16 * d5 + d6)%Z.
Proof.
  intros H1 H2 H3 H4 H5 H6.
  destruct (digito_hex_simple c1 d1 H1) as (_ & _ & _ & _ & _ & _ & N1).
  unfold canales, lstrip. simpl list_ascii_of_string.
  cbn [quitar_izquierda]. rewrite Ascii.eqb_refl, N1. simpl string_of_list_ascii.
  unfold slice. simpl substring.
  rewrite (py_int_dos_digitos c1 c2 d1 d2 H1 H2). simpl.
  rewrite (py_int_dos_digitos c3 c4 d3 d4 H3 H4). simpl.
  rewrite (py_int_dos_digitos c5 c6 d5 d6 H5 H6). reflexivity.
Qed.

Lemma color_texto_contraste_spec (s : string) :
  _color_texto_contraste s =
    match canales s with
    | Ok (r, g, b) => Ok (if (brillo r g b <? 0.5)%float then "white" else "black")
    | Lanza _ => Ok "black"
    end.
Proof.
  unfold _color_texto_contraste.
  destruct (canales s) as [[[r g] b]|e]; reflexivity.
Qed.

Lemma color_texto_contraste_total (s : string) :
  _color_texto_contraste s = Ok "white" ∨ _color_texto_contraste s = Ok "black".
Proof.
  rewrite color_texto_contraste_spec.
  destruct (canales s) as [[[r g] b]|e]; [|auto].
  destruct (brillo r g b <? 0.5)%float; auto.
Qed.

Lemma brillo_igual_no_menor (x y : float) :
  (x =? y)%float = true → (x <? y)%float = false.
Proof.
  rewrite FloatAxioms.eqb_spec, FloatAxioms.ltb_spec. unfold SFeqb, SFltb.
  destruct (SFcompare (Prim2SF x) (Prim2SF y)) as [[]|]; intros H;
    first [discriminate H | reflexivity].
Qed.

(** C2 (as amended): [_color_texto_contraste] never raises and answers
    white or black; it answers white exactly when the three two-character
    slices of the colour (after the leading [#]) convert with [int(., 16)]
    and the binary64 value of (0.299 r + 0.587 g + 0.114 b) / 255 is below
    0.5, black otherwise, in particular whenever a slice does not convert
    and whenever the computed value is exactly 0.5; for six hexadecimal
    digits after [#] the three numbers are the three channels; [#000000]
    gives white and [#ffffff] gives black. *)
Theorem color_texto_contraste_umbral :
  (∀ s, _color_texto_contraste s = Ok "white" ∨ _color_texto_contraste s = Ok "black") ∧
  (∀ s, _color_texto_contraste s = Ok "white" ↔
        ∃ r g b, canales s = Ok (r, g, b) ∧ (brillo r g b <? 0.5)%float = true) ∧
  (∀ s e, canales s = Lanza e → _color_texto_contraste s = Ok "black") ∧
  (∀ s r g b, canales s = Ok (r, g, b) → (brillo r g b =? 0.5)%float = true →
              _color_texto_contraste s = Ok "black") ∧
  (∀ c1 c2 c3 c4 c5 c6 d1 d2 d3 d4 d5 d6,
     digito 16 c1 = Some d1 → digito 16 c2 = Some d2 → digito 16 c3 = Some d3 →
     digito 16 c4 = Some d4 → digito 16 c5 = Some d5 → digito 16 c6 = Some d6 →
     canales (String "#" (String c1 (String c2 (String c3 (String c4 (String c5
                (String c6 ""))))))) =
       Ok (16 * d1 + d2, 16 * d3 + d4, 16 * d5 + d6)%Z) ∧
  _color_texto_contraste "#000000" = Ok "white" ∧
  _color_texto_contraste "#ffffff" = Ok "black" ∧
  ((brillo 1 173 225 =? 0.5)%float = true ∧ _color_texto_contraste "#01ade1" = Ok "black").
Proof.
  split; [|split; [|split; [|split; [|split]]]].
  - exact color_texto_contraste_total.
  - intros s. rewrite color_texto_contraste_spec. split.
    + destruct (canales s) as [[[r g] b]|e]; [|discriminate].
      destruct (brillo r g b <? 0.5)%float eqn:E; [|discriminate].
      intros _. exists r, g, b. auto.
    + intros (r & g & b & -> & ->). reflexivity.
  - intros s e H. rewrite color_texto_contraste_spec, H. reflexivity.
  - intros s r g b H E. rewrite color_texto_contraste_spec, H.
    rewrite (brillo_igual_no_menor _ _ E). reflexivity.
  - exact canales_bien_formado.
  - repeat split; vm_compute; reflexivity.
Qed.

(** C2 (as stated) fails at [#00cc44], whose luminance is exactly 0.5 in
    exact arithmetic while the computed value is below 0.5, and at the
    malformed colour [#00000], whose last slice is the single digit 0. *)
Lemma color_texto_contraste_frontera :
  canales "#00cc44" = Ok (0, 204, 68)%Z ∧
  luminancia_milesimas 0 204 68 = 127500%Z ∧
  (brillo 0 204 68 <? 0.5)%float = true ∧
  _color_texto_contraste "#00cc44" = Ok "white" ∧
  slice 4 6 (lstrip "#" "#00000") = "0" ∧
  canales "#00000" = Ok (0, 0, 0)%Z ∧
  _color_texto_contraste "#00000" = Ok "white".
Proof. repeat split; vm_compute; reflexivity. Qed.

(** ** Palettes (C5, C6) *)

Lemma try_except_total {A} (cuerpo : resultado A) (manejador : excepcion → resultado A) :
  (∀ e, ∃ a, manejador e = Ok a) → ∃ a, try_except cuerpo manejador = Ok a.
Proof. intros H. destruct cuerpo as [a|e]; simpl; eauto. Qed.

Lemma cargar_paletas_total (f : archivo_en_disco) : ∃ v, cargar_paletas f = Ok v.
Proof.
  destruct f as [| |data]; simpl; eauto; apply try_except_total; eauto.
Qed.

Lemma paleta_por_defecto_campos :
  ∃ d, paleta_por_defecto = VDict d ∧ size d = 17%nat ∧
       ∀ k v, In (k, v) campos_paleta_por_defecto → d !! k = Some v.
Proof.
  eexists. split; [reflexivity|]. split; [vm_compute; reflexivity|].
  intros k v H. simpl in H.
  repeat (destruct H as [H|H]; [injection H as <- <-; vm_compute; reflexivity|]).
  destruct H.
Qed.

(** C5: [cargar_paletas] returns the list whose only entry is the built-in
    palette when the file is missing, when reading or parsing it raises,
    when its ["paletas"] is the empty list and when it has no ["paletas"];
    it never raises; the built-in palette has exactly its 17 fields with
    their fixed values. *)
Theorem cargar_paletas_por_defecto :
  cargar_paletas NoExiste = Ok (VList [paleta_por_defecto]) ∧
  cargar_paletas Ilegible = Ok (VList [paleta_por_defecto]) ∧
  (∀ d, d !! "paletas" = Some (VList []) →
        cargar_paletas (Contiene (VDict d)) = Ok (VList [paleta_por_defecto])) ∧
  (∀ d, d !! "paletas" = None →
        cargar_paletas (Contiene (VDict d)) = Ok (VList [paleta_por_defecto])) ∧
  (∀ f, ∃ v, cargar_paletas f = Ok v) ∧
  (∃ d, paleta_por_defecto = VDict d ∧ size d = 17%nat ∧
        ∀ k v, In (k, v) campos_paleta_por_defecto → d !! k = Some v).
Proof.
  split; [reflexivity|]. split; [reflexivity|].
  split; [|split; [|split]].
  - intros d H. unfold cargar_paletas. simpl. rewrite H. reflexivity.
  - intros d H. unfold cargar_paletas. simpl. rewrite H. reflexivity.
  - exact cargar_paletas_total.
  - exact paleta_por_defecto_campos.
Qed.

(** The listing loop of [pedir_paleta] goes through a list of palettes. *)
Lemma listado_paletas (f : valor → resultado unit) (paletas : list valor) :
  (∀ d, f (VDict d) = Ok tt) → Forall es_dict paletas →
  para_cada f paletas = Ok ((λ _, tt) <$> paletas).
Proof.
  intros Hf H. apply para_cada_todos.
  eapply Forall_impl; [exact H|]. intros [| | | | |d] Hd; try destruct Hd. apply Hf.
Qed.

(** The two scripts choose the same palette. *)
Lemma pedir_paleta_iguales (linea : string) (paletas : list valor) :
  Forall es_dict paletas →
  MapaBajaCalifornia.pedir_paleta linea paletas = Mapa.pedir_paleta linea paletas.
Proof.
  intros H. unfold MapaBajaCalifornia.pedir_paleta, Mapa.pedir_paleta.
  rewrite !(listado_paletas _ paletas) by (auto; intros; reflexivity). simpl.
  destruct (String.eqb (strip linea) ""); simpl.
  - destruct (elemento paletas _) as [[| | | | |d]|e]; reflexivity.
  - destruct (elemento paletas _) as [[| | | | |d]|e]; reflexivity.
Qed.

Lemma pedir_paleta_seleccion (linea : string) (paletas : list valor) :
  Forall es_dict paletas →
  Mapa.pedir_paleta linea paletas =
    p ← elemento paletas (seleccion linea (length paletas));
    _ ← get p "nombre" (VStr "?"); Ok p.
Proof.
  intros H. unfold Mapa.pedir_paleta, seleccion.
  rewrite (listado_paletas _ paletas) by (auto; intros; reflexivity). simpl.
  destruct (String.eqb (strip linea) "") eqn:E; simpl.
  - apply String.eqb_eq in E. rewrite E.
    change (py_int "" 10) with (@Lanza Z ValueError).
    destruct (Z.of_nat (length paletas) <=? 0)%Z; reflexivity.
  - destruct (py_int (strip linea) 10); [reflexivity|].
    simpl. destruct (Z.of_nat (length paletas) <=? 0)%Z; reflexivity.
Qed.

(** C6 (as amended): for every line typed and every non-empty list of
    palettes, both versions of [pedir_paleta] return the same element of
    the list: the entry numbered k (counting from 1) when the stripped line
    converts to an integer k between 1 and the number of palettes, and the
    first entry otherwise, that is when the line is blank, when it does not
    convert, and when k is outside that range. *)
Theorem pedir_paleta_elige (linea : string) (paletas : list valor) :
  paletas ≠ [] → Forall es_dict paletas →
  ∃ p,
    Mapa.pedir_paleta linea paletas = Ok p ∧
    MapaBajaCalifornia.pedir_paleta linea paletas = Ok p ∧
    In p paletas ∧
    (∀ k, py_int (strip linea) 10 = Ok k → (1 ≤ k ≤ Z.of_nat (length paletas))%Z →
          paletas !! Z.to_nat (k - 1) = Some p) ∧
    (∀ k, py_int (strip linea) 10 = Ok k → ¬ (1 ≤ k ≤ Z.of_nat (length paletas))%Z →
          paletas !! 0%nat = Some p) ∧
    (∀ e, py_int (strip linea) 10 = Lanza e → paletas !! 0%nat = Some p) ∧
    (strip linea = "" → paletas !! 0%nat = Some p).
Proof.
  intros Hne Hd.
  assert (Hsel : (0 ≤ seleccion linea (length paletas) < Z.of_nat (length paletas))%Z).
  { unfold seleccion. destruct paletas as [|p0 ps]; [congruence|]. simpl length.
    destruct (py_int (strip linea) 10) as [k|e]; [|lia].
    destruct ((k - 1 <? 0) || (Z.of_nat (S (length ps)) <=? k - 1))%Z eqn:E; [lia|].
    apply orb_false_iff in E as [E1 E2].
    apply Z.ltb_ge in E1. apply Z.leb_gt in E2. lia. }
  destruct (lookup_lt_is_Some_2 paletas (Z.to_nat (seleccion linea (length paletas))))
    as [p Hp]; [lia|].
  assert (Hin : In p paletas).
  { apply list_elem_of_In. eapply list_elem_of_lookup_2. exact Hp. }
  assert (Hdp : es_dict p) by (rewrite Forall_forall in Hd; apply Hd, list_elem_of_In, Hin).
  assert (Hm : Mapa.pedir_paleta linea paletas = Ok p).
  { rewrite pedir_paleta_seleccion by exact Hd. unfold elemento. rewrite Hp. simpl.
    destruct p; try destruct Hdp. reflexivity. }
  exists p. split; [exact Hm|]. split; [rewrite pedir_paleta_iguales; auto|].
  split; [exact Hin|].
  unfold seleccion in Hp. repeat split.
  - intros k Hk Hr. rewrite Hk in Hp.
    replace ((k - 1 <? 0) || (Z.of_nat (length paletas) <=? k - 1))%Z with false in Hp;
      [exact Hp|].
    symmetry. apply orb_false_iff. split; [apply Z.ltb_ge | apply Z.leb_gt]; lia.
  - intros k Hk Hr. rewrite Hk in Hp.
    replace ((k - 1 <? 0) || (Z.of_nat (length paletas) <=? k - 1))%Z with true in Hp;
      [exact Hp|].
    symmetry. apply orb_true_iff.
    destruct (Z.ltb_spec (k - 1) 0); [auto|right; apply Z.leb_le; lia].
  - intros e He. rewrite He in Hp. exact Hp.
  - intros Hb. rewrite Hb in Hp.
    change (py_int "" 10) with (@Lanza Z ValueError) in Hp. exact Hp.
Qed.

Lemma pedir_paleta_elige_witness :
  ∃ p,
    Mapa.pedir_paleta " 2 " [paleta_a; paleta_b; paleta_c] = Ok p ∧
    MapaBajaCalifornia.pedir_paleta " 2 " [paleta_a; paleta_b; paleta_c] = Ok p ∧
    In p [paleta_a; paleta_b; paleta_c] ∧
    (∀ k, py_int (strip " 2 ") 10 = Ok k → (1 ≤ k ≤ Z.of_nat 3)%Z →
          [paleta_a; paleta_b; paleta_c] !! Z.to_nat (k - 1) = Some p) ∧
    (∀ k, py_int (strip " 2 ") 10 = Ok k → ¬ (1 ≤ k ≤ Z.of_nat 3)%Z →
          [paleta_a; paleta_b; paleta_c] !! 0%nat = Some p) ∧
    (∀ e, py_int (strip " 2 ") 10 = Lanza e →
          [paleta_a; paleta_b; paleta_c] !! 0%nat = Some p) ∧
    (strip " 2 " = "" → [paleta_a; paleta_b; paleta_c] !! 0%nat = Some p).
Proof.
  apply (pedir_paleta_elige " 2 " [paleta_a; paleta_b; paleta_c]);
    [discriminate | repeat constructor].
Defined.

Example pedir_paleta_segunda :
  Mapa.pedir_paleta " 2 " [paleta_a; paleta_b; paleta_c] = Ok paleta_b.
Proof. vm_compute. reflexivity. Qed.

(** C6 (as stated) fails for a number past the end of the list: with three
    palettes the answer 5 selects the first one, whereas the index clamped
    to the valid range is that of the last one. *)
Lemma pedir_paleta_fuera_de_rango :
  Mapa.pedir_paleta "5" [paleta_a; paleta_b; paleta_c] = Ok paleta_a ∧
  MapaBajaCalifornia.pedir_paleta "5" [paleta_a; paleta_b; paleta_c] = Ok paleta_a ∧
  indice_acotado (5 - 1) 3 = 2%Z ∧
  [paleta_a; paleta_b; paleta_c] !! 2%nat = Some paleta_c ∧
  paleta_a ≠ paleta_c.
Proof.
  repeat split; try (vm_compute; reflexivity).
  intros H. apply (f_equal (λ v, get v "nombre" VNone)) in H.
  vm_compute in H. discriminate H.
Qed.

(** ** Zone loading (C7) *)

Lemma etiquetar_dict (archivo : string) (nombre_capa : valor) (z : valor) :
  es_dict z → etiquetar archivo nombre_capa z = Ok (etiquetado archivo nombre_capa z).
Proof. destruct z; intros H; try destruct H. reflexivity. Qed.

(** The tags of a record, and its other fields. *)
Lemma etiquetado_campos (archivo : string) (nombre_capa : valor) (d : gmap string valor) :
  ∃ d', etiquetado archivo nombre_capa (VDict d) = VDict d' ∧
        d' !! "_archivo_origen" = Some (VStr archivo) ∧
        d' !! "_nombre_capa" = Some nombre_capa ∧
        ∀ k, k ≠ "_archivo_origen" → k ≠ "_nombre_capa" → d' !! k = d !! k.
Proof.
  eexists. split; [reflexivity|]. split; [|split].
  - rewrite lookup_insert_ne by discriminate. apply lookup_insert_eq.
  - apply lookup_insert_eq.
  - intros k H1 H2. rewrite !lookup_insert_ne by congruence. reflexivity.
Qed.

(** The inner loop tags every record, or stops at the first entry that is
    not an object. *)
Lemma etiquetar_todos (a : string) (n : valor) (l : list valor) :
  para_cada (etiquetar a n) l =
    if forallb es_objeto l then Ok (etiquetado a n <$> l) else Lanza TypeError.
Proof.
  induction l as [|z l IH]; [reflexivity|].
  destruct z as [| | | | |d]; try reflexivity.
  cbn [para_cada forallb es_objeto andb]. rewrite etiquetar_dict by exact I.
  cbn [mbind resultado_bind]. rewrite IH.
  destruct (forallb es_objeto l); reflexivity.
Qed.

(** The body of the [try] succeeds exactly on a readable file. *)
Lemma leer_zonas_legibles (f : archivo_en_disco) (a : string) :
  match zonas_legibles f with
  | Some (d, zs) =>
      ∃ n, leer_zonas f a =
             ([MsgCargadas (nombre_de_capa a d) n],
              Ok (etiquetado a (nombre_de_capa a d) <$> zs))
  | None =>
      ∃ impreso e, leer_zonas f a = (impreso, Lanza e) ∧
                   ∀ a', ¬ In (MsgError a') impreso
  end.
Proof.
  destruct f as [| |v]; [eexists _, _; split; [reflexivity | intros ? []]..|].
  destruct v as [| | | | |d]; [eexists _, _; split; [reflexivity | intros ? []]..|].
  unfold zonas_legibles, leer_zonas. cbn [leer_json get mbind resultado_bind].
  fold (nombre_de_capa a d).
  destruct (default (VList []) (d !! "zonas")) as [|b|x|s|l|m];
    [eexists _, _; split; [reflexivity | intros ? []]..| | |];
    cbn [len iterar mbind resultado_bind]; rewrite etiquetar_todos;
    destruct (forallb es_objeto _); eauto;
    eexists _, _; (split; [reflexivity|]); intros a' [H | []]; discriminate H.
Qed.

(** One turn of the loop: the records of the entry are appended, nothing
    already loaded changes, and an error is printed exactly for a file
    that is not readable. *)
Lemma cargar_capa_registros (disco : string → archivo_en_disco)
    (todas : list valor) (log : list mensaje) (capa : valor) (a : string) :
  nombra_archivo capa a →
  ∃ impreso,
    cargar_capa disco (todas, log) capa
      = Ok (todas ++ registros disco capa, log ++ impreso) ∧
    ∀ a', In (MsgError a') impreso ↔ a' = a ∧ zonas_legibles (disco a) = None.
Proof.
  unfold nombra_archivo, cargar_capa, registros. intros Ha. rewrite Ha.
  cbn [mbind resultado_bind].
  pose proof (leer_zonas_legibles (disco a) a) as H.
  destruct (zonas_legibles (disco a)) as [[d zs]|].
  - destruct H as [n ->]. eexists. split; [reflexivity|].
    intros a'. split; [intros [H | []]; discriminate H | intros [_ H]; discriminate H].
  - destruct H as (impreso & e & -> & Hno).
    exists (impreso ++ [MsgError a]). rewrite app_nil_r. split; [reflexivity|].
    intros a'. rewrite in_app_iff. split.
    + intros [H | [H | []]]; [destruct (Hno a' H) | injection H as <-; auto].
    + intros [-> _]. right. left. reflexivity.
Qed.

Lemma cargar_capas_registros (disco : string → archivo_en_disco) (capas : list valor) :
  Forall (λ capa, ∃ a, nombra_archivo capa a) capas →
  ∀ todas log, ∃ impreso,
    cargar_capas disco (todas, log) capas
      = Ok (todas ++ concat (registros disco <$> capas), log ++ impreso) ∧
    ∀ a, In (MsgError a) impreso ↔
         ∃ capa, In capa capas ∧ nombra_archivo capa a ∧ zonas_legibles (disco a) = None.
Proof.
  induction 1 as [|capa capas [a Ha] _ IH]; intros todas log.
  - exists []. simpl. rewrite !app_nil_r. split; [reflexivity|].
    intros a. split; [intros [] | intros (capa & [] & _)].
  - destruct (cargar_capa_registros disco todas log capa a Ha) as (i1 & E1 & B1).
    destruct (IH (todas ++ registros disco capa) (log ++ i1)) as (i2 & E2 & B2).
    exists (i1 ++ i2). split.
    + cbn [cargar_capas]. rewrite E1. simpl. rewrite E2.
      rewrite <- !app_assoc. reflexivity.
    + intros a'. rewrite in_app_iff, B1, B2. split.
      * intros [[-> Hn] | (c & Hin & Hc & Hn)].
        -- exists capa. split; [left; reflexivity | auto].
        -- exists c. split; [right; exact Hin | auto].
      * intros (c & [<- | Hin] & Hc & Hn).
        -- left. split; [|congruence].
           unfold nombra_archivo in *. congruence.
        -- right. eauto.
Qed.

(** The loop goes through only when every entry names its file. *)
Lemma cargar_capas_nombra (disco : string → archivo_en_disco) (capas : list valor) :
  ∀ estado estado',
    cargar_capas disco estado capas = Ok estado' →
    Forall (λ capa, ∃ a, nombra_archivo capa a) capas.
Proof.
  induction capas as [|capa capas IH]; intros estado estado' H; [constructor|].
  cbn [cargar_capas] in H. apply bind_ok in H as (e1 & H1 & H).
  constructor; [|exact (IH _ _ H)].
  unfold cargar_capa in H1. destruct estado as [todas log].
  apply bind_ok in H1 as (v & Hv & H1).
  destruct v as [| | |a| |]; try discriminate H1.
  exists a. exact Hv.
Qed.

(** The tagged records of a readable file. *)
Lemma registros_etiquetados (a : string) (n : valor) (zs : list valor) :
  forallb es_objeto zs = true →
  Forall2 (etiquetas_de a n) zs (etiquetado a n <$> zs).
Proof.
  induction zs as [|z zs IH]; intros H; [constructor|].
  cbn [forallb] in H. apply andb_true_iff in H as [Hz Hzs].
  constructor; [|exact (IH Hzs)].
  destruct z as [| | | | |dz]; try discriminate Hz.
  destruct (etiquetado_campos a n dz) as (dz' & E & T1 & T2 & T3).
  exists dz, dz'. auto.
Qed.

(** C7: [cargar_zonas] returns for every registry whose entries name
    their files (each an object whose ["archivo"] is a string or absent),
    and whenever it returns, the zones are the concatenation in registry
    order of the records of the readable files, each file's records being
    its ["zonas"] with the file name under [_archivo_origen] and the layer
    name under [_nombre_capa], their other fields unchanged; a file that is
    not readable (missing, not JSON, or one the loop fails on) contributes
    no record, and the errors printed are those of exactly such files. *)
Theorem cargar_zonas_concatena (disco : string → archivo_en_disco) (capas : list valor) :
  (Forall (λ capa, ∃ a, nombra_archivo capa a) capas →
   ∃ zonas log, cargar_zonas disco capas = Ok (zonas, log)) ∧
  (∀ zonas log,
     cargar_zonas disco capas = Ok (zonas, log) →
     zonas = concat (registros disco <$> capas) ∧
     (∀ capa a, In capa capas → nombra_archivo capa a →
        (∀ d zs, zonas_legibles (disco a) = Some (d, zs) →
           Forall2 (etiquetas_de a (nombre_de_capa a d)) zs (registros disco capa)) ∧
        (zonas_legibles (disco a) = None →
           registros disco capa = [] ∧ In (MsgError a) log) ∧
        (disco a = NoExiste ∨ disco a = Ilegible →
           registros disco capa = [] ∧ In (MsgError a) log)) ∧
     (∀ a, In (MsgError a) log →
        ∃ capa, In capa capas ∧ nombra_archivo capa a ∧ zonas_legibles (disco a) = None)).
Proof.
  assert (Hgen : Forall (λ capa, ∃ a, nombra_archivo capa a) capas →
    ∃ impreso,
      cargar_zonas disco capas =
        Ok (concat (registros disco <$> capas),
            if negb (Nat.eqb (length (concat (registros disco <$> capas))) 0)
            then impreso ++ [MsgTotal (length (concat (registros disco <$> capas)))]
            else impreso) ∧
      ∀ a, In (MsgError a) impreso ↔
           ∃ capa, In capa capas ∧ nombra_archivo capa a ∧ zonas_legibles (disco a) = None).
  { intros H. destruct (cargar_capas_registros disco capas H [] []) as (impreso & E & B).
    exists impreso. unfold cargar_zonas. rewrite E. simpl. auto. }
  split.
  - intros H. destruct (Hgen H) as (impreso & E & _). eauto.
  - intros zonas log H.
    assert (Hn : Forall (λ capa, ∃ a, nombra_archivo capa a) capas).
    { unfold cargar_zonas in H. apply bind_ok in H as ([todas log0] & H & _).
      exact (cargar_capas_nombra _ _ _ _ H). }
    destruct (Hgen Hn) as (impreso & E & B). rewrite E in H. injection H as <- <-.
    assert (Hlog : ∀ a, In (MsgError a)
        (if negb (Nat.eqb (length (concat (registros disco <$> capas))) 0)
         then impreso ++ [MsgTotal (length (concat (registros disco <$> capas)))]
         else impreso) ↔ In (MsgError a) impreso).
    { intros a. destruct (negb _); [|reflexivity]. rewrite in_app_iff. split; [|auto].
      intros [H | [H | []]]; [exact H | discriminate H]. }
    split; [reflexivity|]. split.
    + intros capa a Hin Ha.
      assert (Hnone : zonas_legibles (disco a) = None →
                      registros disco capa = [] ∧
                      In (MsgError a)
                        (if negb (Nat.eqb (length (concat (registros disco <$> capas))) 0)
                         then impreso ++ [MsgTotal (length (concat (registros disco <$> capas)))]
                         else impreso)).
      { intros Hz. split.
        - unfold registros. unfold nombra_archivo in Ha. rewrite Ha, Hz. reflexivity.
        - apply Hlog, B. eauto. }
      split; [|split; [exact Hnone|]].
      * intros d zs Hz. unfold registros. unfold nombra_archivo in Ha. rewrite Ha, Hz.
        apply registros_etiquetados.
        unfold zonas_legibles in Hz. destruct (disco a) as [| |[| | | | |d']]; try discriminate Hz.
        destruct (iterar _) as [zs'|]; [|discriminate Hz].
        destruct (forallb es_objeto zs') eqn:Ef; [|discriminate Hz].
        injection Hz as _ <-. exact Ef.
      * intros [Hf | Hf]; apply Hnone; rewrite Hf; reflexivity.
    + intros a Ha. apply B, Hlog, Ha.
Qed.

Lemma cargar_zonas_concatena_witness :
  ∃ log,
    cargar_zonas disco_roto [capa_falta; capa_playas; capa_rotas]
      = Ok (registros disco_roto capa_playas, log) ∧
    length (registros disco_roto capa_playas) = 1%nat ∧
    In (MsgError "falta.json") log ∧ In (MsgError "rotas.json") log.
Proof.
  destruct (cargar_zonas_concatena disco_roto [capa_falta; capa_playas; capa_rotas])
    as [H1 H2].
  destruct H1 as (zonas & log & E).
  { repeat (apply Forall_cons; split; [eexists; vm_compute; reflexivity|]). constructor. }
  destruct (H2 zonas log E) as (Hz & Hc & _).
  exists log. split; [|split; [reflexivity|split]].
  - rewrite E, Hz. vm_compute. reflexivity.
  - destruct (Hc capa_falta "falta.json") as (_ & _ & H3);
      [left; reflexivity | reflexivity |].
    apply H3. left. reflexivity.
  - destruct (Hc capa_rotas "rotas.json") as (_ & H3 & _);
      [right; right; left; reflexivity | reflexivity |].
    apply H3. vm_compute. reflexivity.
Defined.

(** A registry of one missing and one valid file: only the zone of the
    valid file is returned, tagged with that file's name, and the missing
    file is reported. *)
Example cargar_zonas_ejemplo :
  cargar_zonas disco_ejemplo [capa_falta; capa_playas] =
    Ok ([VDict (<["_nombre_capa" := VStr "Playas"]>
                  (<["_archivo_origen" := VStr "playas.json"]> zona_playa))],
        [MsgError "falta.json"; MsgCargadas (VStr "Playas") 1; MsgTotal 1]).
Proof. vm_compute. reflexivity. Qed.

(** ** The markers of the zone layer (C3) *)

Lemma para_cada_In {A B} (f : A → resultado B) (l : list A) (ys : list B) (x : A) (y : B) :
  para_cada f l = Ok ys → In x l → f x = Ok y → In y ys.
Proof.
  intros H. apply para_cada_ok in H.
  induction H as [|x' y' l ys Hxy _ IH]; intros Hin Hf; [destruct Hin|].
  destruct Hin as [-> | Hin]; [left; congruence | right; auto].
Qed.

Lemma para_cada_In_inv {A B} (f : A → resultado B) (l : list A) (ys : list B) (y : B) :
  para_cada f l = Ok ys → In y ys → ∃ x, In x l ∧ f x = Ok y.
Proof.
  intros H. apply para_cada_ok in H.
  induction H as [|x' y' l ys Hxy _ IH]; intros Hin; [destruct Hin|].
  destruct Hin as [<- | Hin].
  - exists x'. split; [left; reflexivity | exact Hxy].
  - destruct (IH Hin) as (x & Hx & Hf). exists x. split; [right; exact Hx | exact Hf].
Qed.

Lemma In_omap_id {A} (l : list (option A)) (x : A) : In x (omap id l) ↔ In (Some x) l.
Proof.
  rewrite <- !list_elem_of_In, list_elem_of_omap. split.
  - intros ([y|] & Hy & E); simpl in E; [congruence | discriminate].
  - intros H. exists (Some x). auto.
Qed.

Section Zonas.

Variable cos : float → float.
Variable colores : string → bool.
Variables lat_min lat_max lon_min lon_max : float.

(** The test of the comprehension and the test of the drawing loop are the
    same test. *)
Lemma zona_visible_dentro (d : gmap string valor) :
  zona_visible lat_min lat_max lon_min lon_max (VDict d) =
    dentro_del_area lat_min lat_max lon_min lon_max
      (default (VNum 0) (d !! "latitud")) (default (VNum 0) (d !! "longitud")).
Proof. reflexivity. Qed.

(** What a marker says about the zone it was drawn for. *)
Lemma dibujar_zona_marcador (radio_visual : float) (zona : valor) (m : marcador) :
  dibujar_zona cos colores lat_min lat_max lon_min lon_max radio_visual zona = Ok (Some m) →
  ∃ d y,
    zona = VDict d ∧
    m_lat m = default (VNum 0) (d !! "latitud") ∧
    m_lon m = default (VNum 0) (d !! "longitud") ∧
    m_id m = default (VStr "?") (d !! "id") ∧
    resolver_color (default (VStr "rojo") (d !! "color")) = Ok (m_facecolor m) ∧
    _color_texto_contraste (m_facecolor m) = Ok (m_color_texto m) ∧
    zona_visible lat_min lat_max lon_min lon_max zona = Ok true ∧
    como_numero (m_lat m) = Ok y ∧
    m_height m = (radio_visual * 2)%float ∧
    m_width m =
      ((if (0 <? cos (radians y))%float then radio_visual / cos (radians y)
        else radio_visual) * 2)%float.
Proof.
  destruct zona as [| | | | |d]; try discriminate.
  unfold dibujar_zona. simpl get. cbn [mbind resultado_bind].
  intros H.
  apply bind_ok in H as (color & Hcolor & H).
  apply bind_ok in H as (dentro & Hdentro & H).
  destruct dentro; simpl in H; [|discriminate].
  apply bind_ok in H as (y & Hy & H).
  apply bind_ok in H as (cos_lat & Hcos & H).
  rewrite radio_longitud_total in H. simpl in H.
  apply bind_ok in H as (u & _ & H).
  apply bind_ok in H as (texto & Htexto & H).
  injection H as <-. simpl.
  unfold math_cos in Hcos.
  destruct (is_infinity (radians y)); [discriminate|]. injection Hcos as <-.
  exists d, y. rewrite zona_visible_dentro. auto 12.
Qed.

(** A zone inside the area, with a colour that resolves and a finite
    latitude, gets a marker at its coordinates. *)
Lemma dibujar_zona_dentro (radio_visual : float) (d : gmap string valor)
    (y : float) (color : string) :
  zona_visible lat_min lat_max lon_min lon_max (VDict d) = Ok true →
  como_numero (default (VNum 0) (d !! "latitud")) = Ok y →
  is_infinity (radians y) = false →
  resolver_color (default (VStr "rojo") (d !! "color")) = Ok color →
  Ellipse colores color = Ok tt →
  ∃ m,
    dibujar_zona cos colores lat_min lat_max lon_min lon_max radio_visual (VDict d)
      = Ok (Some m) ∧
    m_lat m = default (VNum 0) (d !! "latitud") ∧
    m_lon m = default (VNum 0) (d !! "longitud") ∧
    m_id m = default (VStr "?") (d !! "id") ∧
    m_facecolor m = color.
Proof.
  intros Hv Hy Hinf Hc He. rewrite zona_visible_dentro in Hv.
  assert (Ht : ∃ t, _color_texto_contraste color = Ok t)
    by (destruct (color_texto_contraste_total color) as [-> | ->]; eauto).
  destruct Ht as [t Ht].
  unfold dibujar_zona. simpl get. cbn [mbind resultado_bind].
  rewrite Hc. cbn [mbind resultado_bind]. rewrite Hv. cbn [mbind resultado_bind negb].
  rewrite Hy. cbn [mbind resultado_bind]. unfold math_cos. rewrite Hinf.
  cbn [mbind resultado_bind]. rewrite radio_longitud_total. cbn [mbind resultado_bind].
  rewrite He. cbn [mbind resultado_bind].
  rewrite Ht. cbn [mbind resultado_bind].
  eexists. split; [reflexivity|]. simpl. auto.
Qed.

Lemma dibujar_zonas_marcadores (zonas : list valor) (ms : list marcador) (m : marcador) :
  dibujar_zonas cos colores zonas lat_min lat_max lon_min lon_max = Ok ms →
  In m ms ↔
  ∃ zona, In zona zonas ∧
    dibujar_zona cos colores lat_min lat_max lon_min lon_max
      ((lat_max - lat_min) * 0.008)%float zona = Ok (Some m).
Proof.
  unfold dibujar_zonas. intros H.
  apply bind_ok in H as (os & Hos & H). injection H as <-.
  rewrite In_omap_id. split.
  - intros Hin. exact (para_cada_In_inv _ _ _ _ Hos Hin).
  - intros (zona & Hin & Hz). exact (para_cada_In _ _ _ _ _ Hos Hin Hz).
Qed.

(** C3: every marker [dibujar_zonas] draws has the same height, twice the
    visual radius 0.008 * (lat_max - lat_min) computed once from the
    latitude span of the map; its width is twice that radius divided by the
    cosine of its own zone's latitude where that cosine is positive (and
    twice the radius itself where it is not). *)
Theorem dibujar_zonas_radios (zonas : list valor) (ms : list marcador) :
  dibujar_zonas cos colores zonas lat_min lat_max lon_min lon_max = Ok ms →
  Forall
    (λ m,
       m_height m = ((lat_max - lat_min) * 0.008 * 2)%float ∧
       ∃ zona y,
         In zona zonas ∧
         get zona "latitud" (VNum 0) = Ok (m_lat m) ∧
         como_numero (m_lat m) = Ok y ∧
         ((0 <? cos (radians y))%float = true →
            m_width m = ((lat_max - lat_min) * 0.008 / cos (radians y) * 2)%float) ∧
         ((0 <? cos (radians y))%float = false →
            m_width m = ((lat_max - lat_min) * 0.008 * 2)%float))
    ms.
Proof.
  intros H. apply Forall_forall. intros m Hm. apply list_elem_of_In in Hm.
  apply (dibujar_zonas_marcadores zonas ms m H) in Hm as (zona & Hin & Hz).
  apply dibujar_zona_marcador in Hz
    as (d & y & -> & Hlat & _ & _ & _ & _ & _ & Hy & Hh & Hw).
  split; [exact Hh|]. exists (VDict d), y.
  split; [exact Hin|]. split; [simpl; rewrite Hlat; reflexivity|].
  split; [exact Hy|].
  split; intros E; rewrite E in Hw; exact Hw.
Qed.

End Zonas.

Lemma dibujar_zonas_radios_witness :
  ∃ ms,
    dibujar_zonas cos_polos colores_ejemplo [VDict zona_playa; VDict zona_sin_latitud]
      (-5) 33 (-120) (-108)
      = Ok ms ∧
    length ms = 2%nat ∧
    (m_width <$> ms) =
      [((33 - -5) * 0.008 / 0.9063077870366499 * 2)%float;
       ((33 - -5) * 0.008 / 1 * 2)%float] ∧
    Forall
      (λ m,
         m_height m = ((33 - -5) * 0.008 * 2)%float ∧
         ∃ zona y,
           In zona [VDict zona_playa; VDict zona_sin_latitud] ∧
           get zona "latitud" (VNum 0) = Ok (m_lat m) ∧
           como_numero (m_lat m) = Ok y ∧
           ((0 <? cos_polos (radians y))%float = true →
              m_width m = ((33 - -5) * 0.008 / cos_polos (radians y) * 2)%float) ∧
           ((0 <? cos_polos (radians y))%float = false →
              m_width m = ((33 - -5) * 0.008 * 2)%float))
      ms.
Proof.
  eexists. split; [vm_compute; reflexivity|]. split; [reflexivity|].
  split; [vm_compute; reflexivity|].
  apply (dibujar_zonas_radios cos_polos colores_ejemplo (-5) 33 (-120) (-108)
           [VDict zona_playa; VDict zona_sin_latitud]).
  vm_compute. reflexivity.
Defined.

(** ** Division by zero in the longitude correction (C1) *)

(** A computation that does not end in a ZeroDivisionError. *)
Lemma bind_sin_division {A B} (r : resultado A) (f : A → resultado B) :
  r ≠ Lanza ZeroDivisionError → (∀ a, f a ≠ Lanza ZeroDivisionError) →
  r ≫= f ≠ Lanza ZeroDivisionError.
Proof. destruct r as [a|e]; simpl; [auto | congruence]. Qed.

Lemma para_cada_sin_division {A B} (f : A → resultado B) (l : list A) :
  (∀ x, f x ≠ Lanza ZeroDivisionError) → para_cada f l ≠ Lanza ZeroDivisionError.
Proof.
  intros Hf. induction l as [|x l IH]; simpl; [discriminate|].
  apply bind_sin_division; [apply Hf|]. intros y.
  apply bind_sin_division; [exact IH|]. discriminate.
Qed.

Lemma get_sin_division (v : valor) (k : string) (d : valor) :
  get v k d ≠ Lanza ZeroDivisionError.
Proof. destruct v; discriminate. Qed.

Lemma como_numero_sin_division (v : valor) : como_numero v ≠ Lanza ZeroDivisionError.
Proof. destruct v; discriminate. Qed.

Lemma resolver_color_sin_division (v : valor) : resolver_color v ≠ Lanza ZeroDivisionError.
Proof.
  destruct v; try discriminate. simpl.
  destruct (COLORES_ESPAÑOL !! _); [discriminate|].
  destruct (startswith _ _); discriminate.
Qed.

Lemma dentro_del_area_sin_division (lat_min lat_max lon_min lon_max : float)
    (lat lon : valor) :
  dentro_del_area lat_min lat_max lon_min lon_max lat lon ≠ Lanza ZeroDivisionError.
Proof.
  unfold dentro_del_area.
  apply bind_sin_division; [apply como_numero_sin_division|]. intros y.
  destruct (_ && _); [|discriminate].
  apply bind_sin_division; [apply como_numero_sin_division|]. discriminate.
Qed.

Section Guarda.

Variable cos : float → float.
Variable colores : string → bool.

Lemma dibujar_zona_sin_division (lat_min lat_max lon_min lon_max radio_visual : float)
    (zona : valor) :
  dibujar_zona cos colores lat_min lat_max lon_min lon_max radio_visual zona
    ≠ Lanza ZeroDivisionError.
Proof.
  unfold dibujar_zona.
  repeat (apply bind_sin_division; [apply get_sin_division|]; intros ?).
  apply bind_sin_division; [apply resolver_color_sin_division|]. intros color.
  apply bind_sin_division; [apply dentro_del_area_sin_division|]. intros dentro.
  destruct (negb dentro); [discriminate|].
  apply bind_sin_division; [apply como_numero_sin_division|]. intros y.
  apply bind_sin_division.
  { unfold math_cos. destruct (is_infinity _); discriminate. }
  intros cos_lat. rewrite radio_longitud_total. cbn [mbind resultado_bind].
  apply bind_sin_division; [unfold Ellipse; destruct (_ || _); discriminate|].
  intros _.
  destruct (color_texto_contraste_total color) as [-> | ->]; discriminate.
Qed.

(** [metros_a_grados] in terms of the latitude and of its cosine alone:
    the angle of a finite latitude is finite, and the denominator is zero
    only where the cosine is. *)
Lemma metros_a_grados_casos (metros latitud : float) :
  metros_a_grados cos metros latitud =
    if is_infinity latitud then Lanza ValueError
    else if (cos (radians latitud) =? 0)%float then Lanza ZeroDivisionError
    else Ok (metros / 111320.0, metros / (111320.0 * cos (radians latitud)))%float.
Proof.
  rewrite (metros_a_grados_spec cos), radians_es_infinito, producto_nulo. reflexivity.
Qed.

(** C1: no division error in the longitude size.  [dibujar_zonas] never
    raises ZeroDivisionError, whatever the cosine: its longitude radius is
    the uncorrected visual radius whenever the cosine of the latitude is
    not strictly positive, so that the marker is then as wide as it is
    high.  [metros_a_grados] has no guard, and yet it divides by zero only
    where the cosine of the C library is exactly 0.0: for every latitude
    that is not infinite it returns (metros / 111320, metros / (111320 *
    cos(radians(latitud)))) as soon as that cosine is not 0.0, the angle
    of a finite latitude being finite and the product 111320 * cos being
    zero only where the cosine is.  The cosine of the C library is not 0.0
    at the poles (at 90 degrees it is 6.123233995736766e-17). *)
Theorem longitud_sin_division_por_cero :
  (∀ zonas lat_min lat_max lon_min lon_max,
     dibujar_zonas cos colores zonas lat_min lat_max lon_min lon_max
       ≠ Lanza ZeroDivisionError) ∧
  (∀ zonas lat_min lat_max lon_min lon_max ms,
     dibujar_zonas cos colores zonas lat_min lat_max lon_min lon_max = Ok ms →
     Forall
       (λ m, ∃ y, como_numero (m_lat m) = Ok y ∧
                  ((0 <? cos (radians y))%float = false →
                   m_width m = ((lat_max - lat_min) * 0.008 * 2)%float ∧
                   m_width m = m_height m))
       ms) ∧
  (∀ radio_visual cos_lat,
     ∃ radio_lon,
       radio_longitud radio_visual cos_lat = Ok radio_lon ∧
       ((0 <? cos_lat)%float = false → radio_lon = radio_visual) ∧
       ((0 <? cos_lat)%float = true → radio_lon = (radio_visual / cos_lat)%float)) ∧
  (∀ metros latitud,
     (metros_a_grados cos metros latitud = Lanza ZeroDivisionError ↔
      is_infinity latitud = false ∧ (cos (radians latitud) =? 0)%float = true) ∧
     (is_infinity latitud = false → (cos (radians latitud) =? 0)%float = false →
      metros_a_grados cos metros latitud =
        Ok (metros / 111320.0, metros / (111320.0 * cos (radians latitud)))%float)).
Proof.
  split; [|split; [|split]].
  - intros zonas lat_min lat_max lon_min lon_max. unfold dibujar_zonas.
    apply bind_sin_division; [|discriminate].
    apply para_cada_sin_division. intros zona. apply dibujar_zona_sin_division.
  - intros zonas lat_min lat_max lon_min lon_max ms H.
    apply Forall_forall. intros m Hm. apply list_elem_of_In in Hm.
    apply (dibujar_zonas_marcadores cos colores _ _ _ _ zonas ms m H) in Hm
      as (zona & _ & Hz).
    apply dibujar_zona_marcador in Hz
      as (d & y & _ & _ & _ & _ & _ & _ & _ & Hy & Hh & Hw).
    exists y. split; [exact Hy|]. intros E. rewrite E in Hw.
    split; [exact Hw | congruence].
  - intros rv c. rewrite radio_longitud_total.
    eexists; split; [reflexivity|].
    split; intros ->; reflexivity.
  - intros metros latitud. rewrite metros_a_grados_casos. split.
    + destruct (is_infinity latitud); [split; [discriminate | intros [H _]; discriminate H]|].
      destruct (cos (radians latitud) =? 0)%float;
        [split; auto | split; [discriminate | intros [_ H]; discriminate H]].
    + intros -> ->. reflexivity.
Qed.

End Guarda.

Lemma longitud_sin_division_por_cero_witness :
  metros_a_grados cos_polos 100 90
    = Ok (0.00089831117499101685, 14670534812428.467)%float ∧
  metros_a_grados cos_polos 100 (-90)
    = Ok (0.00089831117499101685, 14670534812428.467)%float ∧
  metros_a_grados cos_polos 100 0
    = Ok (0.00089831117499101685, 0.00089831117499101685)%float.
Proof.
  destruct (longitud_sin_division_por_cero cos_polos colores_ejemplo) as (_ & _ & _ & H).
  split; [|split].
  - destruct (H 100 90)%float as [_ H90]. apply H90; reflexivity.
  - destruct (H 100 (-90))%float as [_ H90]. apply H90; reflexivity.
  - destruct (H 100 0)%float as [_ H0]. apply H0; reflexivity.
Defined.

(** Were the cosine exactly zero at some angle, [metros_a_grados] would
    raise there while the radius of [dibujar_zonas] would stay uncorrected. *)
Example cos_nulo_sin_guarda :
  metros_a_grados (λ _, 0%float) 100 90 = Lanza ZeroDivisionError ∧
  radio_longitud 0.088 0 = Ok 0.088%float.
Proof. split; reflexivity. Qed.

(** At an infinite latitude [math.cos] raises its domain error, which is
    not a division error. *)
Example metros_a_grados_infinito :
  (∀ cos, metros_a_grados cos 100 infinity = Lanza ValueError) ∧
  (∀ cos, metros_a_grados cos 100 neg_infinity = Lanza ValueError).
Proof. split; intros cos; reflexivity. Qed.

(** ** The zone layer of [generar_mapa] *)

Lemma filtrar_sublist {A} (p : A → resultado bool) (l xs : list A) :
  filtrar p l = Ok xs → sublist xs l.
Proof.
  revert xs. induction l as [|y l IH]; intros xs H; simpl in H.
  - injection H as <-. constructor.
  - apply bind_ok in H as (b & _ & H). apply bind_ok in H as (xs' & Hxs & H).
    injection H as <-. destruct b; [apply sublist_skip | apply sublist_cons]; auto.
Qed.

Lemma para_cada_In_ex {A B} (f : A → resultado B) (l : list A) (ys : list B) (x : A) :
  para_cada f l = Ok ys → In x l → ∃ y, f x = Ok y ∧ In y ys.
Proof.
  intros H. apply para_cada_ok in H.
  induction H as [|x' y' l ys Hxy _ IH]; intros Hin; [destruct Hin|].
  destruct Hin as [-> | Hin].
  - exists y'. split; [exact Hxy | left; reflexivity].
  - destruct (IH Hin) as (y & Hy & Hys). exists y. split; [exact Hy | right; exact Hys].
Qed.

Section Capa.

Variable cos : float → float.
Variable colores : string → bool.
Variables lat_min lat_max lon_min lon_max : float.

(** The second test, in [dibujar_zonas], never skips a zone that passed
    the first one. *)
Lemma dibujar_zona_omitida (radio_visual : float) (zona : valor) :
  dibujar_zona cos colores lat_min lat_max lon_min lon_max radio_visual zona = Ok None →
  zona_visible lat_min lat_max lon_min lon_max zona = Ok false.
Proof.
  destruct zona as [| | | | |d]; try discriminate.
  rewrite zona_visible_dentro. unfold dibujar_zona. simpl get.
  cbn [mbind resultado_bind]. intros H.
  apply bind_ok in H as (color & _ & H).
  apply bind_ok in H as (dentro & Hd & H).
  destruct dentro; [|exact Hd]. exfalso. simpl in H.
  apply bind_ok in H as (y & _ & H). apply bind_ok in H as (c & _ & H).
  apply bind_ok in H as (r & _ & H). apply bind_ok in H as (u & _ & H).
  apply bind_ok in H as (t & _ & H).
  discriminate H.
Qed.

Lemma marcadores_de_visibles (radio_visual : float) (visibles : list valor)
    (os : list (option marcador)) :
  Forall (λ z, zona_visible lat_min lat_max lon_min lon_max z = Ok true) visibles →
  Forall2
    (λ z o, dibujar_zona cos colores lat_min lat_max lon_min lon_max radio_visual z = Ok o)
    visibles os →
  Forall2
    (λ z m,
       dibujar_zona cos colores lat_min lat_max lon_min lon_max radio_visual z = Ok (Some m))
    visibles (omap id os).
Proof.
  intros Hv H. induction H as [|z o zs os' Hz _ IH]; [constructor|].
  inversion Hv as [|? ? Hz1 Hzs]; subst.
  destruct o as [m|]; simpl.
  - constructor; auto.
  - apply dibujar_zona_omitida in Hz. congruence.
Qed.

Lemma generar_mapa_capa (zonas : list valor) (capa : capa_zonas) :
  generar_mapa cos colores lat_min lat_max lon_min lon_max zonas = Ok capa →
  filtrar (zona_visible lat_min lat_max lon_min lon_max) zonas = Ok (zonas_visibles capa) ∧
  dibujar_zonas cos colores (zonas_visibles capa) lat_min lat_max lon_min lon_max
    = Ok (marcadores capa) ∧
  dibujar_tabla (zonas_visibles capa) = Ok (tabla capa).
Proof.
  unfold generar_mapa. cbv zeta. intros H.
  apply bind_ok in H as (ratio & _ & H).
  destruct zonas as [|z0 zonas']; [injection H as <-; repeat split; reflexivity|].
  cbn [length Nat.eqb negb] in H.
  apply bind_ok in H as (visibles & Hvis & H).
  destruct visibles as [|v0 visibles'].
  - injection H as <-. repeat split; [exact Hvis | reflexivity..].
  - cbn [length Nat.eqb negb] in H.
    apply bind_ok in H as (ms & Hms & H). apply bind_ok in H as (filas & Hf & H).
    injection H as <-. auto.
Qed.

(** The test on a record whose coordinates, or the 0 taken for a missing
    one, are numbers. *)
Lemma zona_visible_numeros (d : gmap string valor) (y x : float) :
  default (VNum 0) (d !! "latitud") = VNum y →
  default (VNum 0) (d !! "longitud") = VNum x →
  zona_visible lat_min lat_max lon_min lon_max (VDict d)
    = Ok (entre lat_min y lat_max && entre lon_min x lon_max).
Proof.
  intros Hy Hx. rewrite zona_visible_dentro, Hy, Hx.
  unfold dentro_del_area, entre. simpl.
  destruct ((lat_min <=? y) && (y <=? lat_max))%float; reflexivity.
Qed.

(** [dibujar_zonas] draws every zone of its list that passes the test. *)
Lemma dibujar_zonas_dibuja (zonas : list valor) (ms : list marcador)
    (d : gmap string valor) :
  dibujar_zonas cos colores zonas lat_min lat_max lon_min lon_max = Ok ms →
  In (VDict d) zonas →
  zona_visible lat_min lat_max lon_min lon_max (VDict d) = Ok true →
  ∃ m, In m ms ∧
       m_lat m = default (VNum 0) (d !! "latitud") ∧
       m_lon m = default (VNum 0) (d !! "longitud") ∧
       m_id m = default (VStr "?") (d !! "id").
Proof.
  unfold dibujar_zonas. intros H Hin Hv.
  apply bind_ok in H as (os & Hos & H). injection H as <-.
  destruct (para_cada_In_ex _ _ _ _ Hos Hin) as ([m|] & Hm & Ho).
  - exists m. split; [apply In_omap_id, Ho|].
    apply dibujar_zona_marcador in Hm as (d' & y & [= <-] & M1 & M2 & M3 & _). auto.
  - apply dibujar_zona_omitida in Hm. congruence.
Qed.

(** It draws nothing for a zone that does not pass it. *)
Lemma dibujar_zonas_omite (ms : list marcador) (d : gmap string valor) :
  dibujar_zonas cos colores [VDict d] lat_min lat_max lon_min lon_max = Ok ms →
  zona_visible lat_min lat_max lon_min lon_max (VDict d) = Ok false →
  ms = [].
Proof.
  unfold dibujar_zonas. intros H Hv.
  apply bind_ok in H as (os & Hos & H). injection H as <-.
  cbn [para_cada] in Hos. apply bind_ok in Hos as (o & Ho & Hos).
  injection Hos as <-. destruct o as [m|]; [|reflexivity].
  apply dibujar_zona_marcador in Ho as (d' & y & _ & _ & _ & _ & _ & _ & Hv' & _).
  congruence.
Qed.

(** [generar_mapa] on one zone whose colour matplotlib takes. *)
Lemma generar_mapa_una (d : gmap string valor) (b : bool) (y : float) (color : string) :
  zona_visible lat_min lat_max lon_min lon_max (VDict d) = Ok b →
  como_numero (default (VNum 0) (d !! "latitud")) = Ok y →
  is_infinity y = false →
  (lon_max - lon_min =? 0)%float = false →
  resolver_color (default (VStr "rojo") (d !! "color")) = Ok color →
  Ellipse colores color = Ok tt →
  ∃ capa,
    generar_mapa cos colores lat_min lat_max lon_min lon_max [VDict d] = Ok capa ∧
    zonas_visibles capa = (if b then [VDict d] else []) ∧
    (b = true →
     ∃ m, marcadores capa = [m] ∧
          m_lat m = default (VNum 0) (d !! "latitud") ∧
          m_lon m = default (VNum 0) (d !! "longitud")).
Proof.
  intros Hv Hy Hinf Hancho Hc He.
  unfold generar_mapa, dividir. cbv zeta. rewrite Hancho.
  cbn [mbind resultado_bind length Nat.eqb negb filtrar]. rewrite Hv.
  cbn [mbind resultado_bind]. destruct b; cbn [length Nat.eqb negb].
  - destruct (dibujar_zona_dentro cos colores lat_min lat_max lon_min lon_max
                ((lat_max - lat_min) * 0.008)%float d y color Hv Hy
                (radians_finito y Hinf) Hc He)
      as (m & Hm & M1 & M2 & _).
    unfold dibujar_zonas. cbn [para_cada mbind resultado_bind]. rewrite Hm.
    cbn [mbind resultado_bind]. simpl.
    eexists. split; [reflexivity|]. split; [reflexivity|]. intros _. exists m. auto.
  - eexists. split; [reflexivity|]. split; [reflexivity|]. discriminate.
Qed.

End Capa.

(** ** Visible zones (C4, C10) *)

Section Visibles.

Variable cos : float → float.
Variable colores : string → bool.

Lemma dibujar_tabla_fila (zonas : list valor) (filas : list fila_tabla)
    (d : gmap string valor) :
  dibujar_tabla zonas = Ok filas → In (VDict d) zonas →
  In {| f_id := default (VStr "?") (d !! "id");
        f_nombre := default (VStr "?") (d !! "nombre") |} filas.
Proof.
  intros H Hin. exact (para_cada_In _ _ _ _ _ H Hin eq_refl).
Qed.

(** What [generar_mapa] does with a zone that passes the test and can be
    drawn. *)
Lemma generar_mapa_incluye (lat_min lat_max lon_min lon_max : float)
    (zonas : list valor) (capa : capa_zonas) (d : gmap string valor) (m : marcador) :
  generar_mapa cos colores lat_min lat_max lon_min lon_max zonas = Ok capa →
  In (VDict d) zonas →
  zona_visible lat_min lat_max lon_min lon_max (VDict d) = Ok true →
  dibujar_zona cos colores lat_min lat_max lon_min lon_max
    ((lat_max - lat_min) * 0.008)%float (VDict d) = Ok (Some m) →
  In (VDict d) (zonas_visibles capa) ∧
  In m (marcadores capa) ∧
  In {| f_id := default (VStr "?") (d !! "id");
        f_nombre := default (VStr "?") (d !! "nombre") |} (tabla capa).
Proof.
  intros H Hin Hv Hm. unfold generar_mapa in H. cbv zeta in H.
  apply bind_ok in H as (ratio & _ & H).
  destruct zonas as [|z0 zonas']; [destruct Hin|].
  cbn [length Nat.eqb negb] in H.
  apply bind_ok in H as (visibles & Hvis & H).
  assert (Hdv : In (VDict d) visibles)
    by (apply (filtrar_ok _ _ _ Hvis); split; assumption).
  destruct visibles as [|v0 visibles']; [destruct Hdv|].
  cbn [length Nat.eqb negb] in H.
  apply bind_ok in H as (ms & Hms & H).
  apply bind_ok in H as (filas & Hfilas & H).
  injection H as <-. simpl.
  split; [exact Hdv|]. split.
  - apply (dibujar_zonas_marcadores cos colores _ _ _ _ _ _ m Hms). eauto.
  - exact (dibujar_tabla_fila _ _ d Hfilas Hdv).
Qed.

(** C4: with the bounds lat [22, 33] and lon [-120, -108], a zone record
    with latitud 25, longitud -113 and color "rojo" passes the test of
    [generar_mapa]; whenever [generar_mapa] returns for a list holding it,
    the zone is among the visible ones, it has a marker at (-113, 25)
    filled with "#e63946", the value [resolver_color] gives for "rojo",
    and it has a row in the legend; and [generar_mapa] does return for the
    list holding that zone alone. *)
Theorem zona_roja_visible (d : gmap string valor) :
  d !! "latitud" = Some (VNum 25) →
  d !! "longitud" = Some (VNum (-113)) →
  d !! "color" = Some (VStr "rojo") →
  resolver_color (VStr "rojo") = Ok "#e63946" ∧
  zona_visible 22 33 (-120) (-108) (VDict d) = Ok true ∧
  (∀ zonas capa,
     In (VDict d) zonas →
     generar_mapa cos colores 22 33 (-120) (-108) zonas = Ok capa →
     In (VDict d) (zonas_visibles capa) ∧
     (∃ m, In m (marcadores capa) ∧
           m_lat m = VNum 25 ∧ m_lon m = VNum (-113) ∧
           m_facecolor m = "#e63946" ∧
           m_id m = default (VStr "?") (d !! "id")) ∧
     In {| f_id := default (VStr "?") (d !! "id");
           f_nombre := default (VStr "?") (d !! "nombre") |} (tabla capa)) ∧
  (∃ capa, generar_mapa cos colores 22 33 (-120) (-108) [VDict d] = Ok capa ∧
           zonas_visibles capa = [VDict d]).
Proof.
  intros Hlat Hlon Hcolor.
  assert (Hrojo : resolver_color (VStr "rojo") = Ok "#e63946")
    by (vm_compute; reflexivity).
  assert (Hv : zona_visible 22 33 (-120) (-108) (VDict d) = Ok true).
  { rewrite zona_visible_dentro, Hlat, Hlon. reflexivity. }
  destruct (dibujar_zona_dentro cos colores 22 33 (-120) (-108) ((33 - 22) * 0.008)%float
              d 25%float "#e63946" Hv)
    as (m & Hm & Mlat & Mlon & Mid & Mcolor).
  { rewrite Hlat. reflexivity. }
  { reflexivity. }
  { rewrite Hcolor. exact Hrojo. }
  { reflexivity. }
  rewrite Hlat in Mlat. rewrite Hlon in Mlon.
  split; [exact Hrojo|]. split; [exact Hv|]. split.
  - intros zonas capa Hin Hg.
    destruct (generar_mapa_incluye _ _ _ _ zonas capa d m Hg Hin Hv Hm) as (V & M & T).
    split; [exact V|]. split; [|exact T]. exists m. auto.
  - unfold generar_mapa. cbv zeta.
    change (dividir (33 - 22) (-108 - -120))%float
      with (@Ok float ((33 - 22) / (-108 - -120))%float).
    cbn [mbind resultado_bind length Nat.eqb negb filtrar].
    rewrite Hv. cbn [mbind resultado_bind length Nat.eqb negb].
    unfold dibujar_zonas. cbn [para_cada mbind resultado_bind].
    rewrite Hm. cbn [mbind resultado_bind]. simpl.
    eexists. split; reflexivity.
Qed.

End Visibles.

Lemma zona_roja_visible_witness :
  resolver_color (VStr "rojo") = Ok "#e63946" ∧
  zona_visible 22 33 (-120) (-108) (VDict zona_playa) = Ok true ∧
  (∀ zonas capa,
     In (VDict zona_playa) zonas →
     generar_mapa cos_ejemplo colores_ejemplo 22 33 (-120) (-108) zonas = Ok capa →
     In (VDict zona_playa) (zonas_visibles capa) ∧
     (∃ m, In m (marcadores capa) ∧
           m_lat m = VNum 25 ∧ m_lon m = VNum (-113) ∧
           m_facecolor m = "#e63946" ∧
           m_id m = default (VStr "?") (zona_playa !! "id")) ∧
     In {| f_id := default (VStr "?") (zona_playa !! "id");
           f_nombre := default (VStr "?") (zona_playa !! "nombre") |} (tabla capa)) ∧
  (∃ capa, generar_mapa cos_ejemplo colores_ejemplo 22 33 (-120) (-108) [VDict zona_playa]
             = Ok capa ∧
           zonas_visibles capa = [VDict zona_playa]).
Proof.
  apply (zona_roja_visible cos_ejemplo colores_ejemplo zona_playa); vm_compute; reflexivity.
Defined.

(** The zone layer of the example. *)
Example generar_mapa_ejemplo :
  generar_mapa cos_ejemplo colores_ejemplo 22 33 (-120) (-108)
    [VDict zona_playa; VDict zona_sin_latitud] =
    Ok {| zonas_visibles := [VDict zona_playa];
          marcadores :=
            [ {| m_lon := VNum (-113); m_lat := VNum 25;
                 m_width := ((33 - 22) * 0.008 / 0.9063077870366499 * 2)%float;
                 m_height := ((33 - 22) * 0.008 * 2)%float;
                 m_facecolor := "#e63946"; m_id := VNum 1;
                 m_color_texto := "white"; m_borde_texto := "black" |} ];
          tabla := [ {| f_id := VNum 1; f_nombre := VStr "Playa" |} ] |}.
Proof. vm_compute. reflexivity. Qed.

Section SinCoordenada.

Variable cos : float → float.
Variable colores : string → bool.
Variables lat_min lat_max lon_min lon_max : float.

(** C10: a zone record without "latitud" or without "longitud" is not
    rejected: both the filter of [generar_mapa] and [dibujar_zonas] take 0
    for the missing coordinate.  With [y] the latitude of the record, or 0
    when it has none, and [x] its longitude, or 0 when it has none:
    whenever [generar_mapa] returns for a list holding the record, the
    record is among the visible zones exactly when [lat_min <= y <=
    lat_max] and [lon_min <= x <= lon_max], and it then has a marker at
    ([x], [y]); [dibujar_zonas] draws such a marker for it whenever the
    test holds, and none when it does not; and [generar_mapa] does return
    for the record alone, with that one marker when it is visible, as soon
    as the longitude span is not zero and matplotlib takes its colour. *)
Theorem zona_sin_coordenada (d : gmap string valor) (y x : float) :
  d !! "latitud" = None ∧ y = 0%float ∨ d !! "latitud" = Some (VNum y) →
  d !! "longitud" = None ∧ x = 0%float ∨ d !! "longitud" = Some (VNum x) →
  (∀ zonas capa,
     In (VDict d) zonas →
     generar_mapa cos colores lat_min lat_max lon_min lon_max zonas = Ok capa →
     (In (VDict d) (zonas_visibles capa) ↔
      entre lat_min y lat_max && entre lon_min x lon_max = true) ∧
     (In (VDict d) (zonas_visibles capa) →
      ∃ m, In m (marcadores capa) ∧ m_lat m = VNum y ∧ m_lon m = VNum x ∧
           m_id m = default (VStr "?") (d !! "id"))) ∧
  (∀ zonas ms,
     In (VDict d) zonas →
     dibujar_zonas cos colores zonas lat_min lat_max lon_min lon_max = Ok ms →
     entre lat_min y lat_max && entre lon_min x lon_max = true →
     ∃ m, In m ms ∧ m_lat m = VNum y ∧ m_lon m = VNum x ∧
          m_id m = default (VStr "?") (d !! "id")) ∧
  (∀ ms,
     dibujar_zonas cos colores [VDict d] lat_min lat_max lon_min lon_max = Ok ms →
     entre lat_min y lat_max && entre lon_min x lon_max = false →
     ms = []) ∧
  (is_infinity y = false →
   (lon_max - lon_min =? 0)%float = false →
   ∀ color,
     resolver_color (default (VStr "rojo") (d !! "color")) = Ok color →
     Ellipse colores color = Ok tt →
     ∃ capa,
       generar_mapa cos colores lat_min lat_max lon_min lon_max [VDict d] = Ok capa ∧
       zonas_visibles capa =
         (if entre lat_min y lat_max && entre lon_min x lon_max then [VDict d] else []) ∧
       (entre lat_min y lat_max && entre lon_min x lon_max = true →
        ∃ m, marcadores capa = [m] ∧ m_lat m = VNum y ∧ m_lon m = VNum x)).
Proof.
  intros Hlat Hlon.
  assert (Hy : default (VNum 0) (d !! "latitud") = VNum y)
    by (destruct Hlat as [[-> ->] | ->]; reflexivity).
  assert (Hx : default (VNum 0) (d !! "longitud") = VNum x)
    by (destruct Hlon as [[-> ->] | ->]; reflexivity).
  pose proof (zona_visible_numeros lat_min lat_max lon_min lon_max d y x Hy Hx) as Hv.
  split; [|split; [|split]].
  - intros zonas capa Hin Hg.
    apply generar_mapa_capa in Hg as (Hf & Hm & _).
    assert (Hiff : In (VDict d) (zonas_visibles capa) ↔
                   entre lat_min y lat_max && entre lon_min x lon_max = true).
    { rewrite (filtrar_ok _ _ _ Hf (VDict d)), Hv. split.
      - intros [_ [= <-]]. reflexivity.
      - intros ->. auto. }
    split; [exact Hiff|]. intros Hvis.
    assert (Ht : zona_visible lat_min lat_max lon_min lon_max (VDict d) = Ok true)
      by (rewrite Hv; f_equal; apply Hiff, Hvis).
    destruct (dibujar_zonas_dibuja _ _ _ _ _ _ _ _ d Hm Hvis Ht) as (m & Hmm & M1 & M2 & M3).
    exists m. rewrite M1, M2, Hy, Hx. auto.
  - intros zonas ms Hin Hd Ht. rewrite Ht in Hv.
    destruct (dibujar_zonas_dibuja _ _ _ _ _ _ _ _ d Hd Hin Hv) as (m & Hmm & M1 & M2 & M3).
    exists m. rewrite M1, M2, Hy, Hx. auto.
  - intros ms Hd Hf. rewrite Hf in Hv.
    exact (dibujar_zonas_omite _ _ _ _ _ _ _ _ Hd Hv).
  - intros Hinf Hancho color Hc He.
    destruct (generar_mapa_una cos colores lat_min lat_max lon_min lon_max d _ y color
                Hv) as (capa & Hg & Hz & Hm); try assumption.
    { rewrite Hy. reflexivity. }
    exists capa. split; [exact Hg|]. split; [exact Hz|].
    intros Ht. destruct (Hm Ht) as (m & Hmm & M1 & M2).
    exists m. rewrite M1, M2, Hy, Hx. auto.
Qed.

End SinCoordenada.

Lemma zona_sin_coordenada_witness :
  ∃ capa m,
    generar_mapa cos_ejemplo colores_ejemplo (-5) 5 (-120) (-108) [VDict zona_sin_latitud]
      = Ok capa ∧
    zonas_visibles capa = [VDict zona_sin_latitud] ∧
    marcadores capa = [m] ∧ m_lat m = VNum 0 ∧ m_lon m = VNum (-113).
Proof.
  destruct (zona_sin_coordenada cos_ejemplo colores_ejemplo (-5) 5 (-120) (-108)
              zona_sin_latitud 0 (-113))%float as (_ & _ & _ & H).
  { left. split; reflexivity. }
  { right. reflexivity. }
  destruct (H eq_refl eq_refl "#e63946" eq_refl eq_refl) as (capa & Hg & Hz & Hm).
  destruct (Hm eq_refl) as (m & Hmm & M1 & M2).
  exists capa, m. auto.
Defined.

(** With the default bounds, which do not contain 0 on either axis, the
    zone without latitude is not visible; with bounds around the equator it
    is, and its marker is drawn at latitude 0.  A zone without longitude
    is drawn at longitude 0 when the bounds contain it. *)
Example zona_sin_latitud_ejemplo :
  zona_visible 22 33 (-120) (-108) (VDict zona_sin_latitud) = Ok false ∧
  zona_visible (-5) 5 (-120) (-108) (VDict zona_sin_latitud) = Ok true ∧
  (∃ m, dibujar_zonas cos_ejemplo colores_ejemplo [VDict zona_sin_latitud]
          (-5) 5 (-120) (-108) = Ok [m] ∧
        m_lat m = VNum 0 ∧ m_lon m = VNum (-113)) ∧
  (∃ m, dibujar_zonas cos_ejemplo colores_ejemplo [VDict zona_sin_longitud]
          22 33 (-10) 10 = Ok [m] ∧
        m_lat m = VNum 25 ∧ m_lon m = VNum 0) ∧
  dibujar_zonas cos_ejemplo colores_ejemplo [VDict zona_sin_longitud]
    22 33 (-120) (-108) = Ok [].
Proof.
  split; [vm_compute; reflexivity|]. split; [vm_compute; reflexivity|].
  split; [|split; [|vm_compute; reflexivity]];
    (eexists; split; [vm_compute; reflexivity|]; split; reflexivity).
Qed.

(** ** The bounding-box loaders (C9) *)

Section Cajas.

Variable geometria : Type.
Variable within : geometria → Dibuja.caja → bool.
Variable intersects : geometria → Dibuja.caja → bool.

Lemma seleccionar_In (mascara : Dibuja.fila geometria → bool)
    (gdf : Dibuja.GeoDataFrame geometria) (f : Dibuja.fila geometria) :
  In f (Dibuja.filas _ (Dibuja.seleccionar _ mascara gdf)) ↔
  In f (Dibuja.filas _ gdf) ∧ mascara f = true.
Proof. unfold Dibuja.seleccionar. simpl. apply filter_In. Qed.

(** C9: every row [cargar_ciudades] returns is a row of the dataset whose
    geometry is within the box of the requested bounds, the narrowing to
    one country only removing rows (this holds of the frame it has built
    even when printing the names then fails); every row
    [cargar_carreteras] returns is a row of the dataset whose geometry
    intersects that box, and every such row is returned.  This holds for
    all bounds, in particular for those with lat_min < lat_max and
    lon_min < lon_max. *)
Theorem cargadores_dentro_de_la_caja (gdf : Dibuja.GeoDataFrame geometria)
    (lat_min lat_max lon_min lon_max : float) :
  let area := Dibuja.box lon_min lat_min lon_max lat_max in
  (∀ ciudades f,
     Dibuja.cargar_ciudades _ within gdf lat_min lat_max lon_min lon_max = Ok ciudades →
     In f (Dibuja.filas _ ciudades) →
     In f (Dibuja.filas _ gdf) ∧ within (Dibuja.geometry _ f) area = true) ∧
  (∀ f, In f (Dibuja.filas _
                (Dibuja.ciudades_del_area _ within gdf lat_min lat_max lon_min lon_max)) →
        In f (Dibuja.filas _ gdf) ∧ within (Dibuja.geometry _ f) area = true) ∧
  (∀ f, In f (Dibuja.filas _ (Dibuja.cargar_carreteras _ intersects gdf lat_min lat_max lon_min lon_max)) ↔
        In f (Dibuja.filas _ gdf) ∧ intersects (Dibuja.geometry _ f) area = true).
Proof.
  intros area.
  assert (Hfr : ∀ f,
    In f (Dibuja.filas _
            (Dibuja.ciudades_del_area _ within gdf lat_min lat_max lon_min lon_max)) →
    In f (Dibuja.filas _ gdf) ∧ within (Dibuja.geometry _ f) area = true).
  { intros f. unfold Dibuja.ciudades_del_area. fold area.
    set (ciudades := Dibuja.seleccionar _ (λ f, within (Dibuja.geometry _ f) area) gdf).
    assert (Hc : ∀ g, In g (Dibuja.filas _ ciudades) →
                      In g (Dibuja.filas _ gdf) ∧ within (Dibuja.geometry _ g) area = true)
      by (intros g Hg; apply seleccionar_In in Hg; exact Hg).
    assert (Hmx : ∀ col g,
      In g (Dibuja.filas _ (Dibuja.seleccionar _ (Dibuja.celda_es _ col "Mexico") ciudades)) →
      In g (Dibuja.filas _ gdf) ∧ within (Dibuja.geometry _ g) area = true)
      by (intros col g Hg; apply seleccionar_In in Hg as [Hg _]; auto).
    destruct (Dibuja.tiene_columna _ "SOV0NAME" ciudades).
    + destruct (negb _); [apply Hmx | apply Hc].
    + destruct (Dibuja.tiene_columna _ "ADM0NAME" ciudades).
      * destruct (negb _); [apply Hmx | apply Hc].
      * apply Hc. }
  split; [|split].
  - intros ciudades f H Hf. apply Hfr.
    unfold Dibuja.cargar_ciudades in H. cbv zeta in H.
    destruct (_ && _); [destruct (Dibuja.nombres_de_texto _ _); [|discriminate H]|];
      injection H as <-; exact Hf.
  - exact Hfr.
  - intros f. unfold Dibuja.cargar_carreteras. fold area. apply seleccionar_In.
Qed.

End Cajas.

(** * Further properties of the scripts *)

(** ** More on zone loading *)

Lemma etiquetar_inv (a : string) (n : valor) (z z' : valor) :
  etiquetar a n z = Ok z' → con_etiquetas a z'.
Proof.
  destruct z as [| | | | |d]; try discriminate. intros [= <-].
  destruct (etiquetado_campos a n d) as (d' & E & T1 & T2 & _).
  simpl in E. injection E as <-. simpl. eexists. split; [reflexivity|].
  split; [exact T1|]. rewrite T2. eauto.
Qed.

Lemma leer_zonas_inv (f : archivo_en_disco) (a : string)
    (impreso : list mensaje) (r : resultado (list valor)) :
  leer_zonas f a = (impreso, r) →
  Forall (λ m, ∀ a', m ≠ MsgError a') impreso ∧
  (∀ zs, r = Ok zs → Forall (con_etiquetas a) zs).
Proof.
  unfold leer_zonas.
  destruct (_ ≫= _) as [[[zonas nombre] n]|e]; intros [= <- <-].
  - split; [repeat constructor; discriminate|].
    intros zs H. apply bind_ok in H as (elementos & _ & H).
    apply para_cada_ok in H. induction H as [|x y l l' Hxy _ IH]; constructor; auto.
    eapply etiquetar_inv, Hxy.
  - split; [constructor|]. discriminate.
Qed.

Lemma cargar_capa_inv (disco : string → archivo_en_disco) (todas : list valor)
    (log : list mensaje) (capa : valor) (todas' : list valor) (log' : list mensaje) :
  cargar_capa disco (todas, log) capa = Ok (todas', log') →
  ∃ a zs msgs,
    nombra_archivo capa a ∧ todas' = todas ++ zs ∧ log' = log ++ msgs ∧
    Forall (con_etiquetas a) zs ∧
    Forall (λ m, ∀ a', m = MsgError a' → a' = a) msgs.
Proof.
  unfold cargar_capa, nombra_archivo. intros H.
  apply bind_ok in H as (archivo_v & Hg & H).
  destruct archivo_v as [| | |a| |]; try discriminate H.
  cbn [mbind resultado_bind] in H.
  destruct (leer_zonas (disco a) a) as [impreso r] eqn:E.
  destruct (leer_zonas_inv _ _ _ _ E) as [Himp Hzs].
  exists a. destruct r as [zs|e]; injection H as <- <-.
  - exists zs, impreso. repeat split; auto.
    eapply Forall_impl; [exact Himp|]. intros m Hm a' ->. destruct (Hm a' eq_refl).
  - exists [], (impreso ++ [MsgError a]). rewrite app_nil_r. repeat split; auto.
    apply Forall_app. split.
    + eapply Forall_impl; [exact Himp|]. intros m Hm a' ->. destruct (Hm a' eq_refl).
    + repeat constructor. congruence.
Qed.

Lemma cargar_capa_nombrada (disco : string → archivo_en_disco)
    (estado : list valor * list mensaje) (capa : valor) (a : string) :
  nombra_archivo capa a → ∃ estado', cargar_capa disco estado capa = Ok estado'.
Proof.
  unfold nombra_archivo, cargar_capa. intros H. destruct estado as [todas log].
  rewrite H. cbn [mbind resultado_bind].
  destruct (leer_zonas (disco a) a) as [impreso [zs|e]]; eauto.
Qed.

Lemma cargar_capas_inv (disco : string → archivo_en_disco) (capas : list valor) :
  ∀ todas log todas' log',
    cargar_capas disco (todas, log) capas = Ok (todas', log') →
    Forall (λ capa, ∃ a, nombra_archivo capa a) capas ∧
    ∃ zs msgs,
      todas' = todas ++ zs ∧ log' = log ++ msgs ∧
      Forall (λ z, ∃ capa a, In capa capas ∧ nombra_archivo capa a ∧ con_etiquetas a z) zs ∧
      Forall (λ m, ∀ a, m = MsgError a → ∃ capa, In capa capas ∧ nombra_archivo capa a)
        msgs.
Proof.
  induction capas as [|capa capas IH]; intros todas log todas' log' H.
  - injection H as <- <-. split; [constructor|].
    exists [], []. rewrite !app_nil_r. repeat split; constructor.
  - cbn [cargar_capas] in H. apply bind_ok in H as ([todas1 log1] & H1 & H).
    apply cargar_capa_inv in H1 as (a & zs1 & m1 & Ha & -> & -> & Hz1 & Hm1).
    apply IH in H as (Hn & zs2 & m2 & -> & -> & Hz2 & Hm2).
    split; [constructor; eauto|].
    exists (zs1 ++ zs2), (m1 ++ m2). rewrite !app_assoc. repeat split.
    + apply Forall_app. split.
      * eapply Forall_impl; [exact Hz1|]. intros z Hz. exists capa, a.
        split; [left; reflexivity | auto].
      * eapply Forall_impl; [exact Hz2|]. intros z (c & a' & Hin & Hc & Hz).
        exists c, a'. split; [right; exact Hin | auto].
    + apply Forall_app. split.
      * eapply Forall_impl; [exact Hm1|]. intros m Hm a' E.
        rewrite (Hm a' E). exists capa. split; [left; reflexivity | exact Ha].
      * eapply Forall_impl; [exact Hm2|]. intros m Hm a' E.
        destruct (Hm a' E) as (c & Hin & Hc). exists c. split; [right; exact Hin | exact Hc].
Qed.

Lemma cargar_capas_nombradas (disco : string → archivo_en_disco) (capas : list valor) :
  Forall (λ capa, ∃ a, nombra_archivo capa a) capas →
  ∀ estado, ∃ estado', cargar_capas disco estado capas = Ok estado'.
Proof.
  induction 1 as [|capa capas [a Ha] _ IH]; intros estado; [simpl; eauto|].
  destruct (cargar_capa_nombrada disco estado capa a Ha) as [e1 E1].
  destruct (IH e1) as [e2 E2]. exists e2.
  cbn [cargar_capas]. rewrite E1. exact E2.
Qed.

(** X1: [cargar_zonas] returns, whatever the files hold, exactly when every
    registry entry is an object whose ["archivo"] is a string or absent; an
    entry that is not an object, or whose ["archivo"] is not a string,
    makes the whole load raise. *)
Theorem cargar_zonas_devuelve_sii (disco : string → archivo_en_disco)
    (capas : list valor) :
  (∃ r, cargar_zonas disco capas = Ok r) ↔
  Forall (λ capa, ∃ a, nombra_archivo capa a) capas.
Proof.
  unfold cargar_zonas. split.
  - intros [r H]. apply bind_ok in H as ([todas log] & H & _).
    apply cargar_capas_inv in H as [Hn _]. exact Hn.
  - intros H. destruct (cargar_capas_nombradas disco capas H ([], [])) as [[todas log] E].
    rewrite E. simpl. eauto.
Qed.

(** X2: every record [cargar_zonas] returns is an object that carries
    [_nombre_capa] and, under [_archivo_origen], the file name of one of
    the registry entries; every error it prints names the file of one of
    the registry entries. *)
Theorem cargar_zonas_etiqueta_todo (disco : string → archivo_en_disco)
    (capas : list valor) (zonas : list valor) (log : list mensaje) :
  cargar_zonas disco capas = Ok (zonas, log) →
  Forall (λ z, ∃ capa a, In capa capas ∧ nombra_archivo capa a ∧ con_etiquetas a z) zonas ∧
  Forall (λ m, ∀ a, m = MsgError a → ∃ capa, In capa capas ∧ nombra_archivo capa a) log.
Proof.
  unfold cargar_zonas. intros H.
  apply bind_ok in H as ([todas log0] & H & E). injection E as <- <-.
  apply cargar_capas_inv in H as (_ & zs & msgs & -> & -> & Hz & Hm).
  simpl. split; [exact Hz|].
  destruct (negb _); [|exact Hm].
  apply Forall_app. split; [exact Hm|]. repeat constructor. discriminate.
Qed.

Lemma cargar_zonas_etiqueta_todo_witness :
  ∃ zonas log,
    cargar_zonas disco_ejemplo [capa_falta; capa_playas] = Ok (zonas, log) ∧
    length zonas = 1%nat ∧
    Forall (λ z, ∃ capa a, In capa [capa_falta; capa_playas] ∧ nombra_archivo capa a ∧
                           con_etiquetas a z) zonas ∧
    Forall (λ m, ∀ a, m = MsgError a →
                      ∃ capa, In capa [capa_falta; capa_playas] ∧ nombra_archivo capa a) log.
Proof.
  eexists _, _. split; [vm_compute; reflexivity|]. split; [reflexivity|].
  apply (cargar_zonas_etiqueta_todo disco_ejemplo [capa_falta; capa_playas]).
  vm_compute. reflexivity.
Defined.

Lemma etiquetar_falla (a : string) (n : valor) (zs : list valor) :
  ¬ Forall es_dict zs → para_cada (etiquetar a n) zs = Lanza TypeError.
Proof.
  induction zs as [|z zs IH]; intros H; [destruct H; constructor|].
  destruct z as [| | | | |d]; try reflexivity.
  cbn [para_cada]. rewrite etiquetar_dict by exact I. cbn [mbind resultado_bind].
  rewrite IH; [reflexivity|]. intros Hf. apply H. constructor; [exact I | exact Hf].
Qed.

(** X3: a zone file is taken whole or not at all: when its ["zonas"] list
    holds one entry that is not an object, the file contributes no record,
    even though the count of its zones was already printed, and its error
    is printed after it. *)
Theorem cargar_zonas_todo_o_nada (disco : string → archivo_en_disco) (capa : valor)
    (a : string) (d : gmap string valor) (zs : list valor) :
  nombra_archivo capa a →
  disco a = Contiene (VDict d) →
  d !! "zonas" = Some (VList zs) →
  ¬ Forall es_dict zs →
  cargar_zonas disco [capa] =
    Ok ([], [MsgCargadas (nombre_de_capa a d) (length zs); MsgError a]).
Proof.
  intros Ha Hf Hz Hno. unfold cargar_zonas, nombra_archivo in *.
  cbn [cargar_capas]. unfold cargar_capa. rewrite Ha. cbn [mbind resultado_bind].
  unfold leer_zonas. rewrite Hf. simpl. rewrite Hz. simpl.
  rewrite (etiquetar_falla a _ zs Hno). reflexivity.
Qed.

Lemma cargar_zonas_todo_o_nada_witness :
  cargar_zonas disco_roto [capa_rotas] =
    Ok ([], [MsgCargadas (nombre_de_capa "rotas.json" rotas_json) 2; MsgError "rotas.json"]).
Proof.
  apply (cargar_zonas_todo_o_nada disco_roto capa_rotas "rotas.json" rotas_json
           [VDict zona_playa; VNum 3]);
    try (vm_compute; reflexivity).
  intros H. inversion H as [|? ? _ H2]. inversion H2 as [|? ? H3 _]. exact H3.
Defined.

(** ** The registry of zone layers and the activation prompt *)

(** X4: [cargar_capas_zonas] never raises; it gives the empty list when
    the registry file is missing, unreadable, not an object or without
    ["archivos"], and otherwise the list under ["archivos"] as it is, the
    empty list included; whatever it returns has a length. *)
Theorem cargar_capas_zonas_registro :
  (∀ f, ∃ v, cargar_capas_zonas f = Ok v ∧ ∃ n, len v = Ok n) ∧
  cargar_capas_zonas NoExiste = Ok (VList []) ∧
  cargar_capas_zonas Ilegible = Ok (VList []) ∧
  (∀ data, ¬ es_dict data → cargar_capas_zonas (Contiene data) = Ok (VList [])) ∧
  (∀ d, d !! "archivos" = None → cargar_capas_zonas (Contiene (VDict d)) = Ok (VList [])) ∧
  (∀ d l, d !! "archivos" = Some (VList l) →
          cargar_capas_zonas (Contiene (VDict d)) = Ok (VList l)).
Proof.
  split; [|split; [reflexivity|split; [reflexivity|split; [|split]]]].
  - intros [| |data]; simpl; try (eexists; split; [reflexivity|]; simpl; eauto).
    destruct data as [| | | | |d]; simpl;
      try (eexists; split; [reflexivity|]; simpl; eauto).
    destruct (default (VList []) (d !! "archivos")) as [| | |s|l|d'] eqn:E; simpl;
      eexists; (split; [reflexivity|]); simpl; eauto.
  - intros [| | | | |d] H; try reflexivity. destruct H. exact I.
  - intros d H. simpl. rewrite H. reflexivity.
  - intros d l H. simpl. rewrite H. reflexivity.
Qed.

Lemma nombra_archivo_unico (capa : valor) (a a' : string) :
  nombra_archivo capa a → nombra_archivo capa a' → a = a'.
Proof. unfold nombra_archivo. congruence. Qed.

Lemma es_capa_nombra (capa : valor) : es_capa capa ↔ ∃ a, nombra_archivo capa a.
Proof.
  unfold es_capa, nombra_archivo.
  destruct capa as [| | | | |d]; simpl;
    try (split; intros [a H]; discriminate H).
  destruct (d !! "archivo") as [v|]; simpl; [tauto|].
  split; intros _; eauto.
Qed.

Lemma activar_inv (disco : string → archivo_en_disco) (capas : list valor)
    (parte : string) (capa : valor) :
  activar disco capas parte = Ok (Some capa) →
  In capa capas ∧ ∃ a, nombra_archivo capa a ∧ existe (disco a) = true.
Proof.
  unfold activar. destruct (py_int parte 10) as [n|e]; [|discriminate].
  destruct (_ && _)%Z; [|discriminate]. intros H.
  apply bind_ok in H as (c & Hc & H).
  apply bind_ok in H as (archivo & Ha & H).
  apply bind_ok in H as (hay & Hhay & H).
  destruct hay; [|discriminate]. injection H as <-.
  unfold elemento in Hc. destruct (capas !! _) as [c'|] eqn:El; [|discriminate].
  injection Hc as <-. split.
  - apply list_elem_of_In. eapply list_elem_of_lookup_2. exact El.
  - destruct archivo as [| | |a| |]; try discriminate Hhay.
    exists a. split; [exact Ha|]. simpl in Hhay. congruence.
Qed.

Lemma activar_total (disco : string → archivo_en_disco) (capas : list valor)
    (parte : string) :
  Forall es_capa capas → ∃ o, activar disco capas parte = Ok o.
Proof.
  intros H. unfold activar. destruct (py_int parte 10) as [n|e]; [|eauto].
  destruct (_ && _)%Z eqn:E; [|eauto].
  apply andb_true_iff in E as [E1 E2]. apply Z.leb_le in E1. apply Z.ltb_lt in E2.
  destruct (lookup_lt_is_Some_2 capas (Z.to_nat (n - 1))) as [c Hc]; [lia|].
  unfold elemento. rewrite Hc. cbn [mbind resultado_bind].
  assert (Hcapa : es_capa c).
  { rewrite Forall_forall in H. apply H. eapply list_elem_of_lookup_2. exact Hc. }
  apply es_capa_nombra in Hcapa as [a Ha]. unfold nombra_archivo in Ha.
  rewrite Ha. simpl. eauto.
Qed.

Lemma listar_capa_ok (disco : string → archivo_en_disco) (capa : valor) :
  (∃ u, listar_capa disco capa = Ok u) ↔ es_capa capa.
Proof.
  unfold listar_capa, es_capa.
  destruct capa as [| | | | |d]; simpl;
    try (split; [intros [u H] | intros [a H]]; discriminate H).
  destruct (default (VStr "?") (d !! "archivo")) as [| | |a| |]; simpl;
    try (split; [intros [u H] | intros [a' H]]; discriminate H).
  split; eauto.
Qed.

Lemma listado_capas (disco : string → archivo_en_disco) (capas : list valor) :
  (∃ us, para_cada (listar_capa disco) capas = Ok us) ↔ Forall es_capa capas.
Proof.
  induction capas as [|capa capas IH]; simpl.
  - split; [constructor | eauto].
  - split.
    + intros [us H]. apply bind_ok in H as (u & Hu & H).
      apply bind_ok in H as (us' & Hus & _).
      constructor; [apply (listar_capa_ok disco); eauto | apply IH; eauto].
    + intros H. inversion H as [|? ? Hc Hcs]; subst.
      apply (listar_capa_ok disco) in Hc as [u ->]. apply IH in Hcs as [us ->].
      simpl. eauto.
Qed.

Lemma pedir_zonas_activas_correcto (disco : string → archivo_en_disco)
    (linea : string) (capas activas : list valor) :
  pedir_zonas_activas disco linea capas = Ok activas →
  Forall (λ capa, In capa capas ∧ ∃ a, nombra_archivo capa a ∧ existe (disco a) = true)
    activas.
Proof.
  unfold pedir_zonas_activas.
  destruct (Nat.eqb (length capas) 0); [intros [= <-]; constructor|].
  intros H. apply bind_ok in H as (us & _ & H).
  destruct (String.eqb (strip linea) ""); [injection H as <-; constructor|].
  apply bind_ok in H as (os & Hos & H). injection H as <-.
  apply Forall_forall. intros capa Hin.
  apply list_elem_of_In, In_omap_id in Hin.
  destruct (para_cada_In_inv _ _ _ _ Hos Hin) as (parte & _ & Hp).
  exact (activar_inv disco capas parte capa Hp).
Qed.

(** X5: every layer [pedir_zonas_activas] returns is an entry of the
    registry whose file exists; nothing else is ever activated. *)
Theorem pedir_zonas_activas_existentes (disco : string → archivo_en_disco)
    (linea : string) (capas activas : list valor) :
  pedir_zonas_activas disco linea capas = Ok activas →
  Forall (λ capa, In capa capas ∧ ∃ a, nombra_archivo capa a ∧ existe (disco a) = true)
    activas.
Proof. apply pedir_zonas_activas_correcto. Qed.

Lemma pedir_zonas_activas_existentes_witness :
  ∃ activas,
    pedir_zonas_activas disco_ejemplo "1, 2,2 ,7,x" [capa_falta; capa_playas] = Ok activas ∧
    activas = [capa_playas; capa_playas] ∧
    Forall (λ capa, In capa [capa_falta; capa_playas] ∧
                    ∃ a, nombra_archivo capa a ∧ existe (disco_ejemplo a) = true)
      activas.
Proof.
  eexists. split; [vm_compute; reflexivity|]. split; [reflexivity|].
  apply (pedir_zonas_activas_existentes disco_ejemplo "1, 2,2 ,7,x"
           [capa_falta; capa_playas]).
  vm_compute. reflexivity.
Defined.

(** X6: [pedir_zonas_activas] returns, for every line typed and every
    state of the files, exactly when the registry is empty or each of its
    entries is an object whose ["archivo"] is a string or absent; with an
    empty registry and with a blank line it activates nothing. *)
Theorem pedir_zonas_activas_devuelve_sii (disco : string → archivo_en_disco)
    (linea : string) (capas : list valor) :
  ((∃ activas, pedir_zonas_activas disco linea capas = Ok activas) ↔
   Forall es_capa capas) ∧
  pedir_zonas_activas disco linea [] = Ok [] ∧
  (Forall es_capa capas → strip linea = "" →
   pedir_zonas_activas disco linea capas = Ok []).
Proof.
  split; [|split; [reflexivity|]].
  - unfold pedir_zonas_activas. destruct capas as [|c cs].
    + simpl. split; [constructor | eauto].
    + cbn [length Nat.eqb]. rewrite <- (listado_capas disco (c :: cs)). split.
      * intros [activas H]. apply bind_ok in H as (us & Hus & _). eauto.
      * intros [us Hus]. rewrite Hus. cbn [mbind resultado_bind].
        destruct (String.eqb (strip linea) ""); [eauto|].
        assert (Hc : Forall es_capa (c :: cs)) by (apply (listado_capas disco); eauto).
        assert (Ht : ∀ partes, ∃ os, para_cada (activar disco (c :: cs)) partes = Ok os).
        { induction partes as [|parte partes [os IH]]; simpl; [eauto|].
          destruct (activar_total disco (c :: cs) parte Hc) as [o ->].
          rewrite IH. simpl. eauto. }
        destruct (Ht (split "," (sin_espacios (strip linea)))) as [os ->].
        simpl. eauto.
  - intros Hc Hb. unfold pedir_zonas_activas.
    destruct (Nat.eqb (length capas) 0); [reflexivity|].
    apply (listado_capas disco) in Hc as [us ->]. cbn [mbind resultado_bind].
    rewrite Hb. reflexivity.
Qed.

(** X7: the layers [pedir_zonas_activas] returns can always be loaded:
    [cargar_zonas] returns for them, and each error it prints is about a
    file that exists (one that could not be read or is not a zone file). *)
Theorem activar_y_cargar (disco : string → archivo_en_disco)
    (linea : string) (capas activas : list valor) :
  pedir_zonas_activas disco linea capas = Ok activas →
  ∃ zonas log,
    cargar_zonas disco activas = Ok (zonas, log) ∧
    Forall (λ m, ∀ a, m = MsgError a → existe (disco a) = true) log.
Proof.
  intros H. apply pedir_zonas_activas_correcto in H.
  assert (Hn : Forall (λ capa, ∃ a, nombra_archivo capa a) activas).
  { eapply Forall_impl; [exact H|]. intros capa (_ & a & Ha & _). eauto. }
  destruct (cargar_capas_nombradas disco activas Hn ([], [])) as [[todas log] E].
  pose proof (cargar_capas_inv disco activas _ _ _ _ E) as (_ & zs & msgs & -> & -> & _ & Hm).
  unfold cargar_zonas. rewrite E. simpl. eexists _, _. split; [reflexivity|].
  assert (Hm' : Forall (λ m, ∀ a, m = MsgError a → existe (disco a) = true) msgs).
  { eapply Forall_impl; [exact Hm|]. intros m Hx a Ea.
    destruct (Hx a Ea) as (capa & Hin & Hc).
    rewrite Forall_forall in H. apply list_elem_of_In in Hin.
    destruct (H capa Hin) as (_ & a' & Ha' & He).
    rewrite (nombra_archivo_unico capa a a' Hc Ha'). exact He. }
  destruct (negb _); [|exact Hm'].
  apply Forall_app. split; [exact Hm'|]. repeat constructor. discriminate.
Qed.

Lemma activar_y_cargar_witness :
  ∃ zonas log,
    cargar_zonas disco_ejemplo [capa_playas; capa_playas] = Ok (zonas, log) ∧
    Forall (λ m, ∀ a, m = MsgError a → existe (disco_ejemplo a) = true) log.
Proof.
  apply (activar_y_cargar disco_ejemplo "1, 2,2 ,7,x" [capa_falta; capa_playas]).
  vm_compute. reflexivity.
Defined.

(** ** Palettes, once more *)

Lemma listado_paletas_inv (f : valor → resultado unit) (paletas : list valor) (us : list unit) :
  (∀ v, ¬ es_dict v → f v = Lanza AttributeError) →
  para_cada f paletas = Ok us → Forall es_dict paletas.
Proof.
  intros Hf H. apply para_cada_ok in H.
  induction H as [|p u ps us' Hp _ IH]; constructor; [|exact IH].
  destruct p; try exact I; rewrite Hf in Hp by (intros []); discriminate Hp.
Qed.

Lemma listado_paletas_falla (paletas : list valor) :
  ¬ Forall es_dict paletas →
  para_cada (λ p, _ ← get p "nombre" (VStr "Paleta"); Ok tt) paletas
    = Lanza AttributeError.
Proof.
  induction paletas as [|p ps IH]; intros H; [destruct H; constructor|].
  destruct p as [| | | | |d]; try reflexivity.
  cbn [para_cada get mbind resultado_bind]. rewrite IH; [reflexivity|].
  intros Hf. apply H. constructor; [exact I | exact Hf].
Qed.

Lemma seleccion_en_rango (linea : string) (n : nat) :
  n ≠ 0%nat → (0 ≤ seleccion linea n < Z.of_nat n)%Z.
Proof.
  intros Hn. unfold seleccion.
  destruct (py_int (strip linea) 10) as [k|e]; [|lia].
  destruct ((k - 1 <? 0) || (Z.of_nat n <=? k - 1))%Z eqn:E; [lia|].
  apply orb_false_iff in E as [E1 E2].
  apply Z.ltb_ge in E1. apply Z.leb_gt in E2. lia.
Qed.

Lemma pedir_paleta_devuelve (linea : string) (paletas : list valor) :
  paletas ≠ [] → Forall es_dict paletas →
  ∃ p, Mapa.pedir_paleta linea paletas = Ok p ∧ In p paletas.
Proof.
  intros Hne Hd.
  assert (Hlen : length paletas ≠ 0%nat) by (destruct paletas; [congruence | discriminate]).
  pose proof (seleccion_en_rango linea (length paletas) Hlen) as Hsel.
  destruct (lookup_lt_is_Some_2 paletas (Z.to_nat (seleccion linea (length paletas))))
    as [p Hp]; [lia|].
  assert (Hin : In p paletas).
  { apply list_elem_of_In. eapply list_elem_of_lookup_2. exact Hp. }
  exists p. split; [|exact Hin].
  rewrite pedir_paleta_seleccion by exact Hd. unfold elemento. rewrite Hp. simpl.
  rewrite Forall_forall in Hd. apply list_elem_of_In, Hd in Hin.
  destruct p; try destruct Hin. reflexivity.
Qed.

(** X8: [pedir_paleta] returns exactly when the list is not empty and all
    its entries are objects: on the empty list it raises IndexError, and
    one entry that is not an object makes it raise AttributeError while
    listing, whichever palette the line selects. *)
Theorem pedir_paleta_devuelve_sii (linea : string) (paletas : list valor) :
  ((∃ p, Mapa.pedir_paleta linea paletas = Ok p) ↔
   paletas ≠ [] ∧ Forall es_dict paletas) ∧
  Mapa.pedir_paleta linea [] = Lanza IndexError ∧
  (¬ Forall es_dict paletas → Mapa.pedir_paleta linea paletas = Lanza AttributeError).
Proof.
  split; [split|split].
  - intros [p H]. unfold Mapa.pedir_paleta in H.
    apply bind_ok in H as (us & Hus & H).
    apply listado_paletas_inv in Hus; [|intros [] Hv; try reflexivity; destruct Hv; exact I].
    split; [|exact Hus]. intros ->.
    cbv zeta in H. apply bind_ok in H as (p0 & Hp0 & _).
    unfold elemento in Hp0. rewrite lookup_nil in Hp0. discriminate Hp0.
  - intros [Hne Hd]. destruct (pedir_paleta_devuelve linea paletas Hne Hd) as (p & Hp & _).
    eauto.
  - rewrite pedir_paleta_seleccion by constructor. reflexivity.
  - intros H. unfold Mapa.pedir_paleta. rewrite (listado_paletas_falla paletas H).
    reflexivity.
Qed.

(** X9: what [cargar_paletas] returns is never empty: it is the list with
    the built-in palette alone, or the value the file has under
    ["paletas"], which is then true and has a length; so when it is a list
    of objects, [pedir_paleta] returns one of its entries for every line
    typed. *)
Theorem cargar_y_pedir_paleta (f : archivo_en_disco) (v : valor) :
  cargar_paletas f = Ok v →
  es_verdadero v = true ∧
  (v = VList [paleta_por_defecto] ∨
   ∃ d, f = Contiene (VDict d) ∧ d !! "paletas" = Some v) ∧
  (∀ paletas, v = VList paletas → Forall es_dict paletas →
     ∀ linea, ∃ p, Mapa.pedir_paleta linea paletas = Ok p ∧ In p paletas).
Proof.
  intros H.
  assert (Hv : es_verdadero v = true ∧
               (v = VList [paleta_por_defecto] ∨
                ∃ d, f = Contiene (VDict d) ∧ d !! "paletas" = Some v)).
  { destruct f as [| |data]; try (injection H as <-; split; [reflexivity | auto]).
    destruct data as [| | | | |d]; try (injection H as <-; split; [reflexivity | auto]).
    unfold cargar_paletas in H. simpl in H.
    destruct (d !! "paletas") as [w|] eqn:E; simpl in H;
      [|injection H as <-; split; [reflexivity | auto]].
    destruct (es_verdadero w) eqn:Ew; simpl in H;
      [|injection H as <-; split; [reflexivity | auto]].
    destruct (len w) as [n|e]; simpl in H; injection H as <-.
    - split; [exact Ew|]. right. eauto.
    - split; [reflexivity | auto]. }
  destruct Hv as [Hv Horigen]. split; [exact Hv|]. split; [exact Horigen|].
  intros paletas -> Hd linea. apply pedir_paleta_devuelve; [|exact Hd].
  intros ->. discriminate Hv.
Qed.

Lemma cargar_y_pedir_paleta_witness :
  es_verdadero (VList [paleta_por_defecto]) = true ∧
  (VList [paleta_por_defecto] = VList [paleta_por_defecto] ∨
   ∃ d, NoExiste = Contiene (VDict d) ∧ d !! "paletas" = Some (VList [paleta_por_defecto])) ∧
  (∀ paletas, VList [paleta_por_defecto] = VList paletas → Forall es_dict paletas →
     ∀ linea, ∃ p, Mapa.pedir_paleta linea paletas = Ok p ∧ In p paletas).
Proof. apply (cargar_y_pedir_paleta NoExiste). reflexivity. Defined.

(** ** The region prompt and the figure proportions *)

(** X10: [pedir_coordenadas] does not fall back to a default on an answer
    that is not a number: it raises ValueError exactly when one of the
    four answers is rejected by [float()], and returns otherwise; the two
    scripts agree on every input. *)
Theorem pedir_coordenadas_rechaza (r1 r2 r3 r4 : respuesta) :
  (Mapa.pedir_coordenadas r1 r2 r3 r4 = Lanza ValueError ↔
   r1 = NoNumero ∨ r2 = NoNumero ∨ r3 = NoNumero ∨ r4 = NoNumero) ∧
  ((∃ v, Mapa.pedir_coordenadas r1 r2 r3 r4 = Ok v) ↔
   r1 ≠ NoNumero ∧ r2 ≠ NoNumero ∧ r3 ≠ NoNumero ∧ r4 ≠ NoNumero) ∧
  MapaBajaCalifornia.pedir_coordenadas r1 r2 r3 r4 = Mapa.pedir_coordenadas r1 r2 r3 r4.
Proof.
  split; [|split].
  - unfold Mapa.pedir_coordenadas. split.
    + destruct r1, r2, r3, r4; cbn [leer_coordenada mbind resultado_bind]; auto;
        intros H; exfalso;
        repeat match type of H with
               | context [ordenar ?a ?b] => destruct (ordenar a b)
               end; discriminate H.
    + intros H. destruct r1, r2, r3, r4; try reflexivity;
        destruct H as [H | [H | [H | H]]]; discriminate H.
  - unfold Mapa.pedir_coordenadas. split.
    + intros [v H]. destruct r1, r2, r3, r4;
        cbn [leer_coordenada mbind resultado_bind] in H; try discriminate H;
        repeat split; discriminate.
    + intros (H1 & H2 & H3 & H4).
      destruct r1, r2, r3, r4; try congruence;
        cbn [leer_coordenada mbind resultado_bind];
        repeat match goal with
               | |- context [ordenar ?a ?b] => destruct (ordenar a b)
               end; eauto.
  - destruct r1, r2, r3, r4; reflexivity.
Qed.

(** A finite number minus itself is zero. *)
Lemma resta_propia (x : float) :
  is_nan x = false → is_infinity x = false → (x - x =? 0)%float = true.
Proof.
  unfold is_nan, is_infinity. intros Hn Hi.
  apply negb_false_iff in Hn.
  rewrite FloatAxioms.eqb_spec in Hn, Hi. rewrite FloatAxioms.abs_spec in Hi.
  rewrite FloatAxioms.eqb_spec, FloatAxioms.sub_spec.
  change (Prim2SF 0) with (S754_zero false).
  change (Prim2SF infinity) with (S754_infinity false) in Hi.
  unfold SF64sub. destruct (Prim2SF x) as [s|s| |s m e]; simpl in *.
  - destruct s; reflexivity.
  - discriminate Hi.
  - discriminate Hn.
  - rewrite Z.sub_diag. reflexivity.
Qed.

(** X11: [generar_mapa] raises ZeroDivisionError, before anything is
    drawn, whenever the two longitude bounds are the same finite number;
    and [pedir_coordenadas] does return such bounds when the same number
    is typed for both. *)
Theorem generar_mapa_longitudes_iguales (cos : float → float) (colores : string → bool)
    (r1 r2 : respuesta)
    (a b x : float) :
  leer_coordenada r1 LAT_MIN_DEFAULT = Ok a →
  leer_coordenada r2 LAT_MAX_DEFAULT = Ok b →
  is_nan x = false → is_infinity x = false →
  ∃ lat_min lat_max,
    Mapa.pedir_coordenadas r1 r2 (Numero x) (Numero x) = Ok (lat_min, lat_max, x, x) ∧
    ∀ zonas, generar_mapa cos colores lat_min lat_max x x zonas = Lanza ZeroDivisionError.
Proof.
  intros H1 H2 Hn Hi. unfold Mapa.pedir_coordenadas. rewrite H1, H2. simpl.
  destruct (ordenar a b) as [lat_min lat_max].
  assert (Hx : ordenar x x = (x, x)) by (unfold ordenar; destruct (x <=? x)%float; reflexivity).
  rewrite Hx. exists lat_min, lat_max. split; [reflexivity|].
  intros zonas. unfold generar_mapa, dividir. cbv zeta.
  rewrite (resta_propia x Hn Hi). reflexivity.
Qed.

Lemma generar_mapa_longitudes_iguales_witness :
  ∃ lat_min lat_max,
    Mapa.pedir_coordenadas Vacia Vacia (Numero (-110)) (Numero (-110))
      = Ok (lat_min, lat_max, -110, -110)%float ∧
    ∀ zonas, generar_mapa cos_ejemplo colores_ejemplo lat_min lat_max (-110) (-110) zonas
               = Lanza ZeroDivisionError.
Proof.
  apply (generar_mapa_longitudes_iguales cos_ejemplo colores_ejemplo Vacia Vacia
           LAT_MIN_DEFAULT LAT_MAX_DEFAULT (-110)%float); reflexivity.
Defined.

(** ** The visible zones and their markers *)

Section CapaDeZonas.

Variable cos : float → float.
Variable colores : string → bool.
Variables lat_min lat_max lon_min lon_max : float.

(** X12: the visible zones [generar_mapa] keeps are the zones that pass
    the bounds test, in the order of the list it was given: a subsequence
    of that list holding exactly the zones for which the test is true. *)
Theorem generar_mapa_visibles (zonas : list valor) (capa : capa_zonas) :
  generar_mapa cos colores lat_min lat_max lon_min lon_max zonas = Ok capa →
  sublist (zonas_visibles capa) zonas ∧
  Forall
    (λ z, In z (zonas_visibles capa) ↔
          zona_visible lat_min lat_max lon_min lon_max z = Ok true)
    zonas.
Proof.
  intros H. apply generar_mapa_capa in H as (Hf & _ & _).
  split; [exact (filtrar_sublist _ _ _ Hf)|].
  apply Forall_forall. intros z Hz. apply list_elem_of_In in Hz.
  rewrite (filtrar_ok _ _ _ Hf z). tauto.
Qed.

(** X13: [generar_mapa] draws one marker and one legend row for each
    visible zone, in the same order: the marker is at the zone's
    coordinates (0 for a missing one), carries the zone's id and the
    resolved colour, and the row carries the zone's id and name. *)
Theorem generar_mapa_un_marcador_por_zona (zonas : list valor) (capa : capa_zonas) :
  generar_mapa cos colores lat_min lat_max lon_min lon_max zonas = Ok capa →
  Forall2
    (λ z m, ∃ d,
       z = VDict d ∧
       m_lat m = default (VNum 0) (d !! "latitud") ∧
       m_lon m = default (VNum 0) (d !! "longitud") ∧
       m_id m = default (VStr "?") (d !! "id") ∧
       resolver_color (default (VStr "rojo") (d !! "color")) = Ok (m_facecolor m))
    (zonas_visibles capa) (marcadores capa) ∧
  Forall2
    (λ z f, ∃ d,
       z = VDict d ∧
       f_id f = default (VStr "?") (d !! "id") ∧
       f_nombre f = default (VStr "?") (d !! "nombre"))
    (zonas_visibles capa) (tabla capa).
Proof.
  intros H. apply generar_mapa_capa in H as (Hf & Hm & Ht). split.
  - unfold dibujar_zonas in Hm. apply bind_ok in Hm as (os & Hos & Hm).
    injection Hm as <-. apply para_cada_ok in Hos.
    assert (Hv : Forall (λ z, zona_visible lat_min lat_max lon_min lon_max z = Ok true)
                   (zonas_visibles capa)).
    { apply Forall_forall. intros z Hz. apply list_elem_of_In in Hz.
      apply (filtrar_ok _ _ _ Hf z) in Hz. tauto. }
    eapply Forall2_impl;
      [exact (marcadores_de_visibles cos colores lat_min lat_max lon_min lon_max _ _ _ Hv Hos)|].
    intros z m Hz. apply dibujar_zona_marcador in Hz
      as (d & y & -> & M1 & M2 & M3 & M4 & _).
    exists d. auto.
  - apply para_cada_ok in Ht. eapply Forall2_impl; [exact Ht|].
    intros z f Hz. destruct z as [| | | | |d]; try discriminate Hz.
    injection Hz as <-. exists d. auto.
Qed.



End CapaDeZonas.

Lemma generar_mapa_visibles_witness :
  ∃ capa,
    generar_mapa cos_ejemplo colores_ejemplo 22 33 (-120) (-108)
      [VDict zona_sin_latitud; VDict zona_playa]
      = Ok capa ∧
    zonas_visibles capa = [VDict zona_playa] ∧
    sublist (zonas_visibles capa) [VDict zona_sin_latitud; VDict zona_playa] ∧
    Forall
      (λ z, In z (zonas_visibles capa) ↔ zona_visible 22 33 (-120) (-108) z = Ok true)
      [VDict zona_sin_latitud; VDict zona_playa].
Proof.
  eexists. split; [vm_compute; reflexivity|]. split; [reflexivity|].
  apply (generar_mapa_visibles cos_ejemplo colores_ejemplo 22 33 (-120) (-108)
           [VDict zona_sin_latitud; VDict zona_playa]).
  vm_compute. reflexivity.
Defined.

Lemma generar_mapa_un_marcador_por_zona_witness :
  ∃ capa,
    generar_mapa cos_ejemplo colores_ejemplo (-5) 33 (-120) (-108)
      [VDict zona_sin_latitud; VDict zona_playa]
      = Ok capa ∧
    length (marcadores capa) = 2%nat ∧
    Forall2
      (λ z m, ∃ d,
         z = VDict d ∧
         m_lat m = default (VNum 0) (d !! "latitud") ∧
         m_lon m = default (VNum 0) (d !! "longitud") ∧
         m_id m = default (VStr "?") (d !! "id") ∧
         resolver_color (default (VStr "rojo") (d !! "color")) = Ok (m_facecolor m))
      (zonas_visibles capa) (marcadores capa) ∧
    Forall2
      (λ z f, ∃ d,
         z = VDict d ∧
         f_id f = default (VStr "?") (d !! "id") ∧
         f_nombre f = default (VStr "?") (d !! "nombre"))
      (zonas_visibles capa) (tabla capa).
Proof.
  eexists. split; [vm_compute; reflexivity|]. split; [reflexivity|].
  apply (generar_mapa_un_marcador_por_zona cos_ejemplo colores_ejemplo (-5) 33 (-120) (-108)
           [VDict zona_sin_latitud; VDict zona_playa]).
  vm_compute. reflexivity.
Defined.


(** ** The rows of the legend *)

Lemma menor_es_menor_o_igual (x y : float) :
  (x <? y)%float = true → (x <=? y)%float = true.
Proof.
  rewrite FloatAxioms.ltb_spec, FloatAxioms.leb_spec. unfold SFltb, SFleb.
  destruct (SFcompare (Prim2SF x) (Prim2SF y)) as [[]|]; intros H;
    first [discriminate H | reflexivity].
Qed.

(** X14: the row height of the legend is capped: for every number of
    zones it is at most 0.025, and it is exactly 0.025 as long as there
    are no more than 35 zones. *)
Theorem alto_fila_acotado (n : nat) :
  (alto_fila n <=? 0.025)%float = true ∧
  ((n ≤ 35)%nat → alto_fila n = 0.025%float).
Proof.
  split.
  - unfold alto_fila, py_min. cbv zeta.
    destruct (_ <? 0.025)%float eqn:E; [|reflexivity].
    apply menor_es_menor_o_igual, E.
  - intros H.
    do 36 (destruct n as [|n]; [vm_compute; reflexivity|]). lia.
Qed.

(** ** Colours, once more *)

Lemma minuscula_idempotente (c : ascii) : minuscula (minuscula c) = minuscula c.
Proof. destruct c as [[] [] [] [] [] [] [] []]; reflexivity. Qed.

Lemma quitar_izquierda_Forall (P : ascii → Prop) (p : ascii → bool) (l : list ascii) :
  Forall P l → Forall P (quitar_izquierda p l).
Proof.
  induction 1 as [|c l Hc Hl IH]; simpl; [constructor|].
  destruct (p c); [exact IH | constructor; assumption].
Qed.

Lemma quitar_derecha_Forall (P : ascii → Prop) (p : ascii → bool) (l : list ascii) :
  Forall P l → Forall P (quitar_derecha p l).
Proof.
  intros H. unfold quitar_derecha.
  apply Forall_rev, quitar_izquierda_Forall, Forall_rev, H.
Qed.

Lemma quitar_izquierda_fijo (p : ascii → bool) (c : ascii) (l : list ascii) :
  p c = false → quitar_izquierda p (c :: l) = c :: l.
Proof. intros H. simpl. rewrite H. reflexivity. Qed.

Lemma quitar_izquierda_final (p : ascii → bool) (c : ascii) (l : list ascii) :
  p c = false → quitar_izquierda p (l ++ [c]) = quitar_izquierda p l ++ [c].
Proof.
  intros H. induction l as [|x l IH]; simpl; [rewrite H; reflexivity|].
  destruct (p x); [exact IH | reflexivity].
Qed.

Lemma quitar_derecha_cabeza (p : ascii → bool) (c : ascii) (l : list ascii) :
  p c = false → quitar_derecha p (c :: l) = c :: quitar_derecha p l.
Proof.
  intros H. unfold quitar_derecha. simpl rev.
  rewrite (quitar_izquierda_final p c (rev l) H), rev_app_distr. reflexivity.
Qed.

Lemma quitar_izquierda_idempotente (p : ascii → bool) (l : list ascii) :
  quitar_izquierda p (quitar_izquierda p l) = quitar_izquierda p l.
Proof.
  induction l as [|c l IH]; simpl; [reflexivity|].
  destruct (p c) eqn:E; [exact IH | simpl; rewrite E; reflexivity].
Qed.

Lemma quitar_derecha_idempotente (p : ascii → bool) (l : list ascii) :
  quitar_derecha p (quitar_derecha p l) = quitar_derecha p l.
Proof.
  unfold quitar_derecha. rewrite rev_involutive, quitar_izquierda_idempotente.
  reflexivity.
Qed.

(** A string stripped at both ends has nothing left to strip. *)
Lemma recorte_fijo (p : ascii → bool) (l : list ascii) :
  let r := quitar_derecha p (quitar_izquierda p l) in
  quitar_derecha p (quitar_izquierda p r) = r.
Proof.
  cbv zeta.
  assert (H : quitar_izquierda p (quitar_derecha p (quitar_izquierda p l))
              = quitar_derecha p (quitar_izquierda p l)).
  { induction l as [|c l IH]; [reflexivity|].
    change (quitar_izquierda p (c :: l))
      with (if p c then quitar_izquierda p l else c :: l).
    destruct (p c) eqn:E; [exact IH|].
    rewrite (quitar_derecha_cabeza p c l E). apply quitar_izquierda_fijo, E. }
  rewrite H. apply quitar_derecha_idempotente.
Qed.

Lemma fmap_fijo {A} (f : A → A) (l : list A) :
  Forall (λ x, f x = x) l → f <$> l = l.
Proof.
  induction 1 as [|x l Hx _ IH]; [reflexivity|].
  cbn [fmap list_fmap]. rewrite Hx. f_equal. exact IH.
Qed.

Lemma nombre_resuelto_fijo (s : string) :
  strip (lower (strip (lower s))) = strip (lower s).
Proof.
  unfold strip at 2. unfold lower at 2.
  rewrite list_ascii_of_string_of_list_ascii.
  set (l := minuscula <$> list_ascii_of_string s).
  set (r := quitar_derecha es_espacio_str (quitar_izquierda es_espacio_str l)).
  assert (Hl : Forall (λ c, minuscula c = c) l).
  { unfold l. apply Forall_fmap, Forall_forall. intros c _. apply minuscula_idempotente. }
  assert (Hr : minuscula <$> r = r).
  { apply fmap_fijo, quitar_derecha_Forall, quitar_izquierda_Forall, Hl. }
  unfold lower, strip. rewrite !list_ascii_of_string_of_list_ascii, Hr.
  f_equal. apply recorte_fijo.
Qed.

Lemma colores_resueltos (nombre hex : string) :
  COLORES_ESPAÑOL !! nombre = Some hex → resolver_color (VStr hex) = Ok hex.
Proof.
  intros H. apply elem_of_list_to_map_2, list_elem_of_In in H. simpl in H.
  repeat (destruct H as [H|H]; [injection H as <- <-; vm_compute; reflexivity|]).
  destruct H.
Qed.

(** X15: a resolved colour is a fixed point of [resolver_color]: resolving
    the result again gives the same result, for the sixteen Spanish names
    as for any other text. *)
Theorem resolver_color_idempotente (v : valor) (c : string) :
  resolver_color v = Ok c → resolver_color (VStr c) = Ok c.
Proof.
  destruct v as [| | |s| |]; try discriminate. simpl.
  destruct (COLORES_ESPAÑOL !! strip (lower s)) as [hex|] eqn:E.
  - intros [= <-]. exact (colores_resueltos _ _ E).
  - intros H.
    assert (Hc : c = strip (lower s)) by (destruct (startswith _ _); congruence).
    subst c. rewrite nombre_resuelto_fijo, E.
    destruct (startswith _ _); reflexivity.
Qed.

Lemma resolver_color_idempotente_witness :
  resolver_color (VStr "#e63946") = Ok "#e63946".
Proof.
  apply (resolver_color_idempotente (VStr " ROJO ")). vm_compute. reflexivity.
Defined.

Lemma lstrip_cons (c a : ascii) (s : string) :
  lstrip c (String a s) = if Ascii.eqb c a then lstrip c s else String a s.
Proof.
  unfold lstrip. simpl. destruct (Ascii.eqb c a); [reflexivity|].
  simpl. rewrite string_of_list_ascii_of_string. reflexivity.
Qed.

Lemma lstrip_append (c : ascii) (s t : string) :
  lstrip c s ≠ "" → lstrip c (s +:+ t) = (lstrip c s +:+ t).
Proof.
  induction s as [|a s IH]; [intros H; destruct H; reflexivity|].
  change (String a s +:+ t) with (String a (s +:+ t)). rewrite !lstrip_cons.
  destruct (Ascii.eqb c a); [exact IH | reflexivity].
Qed.

Lemma substring_append (n m : nat) (h t : string) :
  (n + m ≤ String.length h)%nat → substring n m (h +:+ t) = substring n m h.
Proof.
  revert n m. induction h as [|a h IH]; intros n m H; simpl in H.
  - assert (n = 0%nat) by lia. assert (m = 0%nat) by lia. subst.
    destruct t; reflexivity.
  - destruct n as [|n]; simpl.
    + destruct m as [|m]; [reflexivity|]. rewrite (IH 0%nat m) by lia. reflexivity.
    + apply IH. lia.
Qed.

(** X16: the contrast rule reads only the first six characters after the
    leading [#] signs: one more [#] in front changes nothing, and neither
    does anything appended to a colour that has six characters or more
    after its [#] signs (an alpha channel, for instance). *)
Theorem color_texto_contraste_seis (s : string) :
  _color_texto_contraste (String "#" s) = _color_texto_contraste s ∧
  (∀ t, (6 ≤ String.length (lstrip "#" s))%nat →
        _color_texto_contraste (s +:+ t) = _color_texto_contraste s).
Proof.
  split.
  - unfold _color_texto_contraste, canales. rewrite lstrip_cons. reflexivity.
  - intros t H. unfold _color_texto_contraste, canales.
    rewrite lstrip_append by (intros E; rewrite E in H; simpl in H; lia).
    unfold slice. rewrite !substring_append by (simpl; lia). reflexivity.
Qed.

(** ** Choosing and downloading the datasets of [dibuja.py] *)

Lemma agregar_dataset_inv (seleccion : list string) (parte : string) :
  Dibuja.agregar_dataset seleccion parte = seleccion ∨
  ∃ clave, Dibuja.agregar_dataset seleccion parte = seleccion ++ [clave] ∧
           ¬ In clave seleccion ∧ In clave Dibuja.claves.
Proof.
  unfold Dibuja.agregar_dataset. destruct (py_int parte 10) as [n|e]; [|auto].
  destruct (_ && _)%Z; [|auto].
  destruct (Dibuja.claves !! Z.to_nat (n - 1)) as [clave|] eqn:E; [|auto].
  destruct (bool_decide (clave ∈ seleccion)) eqn:B; [auto|].
  right. exists clave. split; [reflexivity|]. split.
  - apply bool_decide_eq_false in B. rewrite <- list_elem_of_In. exact B.
  - apply list_elem_of_In. eapply list_elem_of_lookup_2. exact E.
Qed.

Lemma agregar_datasets_inv (partes : list string) :
  ∀ seleccion resto,
    seleccion = "estados" :: resto → NoDup seleccion →
    Forall (λ c, In c Dibuja.claves) seleccion →
    ∃ resto',
      fold_left Dibuja.agregar_dataset partes seleccion = "estados" :: resto' ∧
      NoDup ("estados" :: resto') ∧
      Forall (λ c, In c Dibuja.claves) ("estados" :: resto').
Proof.
  induction partes as [|parte partes IH]; intros seleccion resto -> Hnd Hc; simpl.
  - eauto.
  - destruct (agregar_dataset_inv ("estados" :: resto) parte)
      as [-> | (clave & -> & Hnew & Hin)].
    + eapply IH; eauto.
    + apply (IH _ (resto ++ [clave])); [reflexivity| |].
      * change ("estados" :: resto ++ [clave]) with (("estados" :: resto) ++ [clave]).
        apply NoDup_app. split; [exact Hnd|]. split.
        -- intros x Hx Hx'. apply list_elem_of_In in Hx.
           apply list_elem_of_In in Hx' as [<- | []]. exact (Hnew Hx).
        -- apply NoDup_singleton.
      * change ("estados" :: resto ++ [clave]) with (("estados" :: resto) ++ [clave]).
        apply Forall_app. split; [exact Hc|].
        apply Forall_cons. split; [exact Hin | constructor].
Qed.

Lemma pedir_datasets_inv (linea : string) :
  ∃ resto,
    Dibuja.pedir_datasets linea = "estados" :: resto ∧
    NoDup ("estados" :: resto) ∧
    Forall (λ c, In c Dibuja.claves) ("estados" :: resto).
Proof.
  unfold Dibuja.pedir_datasets. cbv zeta.
  assert (H0 : NoDup ["estados"]) by (apply NoDup_singleton).
  assert (H1 : Forall (λ c, In c Dibuja.claves) ["estados"])
    by (repeat constructor).
  destruct (negb _).
  - exact (agregar_datasets_inv _ ["estados"] [] eq_refl H0 H1).
  - exists []. auto.
Qed.

Lemma clave_en_claves (clave : string) : In clave Dibuja.claves → clave_conocida clave.
Proof.
  simpl. intros H.
  repeat (destruct H as [<- | H]; [eexists; reflexivity|]). destruct H.
Qed.

(** X17: whatever is typed, [pedir_datasets] returns a selection that
    starts with "estados", holds no key twice and holds only keys of
    [DATASETS]; a blank line selects "estados" alone. *)
Theorem pedir_datasets_seleccion (linea : string) :
  (∃ resto, Dibuja.pedir_datasets linea = "estados" :: resto) ∧
  NoDup (Dibuja.pedir_datasets linea) ∧
  Forall clave_conocida (Dibuja.pedir_datasets linea) ∧
  (strip linea = "" → Dibuja.pedir_datasets linea = ["estados"]).
Proof.
  destruct (pedir_datasets_inv linea) as (resto & E & Hnd & Hc).
  split; [eauto|]. rewrite E. split; [exact Hnd|]. split.
  - eapply Forall_impl; [exact Hc|]. intros c. apply clave_en_claves.
  - intros Hb. rewrite <- E. unfold Dibuja.pedir_datasets. rewrite Hb. reflexivity.
Qed.

Section Descargas.

Variable DATOS_DIR : string.
Variable red : string → intento.

(** A download into a path where there is no file: the URL is requested
    once; the file is there afterwards exactly when the download
    completed, and no other file appears or disappears. *)
Lemma descargar_a_spec (url ruta : string) (a a' : almacen) (completa : bool) :
  ruta ∉ presentes a →
  descargar_a red url ruta a = (a', completa) →
  pedidos a' = pedidos a ++ [url] ∧
  presentes a' = (if completa then {[ruta]} ∪ presentes a else presentes a).
Proof.
  intros Hno. unfold descargar_a. cbv zeta.
  destruct (red url) as [|[|]]; simpl.
  - intros [= <- <-]. auto.
  - rewrite bool_decide_eq_true_2 by set_solver.
    intros [= <- <-]. simpl. split; [reflexivity|]. set_solver.
  - rewrite bool_decide_eq_false_2 by exact Hno.
    intros [= <- <-]. auto.
Qed.

Lemma descargar_dataset_spec (clave : string) (ds : Dibuja.dataset) (a : almacen) :
  Dibuja.dataset_de clave = Some ds →
  let ruta := Dibuja.ruta_de DATOS_DIR (Dibuja.ds_archivo ds) in
  ∃ a' r,
    Dibuja.descargar_dataset DATOS_DIR red clave a = Some (a', r) ∧
    (r = Some ruta ∨ r = None) ∧
    (r = Some ruta ↔ ruta ∈ presentes a') ∧
    presentes a' =
      match r with Some _ => {[ruta]} ∪ presentes a | None => presentes a end ∧
    (ruta ∈ presentes a → a' = a ∧ r = Some ruta) ∧
    (ruta ∉ presentes a → pedidos a' = pedidos a ++ [Dibuja.ds_url ds]).
Proof.
  intros Hds ruta. unfold Dibuja.descargar_dataset. rewrite Hds. simpl. fold ruta.
  destruct (bool_decide (ruta ∈ presentes a)) eqn:B.
  - apply bool_decide_eq_true in B. exists a, (Some ruta).
    split; [reflexivity|]. split; [auto|]. split; [tauto|].
    split; [set_solver|]. split; [auto | tauto].
  - apply bool_decide_eq_false in B.
    destruct (descargar_a red (Dibuja.ds_url ds) ruta a) as [a' completa] eqn:E.
    destruct (descargar_a_spec _ _ _ _ _ B E) as [Hp Hs].
    exists a'. destruct completa; eexists; (split; [reflexivity|]).
    + split; [auto|]. split; [split; [intros _; set_solver | reflexivity]|].
      split; [exact Hs|]. split; [tauto | auto].
    + split; [auto|]. split; [split; [discriminate | intros Hin; set_solver]|].
      split; [exact Hs|]. split; [tauto | auto].
Qed.

(** X18: [descargar_dataset], for a key of [DATASETS]: when the archive is
    already there it is returned without any request and nothing changes;
    otherwise its URL is requested once; the path is returned exactly when
    the archive is there afterwards, and after a failed download nothing
    is left behind: the files are those that were there before. *)
Theorem descargar_dataset_cache (clave : string) (ds : Dibuja.dataset) (a : almacen) :
  Dibuja.dataset_de clave = Some ds →
  ∃ a' r,
    Dibuja.descargar_dataset DATOS_DIR red clave a = Some (a', r) ∧
    (r = Some (Dibuja.ruta_de DATOS_DIR (Dibuja.ds_archivo ds)) ∨ r = None) ∧
    (r = Some (Dibuja.ruta_de DATOS_DIR (Dibuja.ds_archivo ds)) ↔
     Dibuja.ruta_de DATOS_DIR (Dibuja.ds_archivo ds) ∈ presentes a') ∧
    presentes a' =
      match r with
      | Some _ => {[Dibuja.ruta_de DATOS_DIR (Dibuja.ds_archivo ds)]} ∪ presentes a
      | None => presentes a
      end ∧
    (Dibuja.ruta_de DATOS_DIR (Dibuja.ds_archivo ds) ∈ presentes a →
     a' = a ∧ r = Some (Dibuja.ruta_de DATOS_DIR (Dibuja.ds_archivo ds))) ∧
    (Dibuja.ruta_de DATOS_DIR (Dibuja.ds_archivo ds) ∉ presentes a →
     pedidos a' = pedidos a ++ [Dibuja.ds_url ds]).
Proof. intros H. exact (descargar_dataset_spec clave ds a H). Qed.

Lemma descargar_cada_spec (seleccion : list string) :
  Forall clave_conocida seleccion →
  ∀ a rutas,
    ∃ a' rutas',
      Dibuja.descargar_cada DATOS_DIR red seleccion a rutas = Some (a', rutas') ∧
      presentes a ⊆ presentes a' ∧
      (∀ clave r, rutas' !! clave = Some r →
         rutas !! clave = Some r ∨
         (In clave seleccion ∧ r ∈ presentes a' ∧
          ∃ ds, Dibuja.dataset_de clave = Some ds ∧
                r = Dibuja.ruta_de DATOS_DIR (Dibuja.ds_archivo ds))).
Proof.
  induction 1 as [|clave resto [ds Hds] _ IH]; intros a rutas.
  - exists a, rutas. split; [reflexivity|]. split; [set_solver | auto].
  - destruct (descargar_dataset_spec clave ds a Hds)
      as (a1 & r & E & Hr & Hiff & Hp & _ & _).
    cbn [Dibuja.descargar_cada]. rewrite E. cbn [mbind option_bind].
    destruct (IH a1 (match r with Some r0 => <[clave:=r0]> rutas | None => rutas end))
      as (a' & rutas' & E' & Hsub & Hrutas).
    exists a', rutas'. split; [exact E'|]. split.
    + destruct r; rewrite Hp in Hsub; set_solver.
    + intros c r' Hc. destruct (Hrutas c r' Hc) as [Hold | (Hin & Hpres & Hd)].
      * destruct r as [r0|]; [|auto].
        destruct (decide (clave = c)) as [<- | Hne].
        -- rewrite lookup_insert_eq in Hold. injection Hold as <-.
           destruct Hr as [Hr | Hr]; [|discriminate Hr].
           right. split; [left; reflexivity|]. split.
           ++ injection Hr as ->. apply Hsub, Hiff. reflexivity.
           ++ exists ds. split; [exact Hds | congruence].
        -- rewrite lookup_insert_ne in Hold by exact Hne. auto.
      * right. split; [right; exact Hin | auto].
Qed.

(** X19: for a selection of keys of [DATASETS],
    [descargar_datasets_seleccionados] returns without a KeyError; every
    entry of the dict it returns is for a selected key and gives the path
    of that dataset's archive, which is there afterwards; and no file that
    was there before is lost. *)
Theorem descargar_datasets_rutas (seleccion : list string) (a : almacen) :
  Forall clave_conocida seleccion →
  ∃ a' rutas,
    Dibuja.descargar_datasets_seleccionados DATOS_DIR red seleccion a = Some (a', rutas) ∧
    presentes a ⊆ presentes a' ∧
    (∀ clave r, rutas !! clave = Some r →
       In clave seleccion ∧ r ∈ presentes a' ∧
       ∃ ds, Dibuja.dataset_de clave = Some ds ∧
             r = Dibuja.ruta_de DATOS_DIR (Dibuja.ds_archivo ds)).
Proof.
  intros H. unfold Dibuja.descargar_datasets_seleccionados.
  destruct (descargar_cada_spec seleccion H a ∅) as (a' & rutas & E & Hsub & Hr).
  exists a', rutas. split; [exact E|]. split; [exact Hsub|].
  intros clave r Hc. destruct (Hr clave r Hc) as [Hold | Hnew]; [|exact Hnew].
  rewrite lookup_empty in Hold. discriminate Hold.
Qed.

(** X20: the selection [pedir_datasets] returns can always be passed to
    [descargar_datasets_seleccionados]: no key of it is unknown. *)
Theorem pedir_y_descargar (linea : string) (a : almacen) :
  ∃ a' rutas,
    Dibuja.descargar_datasets_seleccionados DATOS_DIR red (Dibuja.pedir_datasets linea) a
      = Some (a', rutas) ∧
    ∀ clave, is_Some (rutas !! clave) → In clave (Dibuja.pedir_datasets linea).
Proof.
  destruct (pedir_datasets_inv linea) as (resto & E & _ & Hc).
  assert (Hk : Forall clave_conocida (Dibuja.pedir_datasets linea)).
  { rewrite E. eapply Forall_impl; [exact Hc|]. intros c. apply clave_en_claves. }
  unfold Dibuja.descargar_datasets_seleccionados.
  destruct (descargar_cada_spec _ Hk a ∅) as (a' & rutas & E' & _ & Hr).
  exists a', rutas. split; [exact E'|].
  intros clave [r Hc']. destruct (Hr clave r Hc') as [Hold | (Hin & _)]; [|exact Hin].
  rewrite lookup_empty in Hold. discriminate Hold.
Qed.

(** X21: [descargar_datos] of [mapa.py]: it returns the path exactly when
    the archive is there afterwards; when the archive was already there
    nothing is requested and nothing changes; a failed download is raised
    to the caller and leaves no file behind. *)
Theorem descargar_datos_cache (url ruta : string) (a : almacen) :
  ∃ a' r,
    Mapa.descargar_datos red url ruta a = (a', r) ∧
    (r = Ok ruta ∨ r = Lanza OSError) ∧
    (r = Ok ruta ↔ ruta ∈ presentes a') ∧
    (ruta ∈ presentes a → a' = a) ∧
    (r = Lanza OSError → presentes a' = presentes a ∧ pedidos a' = pedidos a ++ [url]).
Proof.
  unfold Mapa.descargar_datos.
  destruct (bool_decide (ruta ∈ presentes a)) eqn:B.
  - apply bool_decide_eq_true in B. exists a, (Ok ruta).
    split; [reflexivity|]. split; [auto|]. split; [tauto|]. split; [auto | discriminate].
  - apply bool_decide_eq_false in B.
    destruct (descargar_a red url ruta a) as [a' completa] eqn:E.
    destruct (descargar_a_spec _ _ _ _ _ B E) as [Hp Hs].
    exists a'. destruct completa; eexists; (split; [reflexivity|]).
    + split; [auto|]. split; [split; [intros _; set_solver | reflexivity]|].
      split; [tauto | discriminate].
    + split; [auto|]. split; [split; [discriminate | intros Hin; set_solver]|].
      split; [tauto | auto].
Qed.

End Descargas.

Lemma descargar_dataset_cache_witness :
  ∃ a' r,
    Dibuja.descargar_dataset "/datos" red_ejemplo "ciudades" almacen_vacio = Some (a', r) ∧
    (r = Some (Dibuja.ruta_de "/datos" "ne_10m_populated_places.zip") ∨ r = None) ∧
    (r = Some (Dibuja.ruta_de "/datos" "ne_10m_populated_places.zip") ↔
     Dibuja.ruta_de "/datos" "ne_10m_populated_places.zip" ∈ presentes a') ∧
    presentes a' =
      match r with
      | Some _ => {[Dibuja.ruta_de "/datos" "ne_10m_populated_places.zip"]}
                    ∪ presentes almacen_vacio
      | None => presentes almacen_vacio
      end ∧
    (Dibuja.ruta_de "/datos" "ne_10m_populated_places.zip" ∈ presentes almacen_vacio →
     a' = almacen_vacio ∧
     r = Some (Dibuja.ruta_de "/datos" "ne_10m_populated_places.zip")) ∧
    (Dibuja.ruta_de "/datos" "ne_10m_populated_places.zip" ∉ presentes almacen_vacio →
     pedidos a' = pedidos almacen_vacio ++
       ["https://naciscdn.org/naturalearth/10m/cultural/ne_10m_populated_places.zip"]).
Proof.
  apply (descargar_dataset_cache "/datos" red_ejemplo "ciudades"
           {| Dibuja.ds_nombre := "Ciudades/Localidades (puntos)";
              Dibuja.ds_archivo := "ne_10m_populated_places.zip";
              Dibuja.ds_url :=
                "https://naciscdn.org/naturalearth/10m/cultural/ne_10m_populated_places.zip";
              Dibuja.ds_tipo := "punto" |} almacen_vacio).
  reflexivity.
Defined.

Lemma descargar_datasets_rutas_witness :
  ∃ a' rutas,
    Dibuja.descargar_datasets_seleccionados "/datos" red_ejemplo
      ["estados"; "ciudades"] almacen_vacio = Some (a', rutas) ∧
    presentes almacen_vacio ⊆ presentes a' ∧
    (∀ clave r, rutas !! clave = Some r →
       In clave ["estados"; "ciudades"] ∧ r ∈ presentes a' ∧
       ∃ ds, Dibuja.dataset_de clave = Some ds ∧
             r = Dibuja.ruta_de "/datos" (Dibuja.ds_archivo ds)).
Proof.
  apply (descargar_datasets_rutas "/datos" red_ejemplo ["estados"; "ciudades"] almacen_vacio).
  repeat constructor; eexists; reflexivity.
Defined.

(** With the cities download breaking off, only the states archive is in
    the dict and on disk, and both URLs were requested once. *)
Example descargar_datasets_ejemplo :
  Dibuja.descargar_datasets_seleccionados "/datos" red_ejemplo
    ["estados"; "ciudades"] almacen_vacio =
  Some ({| presentes := {["/datos/ne_10m_admin_1_states_provinces.zip"]};
           pedidos :=
             [ "https://naciscdn.org/naturalearth/10m/cultural/ne_10m_admin_1_states_provinces.zip";
               "https://naciscdn.org/naturalearth/10m/cultural/ne_10m_populated_places.zip" ] |},
        {[ "estados" := "/datos/ne_10m_admin_1_states_provinces.zip" ]}).
Proof. vm_compute. reflexivity. Qed.

(** ** The loaders of states and countries, and the city labels *)

Lemma filter_sublist {A} (p : A → bool) (l : list A) : sublist (List.filter p l) l.
Proof.
  induction l as [|x l IH]; simpl; [constructor|].
  destruct (p x); [apply sublist_skip | apply sublist_cons]; exact IH.
Qed.

Lemma SFcompare_lt_le_trans (a b c : spec_float) :
  SFcompare a b = Some Lt →
  SFcompare b c = Some Lt ∨ SFcompare b c = Some Eq →
  SFcompare a c = Some Lt.
Proof.
  destruct a as [sa|sa| |sa ma ea], b as [sb|sb| |sb mb eb], c as [sc|sc| |sc mc ec];
    simpl; intros H1 [H2|H2]; try discriminate;
    try (destruct sa; try discriminate); try (destruct sb; try discriminate);
    try (destruct sc; try discriminate); try reflexivity;
    revert H1 H2;
    change (PosDef.Pos.compare_cont Eq) with Pos.compare;
    repeat match goal with
           | |- context [(?x ?= ?y)%Z] => destruct (Z.compare_spec x y)
           | |- context [(?x ?= ?y)%positive] => destruct (Pos.compare_spec x y)
           end; simpl; intros; try discriminate; try reflexivity; subst; try lia.
Qed.

(** [c < x] and [x <= y] give [c < y]. *)
Lemma menor_transitivo (c x y : float) :
  (c <? x)%float = true → (x <=? y)%float = true → (c <? y)%float = true.
Proof.
  rewrite !FloatAxioms.ltb_spec, FloatAxioms.leb_spec. unfold SFltb, SFleb.
  intros H1 H2.
  rewrite (SFcompare_lt_le_trans (Prim2SF c) (Prim2SF x) (Prim2SF y)); [reflexivity| |].
  - destruct (SFcompare (Prim2SF c) (Prim2SF x)) as [[]|]; first [discriminate H1 | reflexivity].
  - destruct (SFcompare (Prim2SF x) (Prim2SF y)) as [[]|]; first [discriminate H2 | auto].
Qed.

Lemma igual_es_menor_o_igual (x y : float) :
  (x =? y)%float = true → (x <=? y)%float = true.
Proof.
  rewrite FloatAxioms.eqb_spec, FloatAxioms.leb_spec. unfold SFeqb, SFleb.
  destruct (SFcompare (Prim2SF x) (Prim2SF y)) as [[]|]; intros H;
    first [discriminate H | reflexivity].
Qed.

Section Cargadores.

Variable geometria : Type.
Variable within : geometria → Dibuja.caja → bool.
Variable intersects : geometria → Dibuja.caja → bool.

Lemma celda_igual_inv (texto : string) (m : gmap string valor) (col : string) :
  Dibuja.celda_igual texto (default VNone (m !! col)) = true →
  m !! col = Some (VStr texto).
Proof.
  destruct (m !! col) as [[| | |s| |]|]; simpl; try discriminate.
  intros H. apply String.eqb_eq in H. congruence.
Qed.

Lemma celda_en_inv (textos : list string) (m : gmap string valor) (col : string) :
  Dibuja.celda_en textos (default VNone (m !! col)) = true →
  ∃ s, m !! col = Some (VStr s) ∧ In s textos.
Proof.
  destruct (m !! col) as [[| | |s| |]|]; simpl; try discriminate.
  intros H. apply bool_decide_eq_true, list_elem_of_In in H. eauto.
Qed.

(** X22: [cargar_estados] (and [cargar_datos], which has the same body),
    on a dataset whose "name" column is a text column, fails with a
    KeyError exactly when the dataset lacks the "admin" or the "name"
    column.  Otherwise it keeps the columns and returns rows of the
    dataset in their order, every one of them a row of Mexico whose name
    is one of the two states or, failing that, contains "baja" in any
    letter case; and as soon as the dataset has an exact match, the rows
    returned are exactly the exact matches. *)
Theorem cargar_estados_filas (gdf : Dibuja.GeoDataFrame geometria)
    (lat_min lat_max lon_min lon_max : float) :
  columna_de_texto "name" gdf →
  (is_Some (Dibuja.cargar_estados _ gdf lat_min lat_max lon_min lon_max) ↔
   In "admin" (Dibuja.columns _ gdf) ∧ In "name" (Dibuja.columns _ gdf)) ∧
  (∀ baja,
     Dibuja.cargar_estados _ gdf lat_min lat_max lon_min lon_max = Some baja →
     Dibuja.columns _ baja = Dibuja.columns _ gdf ∧
     sublist (Dibuja.filas _ baja) (Dibuja.filas _ gdf) ∧
     (∀ f, In f (Dibuja.filas _ baja) →
        Dibuja.celdas _ f !! "admin" = Some (VStr "Mexico") ∧
        ∃ n, Dibuja.celdas _ f !! "name" = Some (VStr n) ∧
             (n = "Baja California" ∨ n = "Baja California Sur" ∨
              contiene "baja" (lower n) = true)) ∧
     ((∃ f, In f (Dibuja.filas _ gdf) ∧ estado_exacto f) →
      ∀ f, In f (Dibuja.filas _ baja) ↔ In f (Dibuja.filas _ gdf) ∧ estado_exacto f)).
Proof.
  intros _. unfold Dibuja.cargar_estados, Dibuja.columna, Dibuja.tiene_columna.
  split.
  - destruct (bool_decide ("admin" ∈ Dibuja.columns _ gdf)) eqn:Ba;
      destruct (bool_decide ("name" ∈ Dibuja.columns _ gdf)) eqn:Bn; simpl;
      try apply bool_decide_eq_true in Ba; try apply bool_decide_eq_true in Bn;
      try apply bool_decide_eq_false in Ba; try apply bool_decide_eq_false in Bn;
      rewrite <- !list_elem_of_In.
    + split; [auto|]. intros _. destruct (Dibuja.empty _ _); eauto.
    + split; [intros [x Hx]; discriminate Hx | tauto].
    + split; [intros [x Hx]; discriminate Hx | tauto].
    + split; [intros [x Hx]; discriminate Hx | tauto].
  - intros baja.
    destruct (bool_decide ("admin" ∈ Dibuja.columns _ gdf)); [|discriminate].
    destruct (bool_decide ("name" ∈ Dibuja.columns _ gdf)); [|discriminate].
    simpl.
    set (exacta := λ f : Dibuja.fila geometria,
           Dibuja.celda_igual "Mexico" (default VNone (Dibuja.celdas _ f !! "admin")) &&
           Dibuja.celda_en ["Baja California"; "Baja California Sur"]
             (default VNone (Dibuja.celdas _ f !! "name"))).
    assert (Hex : ∀ f, exacta f = true ↔ estado_exacto f).
    { intros f. unfold exacta, estado_exacto. rewrite andb_true_iff. split.
      - intros [H1 H2]. apply celda_igual_inv in H1.
        apply celda_en_inv in H2 as (s & Hs & [<- | [<- | []]]); auto.
      - intros [H1 H2]. rewrite H1. split; [reflexivity|].
        destruct H2 as [-> | ->]; reflexivity. }
    unfold Dibuja.empty. simpl Dibuja.filas.
    destruct (List.filter exacta (Dibuja.filas _ gdf)) as [|f0 fs] eqn:Ef; simpl;
      intros [= <-]; simpl.
    + split; [reflexivity|]. split.
      { etrans; apply filter_sublist. }
      split.
      * intros f Hf. apply filter_In in Hf as [Hf Hc].
        apply filter_In in Hf as [_ Ha]. apply celda_igual_inv in Ha.
        split; [exact Ha|].
        destruct (Dibuja.celdas _ f !! "name") as [[| | |n| |]|]; try discriminate Hc.
        exists n. split; [reflexivity|]. right. right. exact Hc.
      * intros (f & Hf & Hx). exfalso.
        assert (Hin : In f (List.filter exacta (Dibuja.filas _ gdf)))
          by (apply filter_In; split; [exact Hf | apply Hex, Hx]).
        rewrite Ef in Hin. destruct Hin.
    + split; [reflexivity|]. split; [apply filter_sublist|]. split.
      * intros f Hf. apply filter_In in Hf as [_ Hf]. apply Hex in Hf as [H1 H2].
        split; [exact H1|]. destruct H2 as [H2 | H2]; eauto.
      * intros _ f. rewrite filter_In, Hex. reflexivity.
Qed.

(** X23: [cargar_paises] returns rows of the dataset in their order, and
    whenever the dataset has an "ADMIN" or a "NAME" column the region
    bounds play no part: the same rows come back for any bounds, each of
    Mexico or the United States of America by that column ("ADMIN" first);
    only without both columns are the rows those that intersect the box,
    and then they are all of them. *)
Theorem cargar_paises_filas (gdf : Dibuja.GeoDataFrame geometria)
    (lat_min lat_max lon_min lon_max : float) :
  sublist (Dibuja.filas _ (Dibuja.cargar_paises _ intersects gdf lat_min lat_max lon_min lon_max))
    (Dibuja.filas _ gdf) ∧
  (In "ADMIN" (Dibuja.columns _ gdf) ∨ In "NAME" (Dibuja.columns _ gdf) →
   ∀ a b c d,
     Dibuja.cargar_paises _ intersects gdf a b c d
       = Dibuja.cargar_paises _ intersects gdf lat_min lat_max lon_min lon_max) ∧
  (∀ f, In f (Dibuja.filas _
                (Dibuja.cargar_paises _ intersects gdf lat_min lat_max lon_min lon_max)) →
     (In "ADMIN" (Dibuja.columns _ gdf) →
        ∃ s, Dibuja.celdas _ f !! "ADMIN" = Some (VStr s) ∧
             In s ["Mexico"; "United States of America"]) ∧
     (¬ In "ADMIN" (Dibuja.columns _ gdf) → In "NAME" (Dibuja.columns _ gdf) →
        ∃ s, Dibuja.celdas _ f !! "NAME" = Some (VStr s) ∧
             In s ["Mexico"; "United States of America"]) ∧
     (¬ In "ADMIN" (Dibuja.columns _ gdf) → ¬ In "NAME" (Dibuja.columns _ gdf) →
        intersects (Dibuja.geometry _ f)
          (Dibuja.box lon_min lat_min lon_max lat_max) = true)) ∧
  (¬ In "ADMIN" (Dibuja.columns _ gdf) → ¬ In "NAME" (Dibuja.columns _ gdf) →
   ∀ f, In f (Dibuja.filas _
                (Dibuja.cargar_paises _ intersects gdf lat_min lat_max lon_min lon_max)) ↔
        In f (Dibuja.filas _ gdf) ∧
        intersects (Dibuja.geometry _ f)
          (Dibuja.box lon_min lat_min lon_max lat_max) = true).
Proof.
  unfold Dibuja.cargar_paises, Dibuja.tiene_columna.
  destruct (bool_decide ("ADMIN" ∈ Dibuja.columns _ gdf)) eqn:Ba;
    [apply bool_decide_eq_true in Ba | apply bool_decide_eq_false in Ba];
    rewrite list_elem_of_In in Ba.
  - split; [apply filter_sublist|]. split; [reflexivity|].
    split; [|intros Hno; destruct (Hno Ba)].
    intros f Hf. apply filter_In in Hf as [_ Hf]. apply celda_en_inv in Hf.
    split; [auto|]. split; intros Hno; destruct (Hno Ba).
  - destruct (bool_decide ("NAME" ∈ Dibuja.columns _ gdf)) eqn:Bn;
      [apply bool_decide_eq_true in Bn | apply bool_decide_eq_false in Bn];
      rewrite list_elem_of_In in Bn.
    + split; [apply filter_sublist|]. split; [reflexivity|].
      split; [|intros _ Hno; destruct (Hno Bn)].
      intros f Hf. apply filter_In in Hf as [_ Hf]. apply celda_en_inv in Hf.
      split; [intros H; destruct (Ba H)|]. split; [auto|]. intros _ Hno. destruct (Hno Bn).
    + split; [apply filter_sublist|].
      split; [intros [H | H]; [destruct (Ba H) | destruct (Bn H)]|].
      split; [|intros _ _ f; apply filter_In].
      intros f Hf. apply filter_In in Hf as [_ Hf].
      split; [intros H; destruct (Ba H)|]. split; [intros _ H; destruct (Bn H)|]. auto.
Qed.

End Cargadores.

Lemma cargar_estados_filas_witness :
  is_Some (Dibuja.cargar_estados unit estados_ejemplo 22 33 (-120) (-108)).
Proof.
  assert (H : columna_de_texto "name" estados_ejemplo)
    by (cbv [columna_de_texto estados_ejemplo Dibuja.filas];
        repeat (apply Forall_cons; split; [vm_compute; exact I|]); constructor).
  destruct (cargar_estados_filas unit estados_ejemplo 22 33 (-120) (-108) H) as [[_ Hc] _].
  apply Hc. split; simpl; tauto.
Defined.

(** Of the four rows of the sample, the two states of the peninsula are
    returned, in the order of the dataset. *)
Example cargar_estados_ejemplo :
  Dibuja.filas _ <$> Dibuja.cargar_estados unit estados_ejemplo 22 33 (-120) (-108) =
    Some [fila_estado "Mexico" "Baja California Sur"; fila_estado "Mexico" "Baja California"].
Proof. vm_compute. reflexivity. Qed.

(** X24: the font size of a city label never decreases with the
    population: for two numeric populations p1 <= p2 the size for p1 is at
    most the size for p2, and every size is between 7 and 10. *)
Theorem tamano_fuente_monotono (p1 p2 : float) (s1 s2 : Z) :
  (p1 <=? p2)%float = true →
  Dibuja.tamano_fuente (VNum p1) = Ok s1 →
  Dibuja.tamano_fuente (VNum p2) = Ok s2 →
  (7 ≤ s1 ≤ s2)%Z ∧ (s2 ≤ 10)%Z.
Proof.
  intros Hle. unfold Dibuja.tamano_fuente. simpl es_verdadero. simpl como_numero.
  cbn [mbind resultado_bind].
  assert (Hcero : ∀ c, (c <? p1)%float = true → (p2 =? 0)%float = true →
                       (c <? 0)%float = true).
  { intros c H1 H2. apply (menor_transitivo c p2 0); [|apply igual_es_menor_o_igual, H2].
    apply (menor_transitivo c p1 p2 H1 Hle). }
  destruct (negb (p1 =? 0)%float) eqn:Z1; destruct (negb (p2 =? 0)%float) eqn:Z2;
    cbn [mbind resultado_bind].
  - destruct (500000 <? p1)%float eqn:A1.
    { rewrite (menor_transitivo _ _ _ A1 Hle). intros [= <-] [= <-]. lia. }
    destruct (100000 <? p1)%float eqn:B1.
    { rewrite (menor_transitivo _ _ _ B1 Hle).
      destruct (500000 <? p2)%float; intros [= <-] [= <-]; lia. }
    destruct (50000 <? p1)%float eqn:C1.
    { rewrite (menor_transitivo _ _ _ C1 Hle).
      destruct (500000 <? p2)%float; [intros [= <-] [= <-]; lia|].
      destruct (100000 <? p2)%float; intros [= <-] [= <-]; lia. }
    destruct (500000 <? p2)%float; [intros [= <-] [= <-]; lia|].
    destruct (100000 <? p2)%float; [intros [= <-] [= <-]; lia|].
    destruct (50000 <? p2)%float; intros [= <-] [= <-]; lia.
  - apply negb_false_iff in Z2.
    destruct (500000 <? p1)%float eqn:A1; [discriminate (Hcero _ A1 Z2)|].
    destruct (100000 <? p1)%float eqn:B1; [discriminate (Hcero _ B1 Z2)|].
    destruct (50000 <? p1)%float eqn:C1; [discriminate (Hcero _ C1 Z2)|].
    intros [= <-] [= <-]. lia.
  - destruct (500000 <? p2)%float; [intros [= <-] [= <-]; lia|].
    destruct (100000 <? p2)%float; [intros [= <-] [= <-]; lia|].
    destruct (50000 <? p2)%float; intros [= <-] [= <-]; lia.
  - intros [= <-] [= <-]. lia.
Qed.

Lemma tamano_fuente_monotono_witness : (7 ≤ 8 ≤ 10)%Z ∧ (10 ≤ 10)%Z.
Proof.
  apply (tamano_fuente_monotono 75000 1400000 8 10); reflexivity.
Defined.
